(** * Cesium geometry workers: packing protocol and batch dispatch

    A shallow embedding of the worker modules
    [createCircleOutlineGeometry], [createSphereOutlineGeometry],
    [createEllipseGeometry], [createCylinderGeometry] and [createGeometry]
    of the unminified Cesium build, over a small model of the JavaScript
    heap: objects are mutable cells reached through references, so that the
    module-level scratch instances, the objects handed in by a caller and the
    objects a constructor allocates can alias exactly as they do in the
    source. *)

From Stdlib Require Import String List Bool Arith Lia PrimFloat.
Import ListNotations.
Open Scope string_scope.
Set Warnings "-inexact-float,-register-all".

(** ** The JavaScript fragment the workers use *)

Module JS.

Definition loc := nat.

(** A JavaScript value. A Number is an IEEE 754 binary64. A function
    value is identified by the path of the module that exports it. The
    result of a tessellation is kept symbolic ([VGeometry]): the shape
    kind and the numeric inputs it was computed from. *)
Inductive value : Type :=
| VUndefined
| VNumber (x : float)
| VString (s : string)
| VRef (l : loc)
| VFunction (path : string)
| VGeometry (shape : string) (inputs : list value).

(** The conditions the workers raise. [DeveloperError] is the spec's
    InvalidArgument; [TypeError] is what the language itself raises, for
    instance when a property of [undefined] is read; [RuntimeError] is a
    module that cannot be resolved. *)
Inductive exn : Type :=
| DeveloperError (message : string)
| TypeError (message : string)
| RuntimeError (message : string).

(** An object maps every property name to a value; a property that was
    never written reads [undefined]. *)
Definition object := string -> value.

Inductive cell : Type :=
| Object (fields : object)
| Array (elements : list value).

(** [loads] logs the calls of the module loader, oldest last. *)
Record state : Type := mkState
  { heap : loc -> option cell;
    next : loc;
    loads : list string }.

Inductive outcome (A : Type) : Type :=
| Return (a : A) (s : state)
| Throw (e : exn) (s : state).
Arguments Return {A} a s.
Arguments Throw {A} e s.

Definition M (A : Type) : Type := state -> outcome A.

Definition ret {A} (a : A) : M A := fun s => Return a s.

Definition bind {A B} (c : M A) (k : A -> M B) : M B :=
  fun s => match c s with
           | Return a s' => k a s'
           | Throw e s' => Throw e s'
           end.

Definition throw {A} (e : exn) : M A := fun s => Throw e s.

Definition empty_object : object := fun _ => VUndefined.

Definition oupd (o : object) (k : string) (v : value) : object :=
  fun k' => if String.eqb k' k then v else o k'.

Definition hupd (h : loc -> option cell) (l : loc) (c : cell)
  : loc -> option cell :=
  fun l' => if Nat.eqb l' l then Some c else h l'.

Definition set_heap (s : state) (h : loc -> option cell) : state :=
  mkState h (next s) (loads s).

Definition empty_state : state := mkState (fun _ => None) 0 [].

(** Allocation of a fresh cell. *)
Definition alloc (c : cell) : M value :=
  fun s => Return (VRef (next s))
                  (mkState (hupd (heap s) (next s) c) (S (next s)) (loads s)).

(** [v.k] *)
Definition getField (v : value) (k : string) : M value :=
  fun s =>
    match v with
    | VUndefined => Throw (TypeError "Cannot read properties of undefined") s
    | VRef l =>
        match heap s l with
        | Some (Object o) => Return (o k) s
        | Some (Array _) => Return VUndefined s
        | None => Throw (TypeError "dangling reference") s
        end
    | _ => Return VUndefined s
    end.

(** [v.k = x], in strict mode. *)
Definition setField (v : value) (k : string) (x : value) : M unit :=
  fun s =>
    match v with
    | VRef l =>
        match heap s l with
        | Some (Object o) =>
            Return tt (set_heap s (hupd (heap s) l (Object (oupd o k x))))
        | _ => Throw (TypeError "Cannot set property") s
        end
    | VUndefined => Throw (TypeError "Cannot set properties of undefined") s
    | _ => Throw (TypeError "Cannot create property") s
    end.

(** Writing past the end of an array extends it; the holes read
    [undefined]. *)
Fixpoint array_set (l : list value) (i : nat) (v : value) : list value :=
  match i, l with
  | 0, [] => [v]
  | 0, _ :: t => v :: t
  | S i', [] => VUndefined :: array_set [] i' v
  | S i', x :: t => x :: array_set t i' v
  end.

(** [a[i]] for an array [a] *)
Definition getIndex (a : value) (i : nat) : M value :=
  fun s =>
    match a with
    | VUndefined => Throw (TypeError "Cannot read properties of undefined") s
    | VRef l =>
        match heap s l with
        | Some (Array els) => Return (nth i els VUndefined) s
        | Some (Object _) => Throw (TypeError "not an array") s
        | None => Throw (TypeError "dangling reference") s
        end
    | _ => Return VUndefined s
    end.

(** [a[i] = x] for an array [a] *)
Definition setIndex (a : value) (i : nat) (x : value) : M unit :=
  fun s =>
    match a with
    | VRef l =>
        match heap s l with
        | Some (Array els) =>
            Return tt (set_heap s (hupd (heap s) l (Array (array_set els i x))))
        | _ => Throw (TypeError "not an array") s
        end
    | VUndefined => Throw (TypeError "Cannot set properties of undefined") s
    | _ => Throw (TypeError "Cannot create property") s
    end.

(** [typeof v] *)
Definition typeOf (v : value) : string :=
  match v with
  | VUndefined => "undefined"
  | VNumber _ => "number"
  | VString _ => "string"
  | VRef _ => "object"
  | VFunction _ => "function"
  | VGeometry _ _ => "object"
  end.

(** An object literal [{k1: v1, ..., kn: vn}]. *)
Definition literal (kvs : list (string * value)) : object :=
  fold_left (fun o kv => oupd o (fst kv) (snd kv)) kvs empty_object.

End JS.
Import JS.

Declare Scope js_scope.
Delimit Scope js_scope with js.
Notation "x <- c1 ;; c2" := (bind c1 (fun x => c2))
  (at level 100, c1 at next level, right associativity) : js_scope.
Notation "c1 ;; c2" := (bind c1 (fun _ => c2))
  (at level 100, right associativity) : js_scope.
Open Scope js_scope.

(** ** Helpers of the build that are not part of the worker sources *)

Module when_.

(** Modelled from the spec: [when.defined], not under src/; a value is
    defined when it is not [undefined]. *)
Definition defined (v : value) : bool :=
  match v with VUndefined => false | _ => true end.

(** Modelled from the spec: [when.defaultValue], not under src/ ("applies
    defaults for optional parameters"): the first argument when it is
    defined, the second otherwise. *)
Definition defaultValue (a b : value) : value :=
  if defined a then a else b.

(** Modelled from the spec: [when.defaultValue.EMPTY_OBJECT], not under
    src/. The shared constant is frozen and has no property, so
    [defaultValue(options, EMPTY_OBJECT)] is modelled by a fresh empty
    object when [options] is undefined. *)
Definition defaultOptions (options : value) : M value :=
  if defined options then ret options else alloc (Object empty_object).

End when_.

Module Check.

(** Modelled from the spec: [RuntimeError.Check.typeOf.number], not under
    src/ ("fails with an InvalidArgument condition if a mandatory numeric
    parameter is absent or non-numeric"). *)
Definition typeOf_number (name : string) (test : value) : M unit :=
  if String.eqb (typeOf test) "number" then ret tt
  else throw (DeveloperError
                ("Expected " ++ name ++ " to be typeof number, actual typeof was "
                 ++ typeOf test)).

(** Modelled from the spec: [RuntimeError.Check.typeOf.object], not under
    src/ ("Fails (precondition violation) if value is absent"). *)
Definition typeOf_object (name : string) (test : value) : M unit :=
  if String.eqb (typeOf test) "object" then ret tt
  else throw (DeveloperError
                ("Expected " ++ name ++ " to be typeof object, actual typeof was "
                 ++ typeOf test)).

(** Modelled from the spec: the check of a required parameter that is not
    numeric ("validates required parameters"). *)
Definition defined (name : string) (test : value) : M unit :=
  if when_.defined test then ret tt
  else throw (DeveloperError (name ++ " is required.")).

End Check.

(** Modelled from the spec: the reference-frame value types of [Matrix2],
    not under src/ ("coordinate/reference-frame math ... consumed as opaque
    value types"; "Reference-frame/body values are passed through a clone
    operation (value semantics, not identity)"). A [Cartesian3] is an object
    with the numeric properties [x], [y], [z]; an [Ellipsoid] is an object
    whose [_radii] is a [Cartesian3]. *)
Module Cartesian3.

Definition packedLength : nat := 3.

Definition constructor (this x y z : value) : M unit :=
  setField this "x" (when_.defaultValue x (VNumber 0)) ;;
  setField this "y" (when_.defaultValue y (VNumber 0)) ;;
  setField this "z" (when_.defaultValue z (VNumber 0)).

Definition new (x y z : value) : M value :=
  this <- alloc (Object empty_object) ;;
  constructor this x y z ;;
  ret this.

Definition clone (cartesian result : value) : M value :=
  if negb (when_.defined cartesian) then ret VUndefined
  else if negb (when_.defined result) then
    x <- getField cartesian "x" ;;
    y <- getField cartesian "y" ;;
    z <- getField cartesian "z" ;;
    new x y z
  else
    x <- getField cartesian "x" ;;
    setField result "x" x ;;
    y <- getField cartesian "y" ;;
    setField result "y" y ;;
    z <- getField cartesian "z" ;;
    setField result "z" z ;;
    ret result.

Definition pack (value array : value) (startingIndex : option nat) : M JS.value :=
  let startingIndex := match startingIndex with Some i => i | None => 0 end in
  x <- getField value "x" ;;
  setIndex array startingIndex x ;;
  y <- getField value "y" ;;
  setIndex array (startingIndex + 1) y ;;
  z <- getField value "z" ;;
  setIndex array (startingIndex + 2) z ;;
  ret array.

(** Only the allocating form ([result] absent) is used by the packing
    protocol below. *)
Definition unpack (array : value) (startingIndex : option nat) : M value :=
  let startingIndex := match startingIndex with Some i => i | None => 0 end in
  result <- new VUndefined VUndefined VUndefined ;;
  x <- getIndex array startingIndex ;;
  setField result "x" x ;;
  y <- getIndex array (startingIndex + 1) ;;
  setField result "y" y ;;
  z <- getIndex array (startingIndex + 2) ;;
  setField result "z" z ;;
  ret result.

End Cartesian3.

Module Ellipsoid.

Definition packedLength : nat := Cartesian3.packedLength.

Definition constructor (this x y z : value) : M unit :=
  radii <- Cartesian3.new x y z ;;
  setField this "_radii" radii.

Definition new (x y z : value) : M value :=
  this <- alloc (Object empty_object) ;;
  constructor this x y z ;;
  ret this.

Definition clone (ellipsoid result : value) : M value :=
  if negb (when_.defined ellipsoid) then ret VUndefined
  else
    radii <- getField ellipsoid "_radii" ;;
    if negb (when_.defined result) then
      x <- getField radii "x" ;;
      y <- getField radii "y" ;;
      z <- getField radii "z" ;;
      new x y z
    else
      own <- getField result "_radii" ;;
      Cartesian3.clone radii own ;;
      ret result.

Definition pack (value array : value) (startingIndex : option nat) : M JS.value :=
  radii <- getField value "_radii" ;;
  Cartesian3.pack radii array startingIndex ;;
  ret array.

Definition unpack (array : value) (startingIndex : option nat) : M value :=
  radii <- Cartesian3.unpack array startingIndex ;;
  x <- getField radii "x" ;;
  y <- getField radii "y" ;;
  z <- getField radii "z" ;;
  new x y z.

(** The radii of the frozen constants [Ellipsoid.WGS84] and
    [Ellipsoid.UNIT_SPHERE]. The constants are immutable and only ever
    cloned, so a clone of one is modelled by [new] on its radii. *)
Definition WGS84 : M value :=
  new (VNumber 6378137.0) (VNumber 6378137.0) (VNumber 6356752.3142451793).

Definition UNIT_SPHERE : M value :=
  new (VNumber 1) (VNumber 1) (VNumber 1).

End Ellipsoid.

(** ** The canonical base descriptions *)

(** Modelled from the spec: [EllipseOutlineGeometry], the canonical
    "ellipse-like" base description, not under src/. The constructor follows
    section 4.2 (validates the required parameters, applies the defaults for
    the optional ones, with the defaults documented at part_000:33-39, and
    passes the center and the ellipsoid through a clone); [pack] and [unpack]
    follow section 4.1 (fixed arity; [unpack] reads what [pack] wrote; a
    supplied [result] is mutated and returned; no scratch instance is kept
    across calls); [createGeometry] is the tessellation, which the spec leaves
    out of scope and describes as a pure, deterministic function of the
    numeric fields that yields [undefined] for a degenerate description. *)
Module EllipseOutlineGeometry.

Definition constructor (this options : value) : M unit :=
  options <- when_.defaultOptions options ;;
  center <- getField options "center" ;;
  ellipsoid <- getField options "ellipsoid" ;;
  semiMajorAxis <- getField options "semiMajorAxis" ;;
  semiMinorAxis <- getField options "semiMinorAxis" ;;
  height <- getField options "height" ;;
  extrudedHeight <- getField options "extrudedHeight" ;;
  granularity <- getField options "granularity" ;;
  numberOfVerticalLines <- getField options "numberOfVerticalLines" ;;
  Check.defined "center" center ;;
  Check.typeOf_number "semiMajorAxis" semiMajorAxis ;;
  Check.typeOf_number "semiMinorAxis" semiMinorAxis ;;
  center <- Cartesian3.clone center VUndefined ;;
  setField this "_center" center ;;
  setField this "_semiMajorAxis" semiMajorAxis ;;
  setField this "_semiMinorAxis" semiMinorAxis ;;
  ellipsoid <- (if when_.defined ellipsoid
                then Ellipsoid.clone ellipsoid VUndefined
                else Ellipsoid.WGS84) ;;
  setField this "_ellipsoid" ellipsoid ;;
  setField this "_height" (when_.defaultValue height (VNumber 0)) ;;
  setField this "_extrudedHeight" (when_.defaultValue extrudedHeight (VNumber 0)) ;;
  setField this "_granularity" (when_.defaultValue granularity (VNumber 0.02)) ;;
  setField this "_numberOfVerticalLines"
           (when_.defaultValue numberOfVerticalLines (VNumber 16)) ;;
  setField this "_workerName" (VString "createEllipseOutlineGeometry").

Definition new (options : value) : M value :=
  this <- alloc (Object empty_object) ;;
  constructor this options ;;
  ret this.

Definition packedLength : nat :=
  Cartesian3.packedLength + Ellipsoid.packedLength + 6.

Definition pack (value array : value) (startingIndex : option nat) : M JS.value :=
  let startingIndex := match startingIndex with Some i => i | None => 0 end in
  center <- getField value "_center" ;;
  Cartesian3.pack center array (Some startingIndex) ;;
  ellipsoid <- getField value "_ellipsoid" ;;
  Ellipsoid.pack ellipsoid array (Some (startingIndex + 3)) ;;
  semiMajorAxis <- getField value "_semiMajorAxis" ;;
  setIndex array (startingIndex + 6) semiMajorAxis ;;
  semiMinorAxis <- getField value "_semiMinorAxis" ;;
  setIndex array (startingIndex + 7) semiMinorAxis ;;
  height <- getField value "_height" ;;
  setIndex array (startingIndex + 8) height ;;
  extrudedHeight <- getField value "_extrudedHeight" ;;
  setIndex array (startingIndex + 9) extrudedHeight ;;
  granularity <- getField value "_granularity" ;;
  setIndex array (startingIndex + 10) granularity ;;
  numberOfVerticalLines <- getField value "_numberOfVerticalLines" ;;
  setIndex array (startingIndex + 11) numberOfVerticalLines ;;
  ret array.

Definition unpack (array : value) (startingIndex : option nat) (result : value)
  : M value :=
  let startingIndex := match startingIndex with Some i => i | None => 0 end in
  center <- Cartesian3.unpack array (Some startingIndex) ;;
  ellipsoid <- Ellipsoid.unpack array (Some (startingIndex + 3)) ;;
  semiMajorAxis <- getIndex array (startingIndex + 6) ;;
  semiMinorAxis <- getIndex array (startingIndex + 7) ;;
  height <- getIndex array (startingIndex + 8) ;;
  extrudedHeight <- getIndex array (startingIndex + 9) ;;
  granularity <- getIndex array (startingIndex + 10) ;;
  numberOfVerticalLines <- getIndex array (startingIndex + 11) ;;
  if negb (when_.defined result) then
    options <- alloc (Object (literal
      [("center", center); ("ellipsoid", ellipsoid);
       ("semiMajorAxis", semiMajorAxis); ("semiMinorAxis", semiMinorAxis);
       ("height", height); ("extrudedHeight", extrudedHeight);
       ("granularity", granularity);
       ("numberOfVerticalLines", numberOfVerticalLines)])) ;;
    new options
  else
    own <- getField result "_center" ;;
    center <- Cartesian3.clone center own ;;
    setField result "_center" center ;;
    own <- getField result "_ellipsoid" ;;
    ellipsoid <- Ellipsoid.clone ellipsoid own ;;
    setField result "_ellipsoid" ellipsoid ;;
    setField result "_semiMajorAxis" semiMajorAxis ;;
    setField result "_semiMinorAxis" semiMinorAxis ;;
    setField result "_height" height ;;
    setField result "_extrudedHeight" extrudedHeight ;;
    setField result "_granularity" granularity ;;
    setField result "_numberOfVerticalLines" numberOfVerticalLines ;;
    ret result.

(** [a <= 0] on values: false unless [a] is a number. *)
Definition nonpositive (a : value) : bool :=
  match a with VNumber x => PrimFloat.leb x 0 | _ => false end.

(** The tessellation as a function of the numeric fields. *)
Definition tessellate (inputs : list value) : value :=
  match inputs with
  | _ :: _ :: _ :: _ :: _ :: _ :: semiMajorAxis :: semiMinorAxis :: _ =>
      if nonpositive semiMajorAxis || nonpositive semiMinorAxis
      then VUndefined
      else VGeometry "EllipseOutlineGeometry" inputs
  | _ => VUndefined
  end.

Definition createGeometry (ellipseGeometry : value) : M value :=
  center <- getField ellipseGeometry "_center" ;;
  cx <- getField center "x" ;;
  cy <- getField center "y" ;;
  cz <- getField center "z" ;;
  ellipsoid <- getField ellipseGeometry "_ellipsoid" ;;
  radii <- getField ellipsoid "_radii" ;;
  rx <- getField radii "x" ;;
  ry <- getField radii "y" ;;
  rz <- getField radii "z" ;;
  semiMajorAxis <- getField ellipseGeometry "_semiMajorAxis" ;;
  semiMinorAxis <- getField ellipseGeometry "_semiMinorAxis" ;;
  height <- getField ellipseGeometry "_height" ;;
  extrudedHeight <- getField ellipseGeometry "_extrudedHeight" ;;
  granularity <- getField ellipseGeometry "_granularity" ;;
  numberOfVerticalLines <- getField ellipseGeometry "_numberOfVerticalLines" ;;
  ret (tessellate [cx; cy; cz; rx; ry; rz; semiMajorAxis; semiMinorAxis;
                   height; extrudedHeight; granularity; numberOfVerticalLines]).

End EllipseOutlineGeometry.

(** Modelled from the spec: [EllipsoidOutlineGeometry], the canonical
    "ellipsoid-like" base description with three radii, not under src/; the
    same contract as [EllipseOutlineGeometry], with the defaults documented
    at createSphereOutlineGeometry.js:33-36. *)
Module EllipsoidOutlineGeometry.

Definition constructor (this options : value) : M unit :=
  options <- when_.defaultOptions options ;;
  radii <- getField options "radii" ;;
  stackPartitions <- getField options "stackPartitions" ;;
  slicePartitions <- getField options "slicePartitions" ;;
  subdivisions <- getField options "subdivisions" ;;
  radii <- (if when_.defined radii
            then Cartesian3.clone radii VUndefined
            else Cartesian3.new (VNumber 1) (VNumber 1) (VNumber 1)) ;;
  setField this "_radii" radii ;;
  setField this "_stackPartitions" (when_.defaultValue stackPartitions (VNumber 10)) ;;
  setField this "_slicePartitions" (when_.defaultValue slicePartitions (VNumber 8)) ;;
  setField this "_subdivisions" (when_.defaultValue subdivisions (VNumber 200)) ;;
  setField this "_workerName" (VString "createEllipsoidOutlineGeometry").

Definition new (options : value) : M value :=
  this <- alloc (Object empty_object) ;;
  constructor this options ;;
  ret this.

Definition packedLength : nat := Cartesian3.packedLength + 3.

Definition pack (value array : value) (startingIndex : option nat) : M JS.value :=
  let startingIndex := match startingIndex with Some i => i | None => 0 end in
  radii <- getField value "_radii" ;;
  Cartesian3.pack radii array (Some startingIndex) ;;
  stackPartitions <- getField value "_stackPartitions" ;;
  setIndex array (startingIndex + 3) stackPartitions ;;
  slicePartitions <- getField value "_slicePartitions" ;;
  setIndex array (startingIndex + 4) slicePartitions ;;
  subdivisions <- getField value "_subdivisions" ;;
  setIndex array (startingIndex + 5) subdivisions ;;
  ret array.

Definition unpack (array : value) (startingIndex : option nat) (result : value)
  : M value :=
  let startingIndex := match startingIndex with Some i => i | None => 0 end in
  radii <- Cartesian3.unpack array (Some startingIndex) ;;
  stackPartitions <- getIndex array (startingIndex + 3) ;;
  slicePartitions <- getIndex array (startingIndex + 4) ;;
  subdivisions <- getIndex array (startingIndex + 5) ;;
  if negb (when_.defined result) then
    options <- alloc (Object (literal
      [("radii", radii); ("stackPartitions", stackPartitions);
       ("slicePartitions", slicePartitions); ("subdivisions", subdivisions)])) ;;
    new options
  else
    own <- getField result "_radii" ;;
    radii <- Cartesian3.clone radii own ;;
    setField result "_radii" radii ;;
    setField result "_stackPartitions" stackPartitions ;;
    setField result "_slicePartitions" slicePartitions ;;
    setField result "_subdivisions" subdivisions ;;
    ret result.

(** The tessellation as a function of the numeric fields. *)
Definition tessellate (inputs : list value) : value :=
  match inputs with
  | rx :: ry :: rz :: _ =>
      if EllipseOutlineGeometry.nonpositive rx
         || EllipseOutlineGeometry.nonpositive ry
         || EllipseOutlineGeometry.nonpositive rz
      then VUndefined
      else VGeometry "EllipsoidOutlineGeometry" inputs
  | _ => VUndefined
  end.

Definition createGeometry (ellipsoidGeometry : value) : M value :=
  radii <- getField ellipsoidGeometry "_radii" ;;
  rx <- getField radii "x" ;;
  ry <- getField radii "y" ;;
  rz <- getField radii "z" ;;
  stackPartitions <- getField ellipsoidGeometry "_stackPartitions" ;;
  slicePartitions <- getField ellipsoidGeometry "_slicePartitions" ;;
  subdivisions <- getField ellipsoidGeometry "_subdivisions" ;;
  ret (tessellate [rx; ry; rz; stackPartitions; slicePartitions; subdivisions]).

End EllipsoidOutlineGeometry.

(** ** createCircleOutlineGeometry (src/unnamed/part_000) *)

Module CircleOutlineGeometry.

(** The module-level variables [scratchEllipseGeometry] and
    [scratchOptions]: references to two objects allocated once, when the
    module is loaded. *)
Record env : Type := mkEnv
  { scratchEllipseGeometry : value;
    scratchOptions : value }.

Definition constructor (this options : value) : M unit :=
  options <- when_.defaultOptions options ;;
  radius <- getField options "radius" ;;
  Check.typeOf_number "radius" radius ;;
  center <- getField options "center" ;;
  ellipsoid <- getField options "ellipsoid" ;;
  height <- getField options "height" ;;
  extrudedHeight <- getField options "extrudedHeight" ;;
  granularity <- getField options "granularity" ;;
  numberOfVerticalLines <- getField options "numberOfVerticalLines" ;;
  ellipseGeometryOptions <- alloc (Object (literal
    [("center", center); ("semiMajorAxis", radius); ("semiMinorAxis", radius);
     ("ellipsoid", ellipsoid); ("height", height);
     ("extrudedHeight", extrudedHeight); ("granularity", granularity);
     ("numberOfVerticalLines", numberOfVerticalLines)])) ;;
  ellipseGeometry <- EllipseOutlineGeometry.new ellipseGeometryOptions ;;
  setField this "_ellipseGeometry" ellipseGeometry ;;
  setField this "_workerName" (VString "createCircleOutlineGeometry").

Definition new (options : value) : M value :=
  this <- alloc (Object empty_object) ;;
  constructor this options ;;
  ret this.

Definition packedLength : nat := EllipseOutlineGeometry.packedLength.

Definition pack (value array : value) (startingIndex : option nat) : M JS.value :=
  Check.typeOf_object "value" value ;;
  ellipseGeometry <- getField value "_ellipseGeometry" ;;
  EllipseOutlineGeometry.pack ellipseGeometry array startingIndex.

(** The top level of the module: the two scratch instances. *)
Definition init : M env :=
  center <- Cartesian3.new VUndefined VUndefined VUndefined ;;
  options <- alloc (Object (literal
    [("center", center); ("semiMajorAxis", VNumber 1);
     ("semiMinorAxis", VNumber 1)])) ;;
  scratchEllipseGeometry <- EllipseOutlineGeometry.new options ;;
  center <- Cartesian3.new VUndefined VUndefined VUndefined ;;
  ellipsoid <- Ellipsoid.UNIT_SPHERE ;;
  scratchOptions <- alloc (Object (literal
    [("center", center); ("radius", VUndefined); ("ellipsoid", ellipsoid);
     ("height", VUndefined); ("extrudedHeight", VUndefined);
     ("granularity", VUndefined); ("numberOfVerticalLines", VUndefined);
     ("semiMajorAxis", VUndefined); ("semiMinorAxis", VUndefined)])) ;;
  ret (mkEnv scratchEllipseGeometry scratchOptions).

Definition unpack (e : env) (array : value) (startingIndex : option nat)
           (result : value) : M value :=
  let scratchOptions := scratchOptions e in
  ellipseGeometry <- EllipseOutlineGeometry.unpack array startingIndex
                       (scratchEllipseGeometry e) ;;
  center <- getField ellipseGeometry "_center" ;;
  own <- getField scratchOptions "center" ;;
  center <- Cartesian3.clone center own ;;
  setField scratchOptions "center" center ;;
  ellipsoid <- getField ellipseGeometry "_ellipsoid" ;;
  own <- getField scratchOptions "ellipsoid" ;;
  ellipsoid <- Ellipsoid.clone ellipsoid own ;;
  setField scratchOptions "ellipsoid" ellipsoid ;;
  height <- getField ellipseGeometry "_height" ;;
  setField scratchOptions "height" height ;;
  extrudedHeight <- getField ellipseGeometry "_extrudedHeight" ;;
  setField scratchOptions "extrudedHeight" extrudedHeight ;;
  granularity <- getField ellipseGeometry "_granularity" ;;
  setField scratchOptions "granularity" granularity ;;
  numberOfVerticalLines <- getField ellipseGeometry "_numberOfVerticalLines" ;;
  setField scratchOptions "numberOfVerticalLines" numberOfVerticalLines ;;
  if negb (when_.defined result) then
    semiMajorAxis <- getField ellipseGeometry "_semiMajorAxis" ;;
    setField scratchOptions "radius" semiMajorAxis ;;
    new scratchOptions
  else
    semiMajorAxis <- getField ellipseGeometry "_semiMajorAxis" ;;
    setField scratchOptions "semiMajorAxis" semiMajorAxis ;;
    semiMinorAxis <- getField ellipseGeometry "_semiMinorAxis" ;;
    setField scratchOptions "semiMinorAxis" semiMinorAxis ;;
    ellipseGeometry <- EllipseOutlineGeometry.new scratchOptions ;;
    setField result "_ellipseGeometry" ellipseGeometry ;;
    ret result.

Definition createGeometry (circleGeometry : value) : M value :=
  ellipseGeometry <- getField circleGeometry "_ellipseGeometry" ;;
  EllipseOutlineGeometry.createGeometry ellipseGeometry.

Definition createCircleOutlineGeometry (e : env) (circleGeometry : value)
           (offset : option nat) : M value :=
  circleGeometry <- (match offset with
                     | Some _ => unpack e circleGeometry offset VUndefined
                     | None => ret circleGeometry
                     end) ;;
  target <- getField circleGeometry "_ellipseGeometry" ;;
  ellipseGeometry <- getField circleGeometry "_ellipseGeometry" ;;
  center <- getField ellipseGeometry "_center" ;;
  center <- Cartesian3.clone center VUndefined ;;
  setField target "_center" center ;;
  target <- getField circleGeometry "_ellipseGeometry" ;;
  ellipseGeometry <- getField circleGeometry "_ellipseGeometry" ;;
  ellipsoid <- getField ellipseGeometry "_ellipsoid" ;;
  ellipsoid <- Ellipsoid.clone ellipsoid VUndefined ;;
  setField target "_ellipsoid" ellipsoid ;;
  createGeometry circleGeometry.

End CircleOutlineGeometry.

(** ** createSphereOutlineGeometry.js *)

Module SphereOutlineGeometry.

Record env : Type := mkEnv
  { scratchEllipsoidGeometry : value;
    scratchOptions : value }.

Definition constructor (this options : value) : M unit :=
  radius <- getField options "radius" ;;
  let radius := when_.defaultValue radius (VNumber 1) in
  radii <- Cartesian3.new radius radius radius ;;
  stackPartitions <- getField options "stackPartitions" ;;
  slicePartitions <- getField options "slicePartitions" ;;
  subdivisions <- getField options "subdivisions" ;;
  ellipsoidOptions <- alloc (Object (literal
    [("radii", radii); ("stackPartitions", stackPartitions);
     ("slicePartitions", slicePartitions); ("subdivisions", subdivisions)])) ;;
  ellipsoidGeometry <- EllipsoidOutlineGeometry.new ellipsoidOptions ;;
  setField this "_ellipsoidGeometry" ellipsoidGeometry ;;
  setField this "_workerName" (VString "createSphereOutlineGeometry").

Definition new (options : value) : M value :=
  this <- alloc (Object empty_object) ;;
  constructor this options ;;
  ret this.

Definition packedLength : nat := EllipsoidOutlineGeometry.packedLength.

Definition pack (value array : value) (startingIndex : option nat) : M JS.value :=
  Check.typeOf_object "value" value ;;
  ellipsoidGeometry <- getField value "_ellipsoidGeometry" ;;
  EllipsoidOutlineGeometry.pack ellipsoidGeometry array startingIndex.

Definition init : M env :=
  scratchEllipsoidGeometry <- EllipsoidOutlineGeometry.new VUndefined ;;
  radii <- Cartesian3.new VUndefined VUndefined VUndefined ;;
  scratchOptions <- alloc (Object (literal
    [("radius", VUndefined); ("radii", radii); ("stackPartitions", VUndefined);
     ("slicePartitions", VUndefined); ("subdivisions", VUndefined)])) ;;
  ret (mkEnv scratchEllipsoidGeometry scratchOptions).

Definition unpack (e : env) (array : value) (startingIndex : option nat)
           (result : value) : M value :=
  let scratchOptions := scratchOptions e in
  ellipsoidGeometry <- EllipsoidOutlineGeometry.unpack array startingIndex
                         (scratchEllipsoidGeometry e) ;;
  stackPartitions <- getField ellipsoidGeometry "_stackPartitions" ;;
  setField scratchOptions "stackPartitions" stackPartitions ;;
  slicePartitions <- getField ellipsoidGeometry "_slicePartitions" ;;
  setField scratchOptions "slicePartitions" slicePartitions ;;
  subdivisions <- getField ellipsoidGeometry "_subdivisions" ;;
  setField scratchOptions "subdivisions" subdivisions ;;
  if negb (when_.defined result) then
    radii <- getField ellipsoidGeometry "_radii" ;;
    x <- getField radii "x" ;;
    setField scratchOptions "radius" x ;;
    new scratchOptions
  else
    radii <- getField ellipsoidGeometry "_radii" ;;
    own <- getField scratchOptions "radii" ;;
    Cartesian3.clone radii own ;;
    ellipsoidGeometry <- EllipsoidOutlineGeometry.new scratchOptions ;;
    setField result "_ellipsoidGeometry" ellipsoidGeometry ;;
    ret result.

Definition createGeometry (sphereGeometry : value) : M value :=
  ellipsoidGeometry <- getField sphereGeometry "_ellipsoidGeometry" ;;
  EllipsoidOutlineGeometry.createGeometry ellipsoidGeometry.

Definition createSphereOutlineGeometry (e : env) (sphereGeometry : value)
           (offset : option nat) : M value :=
  sphereGeometry <- (match offset with
                     | Some _ => unpack e sphereGeometry offset VUndefined
                     | None => ret sphereGeometry
                     end) ;;
  createGeometry sphereGeometry.

End SphereOutlineGeometry.

(** ** createEllipseGeometry.js and createCylinderGeometry.js *)

(** The classes [EllipseGeometry] and [CylinderGeometry] are not under src/;
    the two entry points are embedded over their [unpack] and
    [createGeometry], taken as parameters. *)
Section createEllipseGeometry.

Variable EllipseGeometry_unpack : value -> option nat -> M value.
Variable EllipseGeometry_createGeometry : value -> M value.

Definition createEllipseGeometry (ellipseGeometry : value) (offset : option nat)
  : M value :=
  ellipseGeometry <- (match offset with
                      | Some _ => EllipseGeometry_unpack ellipseGeometry offset
                      | None => ret ellipseGeometry
                      end) ;;
  center <- getField ellipseGeometry "_center" ;;
  center <- Cartesian3.clone center VUndefined ;;
  setField ellipseGeometry "_center" center ;;
  ellipsoid <- getField ellipseGeometry "_ellipsoid" ;;
  ellipsoid <- Ellipsoid.clone ellipsoid VUndefined ;;
  setField ellipseGeometry "_ellipsoid" ellipsoid ;;
  EllipseGeometry_createGeometry ellipseGeometry.

End createEllipseGeometry.

Section createCylinderGeometry.

Variable CylinderGeometry_unpack : value -> option nat -> M value.
Variable CylinderGeometry_createGeometry : value -> M value.

Definition createCylinderGeometry (cylinderGeometry : value)
           (offset : option nat) : M value :=
  cylinderGeometry <- (match offset with
                       | Some _ => CylinderGeometry_unpack cylinderGeometry offset
                       | None => ret cylinderGeometry
                       end) ;;
  CylinderGeometry_createGeometry cylinderGeometry.

End createCylinderGeometry.

(** ** createGeometry.js: the worker task dispatcher *)

Module Worker.

(** One sub-task of a batch, as the dispatcher reads it. *)
Record task : Type := mkTask
  { geometry : value;
    moduleName : option string;
    offset : option nat }.

(** The module-level variable [moduleCache] and the environment test
    [typeof exports === "object"]. *)
Record env : Type := mkEnv
  { moduleCache : value;
    exports_is_object : bool }.

(** [var moduleCache = {}]. The object is modelled with its own properties
    only: the members a JavaScript object literal inherits from
    [Object.prototype] ([constructor], [toString], ...) are not part of
    the heap model, so a statement about [moduleCache[name]] speaks of
    the source only for names that are not such members. *)
Definition init (exports_is_object : bool) : M env :=
  moduleCache <- alloc (Object empty_object) ;;
  ret (mkEnv moduleCache exports_is_object).

(** The text a function converts to: its source. *)
Definition Function_toString (path : string) : string :=
  "function " ++ path ++ "() { [code] }".

(** The property key of [moduleCache[v]]. The dispatcher only ever uses
    [undefined], a string or a function as a key; the other conversions
    are not needed and yield the key of a plain object. *)
Definition toPropertyKey (v : value) : string :=
  match v with
  | VUndefined => "undefined"
  | VString s => s
  | VFunction path => Function_toString path
  | _ => "[object Object]"
  end.

Section Dispatch.

(** The worker modules the loader can resolve, by path, each with the
    behaviour of the creation function it exports. *)
Variable modules : string -> option (value -> option nat -> M value).

(** [PrimitivePipeline.packCreateGeometryResults], not under src/. *)
Variable packCreateGeometryResults : list value -> value -> M value.

(** The load mechanism: [require(path)], synchronous in a web worker.
    Every call is logged. *)
Definition require (path : string) : M value :=
  fun s =>
    let s' := mkState (heap s) (next s) (path :: loads s) in
    match modules path with
    | Some _ => Return (VFunction path) s'
    | None => Throw (RuntimeError ("Cannot find module " ++ path)) s'
    end.

Definition getModule (e : env) (moduleName : string) : M value :=
  module <- getField (moduleCache e) moduleName ;;
  if negb (when_.defined module) then
    if exports_is_object e then
      (* moduleCache[module] = module = require(...): the key is the
         value of [module] before the assignment *)
      let key := toPropertyKey module in
      module <- require ("Workers/" ++ moduleName) ;;
      setField (moduleCache e) key module ;;
      ret module
    else
      (* require([...], function (f) { module = f; moduleCache[module] = f; }) *)
      f <- require ("Workers/" ++ moduleName) ;;
      let module := f in
      setField (moduleCache e) (toPropertyKey module) f ;;
      ret module
  else ret module.

(** [createFunction(geometry, task.offset)] *)
Definition call (createFunction geometry : value) (offset : option nat)
  : M value :=
  match createFunction with
  | VFunction path =>
      match modules path with
      | Some f => f geometry offset
      | None => throw (TypeError "createFunction is not a function")
      end
  | _ => throw (TypeError "createFunction is not a function")
  end.

(** The body of the [for] loop, for one task. *)
Definition createOne (e : env) (task : task) : M value :=
  let geometry := geometry task in
  let moduleName := moduleName task in
  match moduleName with
  | Some moduleName =>
      createFunction <- getModule e moduleName ;;
      call createFunction geometry (offset task)
  | None => ret geometry
  end.

(** [for (var i = 0; i < length; i++) { ... }], with [n] the number of
    iterations left. *)
Fixpoint for_loop (e : env) (subTasks : list task) (n i : nat)
         (resultsOrPromises : list value) : M (list value) :=
  match n with
  | 0 => ret resultsOrPromises
  | S n' =>
      match nth_error subTasks i with
      | Some task =>
          r <- createOne e task ;;
          for_loop e subTasks n' (S i) (array_set resultsOrPromises i r)
      | None => throw (TypeError "Cannot read properties of undefined")
      end
  end.

(** The results of the sub-tasks in the source are immediate values,
    so [when.all] resolves with the array itself; a failure of the
    batch, raised by a sub-task or by the callback, is [Throw]. *)
Definition createGeometry (e : env) (subTasks : list task)
           (transferableObjects : value) : M value :=
  let length := List.length subTasks in
  let resultsOrPromises := repeat VUndefined length in
  results <- for_loop e subTasks length 0 resultsOrPromises ;;
  packCreateGeometryResults results transferableObjects.

End Dispatch.

End Worker.

(** * The vocabulary of the specifications *)

(** The predicates that describe the heap, the contents the
    operations compute and the example states the statements are
    instantiated at. *)

Import when_.

(** [s'] extends [s] by fresh cells and changes, of the cells of [s], at
    most those listed in [L]. *)
Definition frame (L : list loc) (s s' : state) : Prop :=
  next s <= next s' /\ loads s' = loads s /\
  forall l, l < next s -> ~ In l L -> heap s' l = heap s l.

(** Two locations known to differ. Kept apart from the arithmetic facts,
    which [lia] splits on. *)
Definition distinct (a b : loc) : Prop := a <> b.

(** The cell at [a] is the array [els]. *)
Definition arr_at (s : state) (a : loc) (els : list value) : Prop :=
  a < next s /\ heap s a = Some (Array els).

(** [c] written from index [i] on. *)
Fixpoint write_at (els : list value) (i : nat) (c : list value) : list value :=
  match c with
  | [] => els
  | v :: c' => write_at (array_set els i v) (S i) c'
  end.

(** The [n] elements from index [i] on. *)
Definition sub (els : list value) (i n : nat) : list value :=
  map (fun k => nth (i + k) els VUndefined) (seq 0 n).

(** The cell at [l] is a [Cartesian3] with the coordinates [c]. *)
Definition c3_at (s : state) (l : loc) (c : list value) : Prop :=
  l < next s /\
  exists o, heap s l = Some (Object o) /\ c = [o "x"; o "y"; o "z"].

Definition dv0 (c : list value) : list value :=
  map (fun v => defaultValue v (VNumber 0)) c.

(** The cell at [l] is an [Ellipsoid] whose [_radii] is the [Cartesian3]
    at [r], with the coordinates [c]. *)
Definition ellipsoid_at (s : state) (l r : loc) (c : list value) : Prop :=
  l < next s /\ l <> r /\
  (exists o, heap s l = Some (Object o) /\ o "_radii" = VRef r) /\
  c3_at s r c.

Definition ellipse_fields : list string :=
  ["_semiMajorAxis"; "_semiMinorAxis"; "_height"; "_extrudedHeight";
   "_granularity"; "_numberOfVerticalLines"].

(** The cell at [l] is an [EllipseOutlineGeometry] whose center is the
    [Cartesian3] at [lc] and whose ellipsoid is the [Ellipsoid] at [le],
    with radii at [lr]; [c] lists its twelve numeric fields. *)
Definition ellipse_at (s : state) (l lc le lr : loc) (c : list value) : Prop :=
  l < next s /\ NoDup [l; lc; le; lr] /\
  exists o cc cr,
    heap s l = Some (Object o) /\
    o "_center" = VRef lc /\ o "_ellipsoid" = VRef le /\
    c3_at s lc cc /\ ellipsoid_at s le lr cr /\
    c = (cc ++ cr ++ map o ellipse_fields)%list.

(** What the constructor stores for the optional parameters. *)
Definition defaults (h eh g n : value) : list value :=
  [defaultValue h (VNumber 0); defaultValue eh (VNumber 0);
   defaultValue g (VNumber 0.02); defaultValue n (VNumber 16)].

(** What [unpack] reads from the twelve elements of [els] at index [i]. *)
Definition unpacked (els : list value) (i : nat) : list value :=
  (sub els i 3 ++ dv0 (sub els (i + 3) 3)
   ++ map (fun k => nth (i + k) els VUndefined) [6; 7; 8; 9; 10; 11])%list.

(** The radii of [Ellipsoid.WGS84]. *)
Definition WGS84_radii : list value :=
  [VNumber 6378137.0; VNumber 6378137.0; VNumber 6356752.3142451793].

(** The ellipsoid a constructor is given: absent, and then the default, or
    an [Ellipsoid], and then a clone of it. *)
Definition ellipsoid_arg (s : state) (v : value) (cr : list value) : Prop :=
  (v = VUndefined /\ cr = WGS84_radii) \/
  (exists le lr cr0, v = VRef le /\ ellipsoid_at s le lr cr0 /\ cr = dv0 cr0).

(** The cell at [d] is a [CircleOutlineGeometry] whose [_ellipseGeometry]
    is the ellipse at [eg]. *)
Definition circle_at (s : state) (d eg lc le lr : loc) (c : list value) : Prop :=
  d < next s /\ ~ In d [eg; lc; le; lr] /\
  (exists o, heap s d = Some (Object o) /\ o "_ellipseGeometry" = VRef eg) /\
  ellipse_at s eg lc le lr c.

(** What the constructor derives from the options [oo] when the radius is
    the number [r]. *)
Definition circle_content (cc cr : list value) (r : float) (oo : object)
  : list value :=
  (dv0 cc ++ cr ++ [VNumber r; VNumber r]
   ++ defaults (oo "height") (oo "extrudedHeight") (oo "granularity")
               (oo "numberOfVerticalLines"))%list.

(** The objects behind the two module-level variables of
    createCircleOutlineGeometry: the scratch ellipse, its center, its
    ellipsoid and the radii of that, and the scratch options with their
    center, ellipsoid and radii. *)
Record scratch : Type := mkScratch
  { SEG : loc; SEGc : loc; SEGe : loc; SEGr : loc;
    SO : loc; SOc : loc; SOe : loc; SOr : loc }.

Definition scratch_locs (g : scratch) : list loc :=
  [SEG g; SEGc g; SEGe g; SEGr g; SO g; SOc g; SOe g; SOr g].

(** The cell at [l] is a scratch options object. *)
Definition options_at (s : state) (l lc le lr : loc) : Prop :=
  l < next s /\
  (exists o, heap s l = Some (Object o) /\
             o "center" = VRef lc /\ o "ellipsoid" = VRef le) /\
  (exists c, c3_at s lc c) /\ (exists c, ellipsoid_at s le lr c).

(** The invariant of the module: the two variables refer to a scratch
    ellipse and to scratch options, built of eight distinct objects. *)
Definition wf (e : CircleOutlineGeometry.env) (g : scratch) (s : state) : Prop :=
  e = CircleOutlineGeometry.mkEnv (VRef (SEG g)) (VRef (SO g)) /\
  (exists c, ellipse_at s (SEG g) (SEGc g) (SEGe g) (SEGr g) c) /\
  options_at s (SO g) (SOc g) (SOe g) (SOr g) /\
  NoDup (scratch_locs g).

(** What [unpack] returns, without a [result], for the elements of [els]
    at index [i], when the packed semi-major axis is the number [r]. *)
Definition unpacked_circle (els : list value) (i : nat) (r : float)
  : list value :=
  (dv0 (sub els i 3) ++ dv0 (dv0 (sub els (i + 3) 3))
   ++ [VNumber r; VNumber r]
   ++ defaults (nth (i + 8) els VUndefined) (nth (i + 9) els VUndefined)
               (nth (i + 10) els VUndefined) (nth (i + 11) els VUndefined))%list.

(** The value of the property [k] of the object [v]. *)
Definition field (s : state) (v : value) (k : string) : option value :=
  match v with
  | VRef l => match heap s l with
              | Some (Object o) => Some (o k)
              | _ => None
              end
  | _ => None
  end.

Definition fields (s : state) (v : value) (ks : list string)
  : option (list value) :=
  match v with
  | VRef l => match heap s l with
              | Some (Object o) => Some (map o ks)
              | _ => None
              end
  | _ => None
  end.

Definition read_Cartesian3 (s : state) (v : value) : option (list value) :=
  fields s v ["x"; "y"; "z"].

Definition read_Ellipsoid (s : state) (v : value) : option (list value) :=
  match field s v "_radii" with
  | Some r => read_Cartesian3 s r
  | None => None
  end.

(** The twelve fields of an ellipse outline that its geometry is computed
    from: the center, the radii of the ellipsoid, the two semi-axes, the
    height, the extruded height, the granularity and the number of vertical
    lines. *)
Definition read_EllipseOutlineGeometry (s : state) (v : value)
  : option (list value) :=
  match field s v "_center", field s v "_ellipsoid", fields s v ellipse_fields with
  | Some c, Some e, Some fs =>
      match read_Cartesian3 s c, read_Ellipsoid s e with
      | Some cc, Some cr => Some (cc ++ cr ++ fs)%list
      | _, _ => None
      end
  | _, _, _ => None
  end.

(** A circle outline is read through its canonical base description. *)
Definition read_CircleOutlineGeometry (s : state) (v : value)
  : option (list value) :=
  match field s v "_ellipseGeometry" with
  | Some g => read_EllipseOutlineGeometry s g
  | None => None
  end.

(** A description as a constructor leaves it: every field is defined, and
    the two semi-axes are the radius, a number. *)
Definition valid_content (c : list value) (r : float) : Prop :=
  Forall (fun v => defined v = true) c /\
  nth 6 c VUndefined = VNumber r /\ nth 7 c VUndefined = VNumber r.

(** *** A concrete run

    The module is loaded into the empty heap; a caller then builds
    [new CircleOutlineGeometry({center: new Cartesian3(0, 0, 0), radius:
    100000})] and an empty array. *)
Definition state_of {A} (o : outcome A) : state :=
  match o with Return _ s => s | Throw _ s => s end.

Definition example_env : CircleOutlineGeometry.env :=
  CircleOutlineGeometry.mkEnv (VRef 2) (VRef 9).

Definition example_scratch : scratch := mkScratch 2 3 4 5 9 6 7 8.

Definition example_state : state :=
  state_of
    ((CircleOutlineGeometry.init ;;
      center <- Cartesian3.new (VNumber 0) (VNumber 0) (VNumber 0) ;;
      options <- alloc (Object (literal [("center", center);
                                         ("radius", VNumber 100000)])) ;;
      CircleOutlineGeometry.new options ;;
      alloc (Array [])) empty_state).

Definition example_content : list value :=
  [VNumber 0; VNumber 0; VNumber 0;
   VNumber 6378137.0; VNumber 6378137.0; VNumber 6356752.3142451793;
   VNumber 100000; VNumber 100000;
   VNumber 0; VNumber 0; VNumber 0.02; VNumber 16].

Definition ellipsoid_fields : list string :=
  ["_stackPartitions"; "_slicePartitions"; "_subdivisions"].

(** The cell at [l] is an [EllipsoidOutlineGeometry] whose radii are the
    [Cartesian3] at [lr]; [c] lists its six numeric fields. *)
Definition ellipsoidg_at (s : state) (l lr : loc) (c : list value) : Prop :=
  l < next s /\ l <> lr /\
  exists o cr,
    heap s l = Some (Object o) /\ o "_radii" = VRef lr /\
    c3_at s lr cr /\ c = (cr ++ map o ellipsoid_fields)%list.

Definition sdefaults (st sl sd : value) : list value :=
  [defaultValue st (VNumber 10); defaultValue sl (VNumber 8);
   defaultValue sd (VNumber 200)].

Definition unit_radii : list value := [VNumber 1; VNumber 1; VNumber 1].

(** The radii a constructor is given: absent, and then the unit radii, or
    a [Cartesian3], and then a clone of it. *)
Definition radii_arg (s : state) (v : value) (cr : list value) : Prop :=
  (v = VUndefined /\ cr = unit_radii) \/
  (exists lr cr0, v = VRef lr /\ c3_at s lr cr0 /\ cr = dv0 cr0).

(** What [unpack] reads from the six elements of [els] at index [i]. *)
Definition unpacked_ellipsoid (els : list value) (i : nat) : list value :=
  (sub els i 3 ++ map (fun k => nth (i + k) els VUndefined) [3; 4; 5])%list.

(** The cell at [d] is a [SphereOutlineGeometry] whose [_ellipsoidGeometry]
    is the ellipsoid outline at [eg]. *)
Definition sphere_at (s : state) (d eg lr : loc) (c : list value) : Prop :=
  d < next s /\ ~ In d [eg; lr] /\
  (exists o, heap s d = Some (Object o) /\ o "_ellipsoidGeometry" = VRef eg) /\
  ellipsoidg_at s eg lr c.

(** What the constructor derives from the options [oo]: the three radii
    are the radius, or 1 when it is absent. *)
Definition sphere_content (oo : object) : list value :=
  let radius := defaultValue (oo "radius") (VNumber 1) in
  (dv0 (dv0 [radius; radius; radius])
   ++ sdefaults (oo "stackPartitions") (oo "slicePartitions")
                (oo "subdivisions"))%list.

(** The objects behind the two module-level variables of
    createSphereOutlineGeometry: the scratch ellipsoid outline and its radii,
    the scratch options and their radii. *)
Record sphere_scratch : Type := mkSphereScratch
  { SSEG : loc; SSEGr : loc; SSO : loc; SSOr : loc }.

Definition sphere_scratch_locs (g : sphere_scratch) : list loc :=
  [SSEG g; SSEGr g; SSO g; SSOr g].

(** The invariant of the module. *)
Definition sphere_wf (e : SphereOutlineGeometry.env) (g : sphere_scratch)
           (s : state) : Prop :=
  e = SphereOutlineGeometry.mkEnv (VRef (SSEG g)) (VRef (SSO g)) /\
  (exists c, ellipsoidg_at s (SSEG g) (SSEGr g) c) /\
  SSO g < next s /\
  (exists o, heap s (SSO g) = Some (Object o) /\ o "radii" = VRef (SSOr g)) /\
  (exists c, c3_at s (SSOr g) c) /\
  NoDup (sphere_scratch_locs g).

(** What [unpack] returns, without a [result], for the elements of [els]
    at index [i]. *)
Definition unpacked_sphere (els : list value) (i : nat) : list value :=
  let radius := defaultValue (nth i els VUndefined) (VNumber 1) in
  (dv0 (dv0 [radius; radius; radius])
   ++ sdefaults (nth (i + 3) els VUndefined) (nth (i + 4) els VUndefined)
                (nth (i + 5) els VUndefined))%list.

(** The radius a constructor finds in its options: [options.radius], after
    [options] was defaulted to the empty object. *)
Definition option_radius (s : state) (options : value) : option value :=
  match options with
  | VRef l =>
      if (l <? next s)%nat then
        match heap s l with
        | Some (Object o) => Some (o "radius")
        | Some (Array _) => Some VUndefined
        | None => None
        end
      else None
  | _ => Some VUndefined
  end.

Definition is_number (v : value) : bool :=
  match v with VNumber _ => true | _ => false end.

(** A caller constructs a circle from options without a radius. *)
Definition example_options_state : state :=
  state_of
    ((center <- Cartesian3.new (VNumber 0) (VNumber 0) (VNumber 0) ;;
      alloc (Object (literal [("center", center)]))) empty_state).

Definition read_EllipsoidOutlineGeometry (s : state) (v : value)
  : option (list value) :=
  match field s v "_radii", fields s v ellipsoid_fields with
  | Some r, Some fs =>
      match read_Cartesian3 s r with
      | Some cr => Some (cr ++ fs)%list
      | None => None
      end
  | _, _ => None
  end.

Definition read_SphereOutlineGeometry (s : state) (v : value)
  : option (list value) :=
  match field s v "_ellipsoidGeometry" with
  | Some g => read_EllipsoidOutlineGeometry s g
  | None => None
  end.

(** A caller constructs a sphere from the options [{}]. *)
Definition example_sphere_state : state :=
  state_of (alloc (Object empty_object) empty_state).

(** The cell at [l] is a description with a [_center] at [lc] and an
    [_ellipsoid] at [le], the two fields [createEllipseGeometry] reads; [o]
    holds its fields. *)
Definition centered_at (s : state) (l lc le lr : loc) (cc cr : list value)
           (o : object) : Prop :=
  l < next s /\ NoDup [l; lc; le; lr] /\
  heap s l = Some (Object o) /\
  o "_center" = VRef lc /\ o "_ellipsoid" = VRef le /\
  c3_at s lc cc /\ ellipsoid_at s le lr cr.

(** The fields of a description after an entry point gave it clones of its
    center and of its ellipsoid, at [lc] and [le]. *)
Definition recloned (o : object) (lc le : loc) : object :=
  oupd (oupd o "_center" (VRef lc)) "_ellipsoid" (VRef le).

(** The state of a caller that has the options of a circle of radius
    100000 around the origin, at 11, with the center at 10. *)
Definition example_caller : state :=
  state_of
    ((CircleOutlineGeometry.init ;;
      center <- Cartesian3.new (VNumber 0) (VNumber 0) (VNumber 0) ;;
      alloc (Object (literal [("center", center);
                              ("radius", VNumber 100000)]))) empty_state).


(** Two outcomes of [unpack] are equivalent when they are the same error or
    two descriptions with the same content, as [read] finds it. *)
Definition equivalent (read : state -> value -> option (list value))
           (r1 r2 : outcome value) : Prop :=
  match r1, r2 with
  | Return d1 s1, Return d2 s2 =>
      exists c, read s1 d1 = Some c /\ read s2 d2 = Some c
  | Throw e1 _, Throw e2 _ => e1 = e2
  | _, _ => False
  end.

(** Every field of the object [v] holds in [s'] the value it held in [s]. *)
Definition same_fields (s s' : state) (v : value) : Prop :=
  forall k, field s' v k = field s v k.

(** The description [d] is unchanged: each of its fields, and each field of
    its canonical base description, holds in [s'] the value it held in
    [s]. *)
Definition unchanged_description (s s' : state) (d : value) : Prop :=
  same_fields s s' d /\
  forall b, field s d "_ellipseGeometry" = Some b -> same_fields s s' b.

(** The sub-tasks run one after the other, each returning its result. *)
Inductive runs (modules : string -> option (value -> option nat -> M value))
          (e : Worker.env)
  : list Worker.task -> state -> list value -> state -> Prop :=
| runs_nil s : runs modules e [] s [] s
| runs_cons t ts s r s1 rs s2 :
    Worker.createOne modules e t s = Return r s1 ->
    runs modules e ts s1 rs s2 ->
    runs modules e (t :: ts) s (r :: rs) s2.

(** The sub-task at [k] raises [x], after the ones before it have run. *)
Definition fails (modules : string -> option (value -> option nat -> M value))
           (e : Worker.env) (subTasks : list Worker.task) (s : state)
           (k : nat) (x : exn) (s' : state) : Prop :=
  exists t rs sk,
    nth_error subTasks k = Some t /\
    runs modules e (firstn k subTasks) s rs sk /\
    Worker.createOne modules e t sk = Throw x s'.

(** What the sub-task [t] contributes, from the state [s] on. *)
Definition slot (modules : string -> option (value -> option nat -> M value))
           (e : Worker.env) (t : Worker.task) (s : state) (r : value)
           (s' : state) : Prop :=
  match Worker.moduleName t with
  | None => r = Worker.geometry t /\ s' = s
  | Some m =>
      exists createFunction s1,
        Worker.getModule modules e m s = Return createFunction s1 /\
        Worker.call modules createFunction (Worker.geometry t)
          (Worker.offset t) s1
        = Return r s'
  end.

Definition value_of {A} (o : outcome A) : option A :=
  match o with Return a _ => Some a | Throw _ _ => None end.

Definition exn_of {A} (o : outcome A) : option exn :=
  match o with Return _ _ => None | Throw x _ => Some x end.

(** The loader of a worker that has the circle outline module. *)
Definition example_modules (path : string)
  : option (value -> option nat -> M value) :=
  if String.eqb path "Workers/createCircleOutlineGeometry"
  then Some (CircleOutlineGeometry.createCircleOutlineGeometry example_env)
  else None.

(** A packer that keeps the results in an array, in their order. *)
Definition example_pack (results : list value) (transferableObjects : value)
  : M value :=
  alloc (Array results).

Definition example_dispatcher : Worker.env := Worker.mkEnv (VRef 10) true.

(** A worker whose modules are initialised, with a packed circle at 11 and
    an empty array, which is no packed description, at 12. *)
Definition example_batch_state : state :=
  state_of
    ((CircleOutlineGeometry.init ;;
      Worker.init true ;;
      alloc (Array example_content) ;;
      alloc (Array [])) empty_state).

Definition packed_task (a : loc) : Worker.task :=
  Worker.mkTask (VRef a) (Some "createCircleOutlineGeometry") (Some 0).

Definition created_task (geometry : value) : Worker.task :=
  Worker.mkTask geometry None None.

Definition example_geometry : value := VGeometry "BoxGeometry" [VNumber 1].

Definition example_batch : list Worker.task :=
  [created_task example_geometry; packed_task 11].

Definition example_batch_final : state :=
  state_of (Worker.createOne example_modules example_dispatcher
              (packed_task 11) example_batch_state).

(** A batch of three tasks, the second of which has an invalid packed
    description. *)
Definition example_bad_batch : list Worker.task :=
  [packed_task 11; packed_task 12; packed_task 11].

(** The state of a caller that has constructed two circles: the one of
    radius 100000 around the origin, at 12, and one of radius 250000 at the
    height 10 around (1, 2, 3), at 20; an empty array is at 26. *)
Definition example_two_circles : state :=
  state_of
    ((CircleOutlineGeometry.init ;;
      center <- Cartesian3.new (VNumber 0) (VNumber 0) (VNumber 0) ;;
      options <- alloc (Object (literal [("center", center);
                                         ("radius", VNumber 100000)])) ;;
      CircleOutlineGeometry.new options ;;
      center <- Cartesian3.new (VNumber 1) (VNumber 2) (VNumber 3) ;;
      options <- alloc (Object (literal [("center", center);
                                         ("radius", VNumber 250000);
                                         ("height", VNumber 10)])) ;;
      CircleOutlineGeometry.new options ;;
      alloc (Array [])) empty_state).

Definition example_content' : list value :=
  [VNumber 1; VNumber 2; VNumber 3;
   VNumber 6378137.0; VNumber 6378137.0; VNumber 6356752.3142451793;
   VNumber 250000; VNumber 250000;
   VNumber 10; VNumber 0; VNumber 0.02; VNumber 16].

(** A sphere as the constructor leaves it: every field is defined and the
    three radii are the same. *)
Definition valid_sphere (c : list value) : Prop :=
  Forall (fun v => defined v = true) c /\
  nth 1 c VUndefined = nth 0 c VUndefined /\
  nth 2 c VUndefined = nth 0 c VUndefined.

(** A worker whose sphere module is initialised, that has constructed the
    sphere of radius 2 at 6 and has an empty array at 11. *)
Definition example_sphere_worker : state :=
  state_of
    ((SphereOutlineGeometry.init ;;
      options <- alloc (Object (literal [("radius", VNumber 2)])) ;;
      SphereOutlineGeometry.new options ;;
      alloc (Array [])) empty_state).

Definition example_sphere_env : SphereOutlineGeometry.env :=
  SphereOutlineGeometry.mkEnv (VRef 0) (VRef 4).

Definition example_sphere_scratch : sphere_scratch :=
  mkSphereScratch 0 2 4 3.

Definition example_sphere_content : list value :=
  [VNumber 2; VNumber 2; VNumber 2; VNumber 10; VNumber 8; VNumber 200].

(** The keys under which [getModule] stores a module: what [undefined] and
    what a function convert to. *)
Definition no_module_name (k : string) : Prop :=
  k = "undefined" \/ exists path, k = Worker.Function_toString path.

(** The module cache holds nothing but under keys in [K]. *)
Definition cache_keys (e : Worker.env) (s : state) (K : string -> Prop)
  : Prop :=
  exists lc cache,
    Worker.moduleCache e = VRef lc /\ heap s lc = Some (Object cache) /\
    forall k, defined (cache k) = true -> K k.

(** The names of the members a plain object inherits from
    [Object.prototype]. The module cache of the source is a plain object and
    answers for these names without any store; the objects of the model
    have their own properties only, so what is stated about lookups in the
    cache leaves these names out. *)
Definition Object_prototype_members : list string :=
  ["constructor"; "hasOwnProperty"; "isPrototypeOf"; "propertyIsEnumerable";
   "toLocaleString"; "toString"; "valueOf"; "__proto__";
   "__defineGetter__"; "__defineSetter__";
   "__lookupGetter__"; "__lookupSetter__"].

(** The loader of a worker that has the circle and the sphere outline
    modules. *)
Definition example_modules' (path : string)
  : option (value -> option nat -> M value) :=
  if String.eqb path "Workers/createCircleOutlineGeometry"
  then Some (CircleOutlineGeometry.createCircleOutlineGeometry example_env)
  else if String.eqb path "Workers/createSphereOutlineGeometry"
  then Some (SphereOutlineGeometry.createSphereOutlineGeometry
               example_sphere_env)
  else None.

Definition has_module (t : Worker.task) : bool :=
  match Worker.moduleName t with Some _ => true | None => false end.

(** What a worker with the circle outline module contributes for a task:
    the geometry of a task that carries one, and for a task with a packed
    circle the tessellation of what is packed at the offset. *)
Definition circle_task (s : state) (t : Worker.task) (v : value) : Prop :=
  (Worker.moduleName t = None /\ v = Worker.geometry t) \/
  (exists a els i r,
      t = Worker.mkTask (VRef a) (Some "createCircleOutlineGeometry") (Some i) /\
      arr_at s a els /\ nth (i + 6) els VUndefined = VNumber r /\
      v = EllipseOutlineGeometry.tessellate (unpacked_circle els i r)).

(** A worker whose loader resolves the circle outline module, with the
    scratch objects of that module intact and a module cache, apart from
    them, that has nothing for the name of the module. *)
Definition circle_worker
           (modules : string -> option (value -> option nat -> M value))
           (e : Worker.env) (ec : CircleOutlineGeometry.env) (g : scratch)
           (s : state) : Prop :=
  modules "Workers/createCircleOutlineGeometry"
  = Some (CircleOutlineGeometry.createCircleOutlineGeometry ec) /\
  wf ec g s /\
  exists lc cache,
    Worker.moduleCache e = VRef lc /\ lc < next s /\
    ~ In lc (scratch_locs g) /\
    heap s lc = Some (Object cache) /\
    cache "createCircleOutlineGeometry" = VUndefined.



(** The packed description of an ellipse with the semi-axes 300000 and
    200000 at the height 5. *)
Definition example_ellipse_packed : list value :=
  [VNumber 7; VNumber 8; VNumber 9;
   VNumber 1; VNumber 1; VNumber 1;
   VNumber 300000; VNumber 200000;
   VNumber 5; VNumber 1; VNumber 0.5; VNumber 4].

(** A worker that has only received an empty object, at 10, and a packed
    circle, at 11. *)
Definition example_fresh_worker : state :=
  state_of
    ((CircleOutlineGeometry.init ;;
      alloc (Object empty_object) ;;
      alloc (Array example_content)) empty_state).

(** A worker that has unpacked the ellipse before, which its scratch
    objects now hold, has packed the description it got into a new array,
    and then received an empty object, at 22, and the same packed circle,
    at 23. *)
Definition example_used_worker : state :=
  state_of
    ((e <- CircleOutlineGeometry.init ;;
      a0 <- alloc (Array example_ellipse_packed) ;;
      d0 <- CircleOutlineGeometry.unpack e a0 (Some 0) VUndefined ;;
      a1 <- alloc (Array []) ;;
      CircleOutlineGeometry.pack d0 a1 (Some 2) ;;
      alloc (Object empty_object) ;;
      alloc (Array example_content)) empty_state).

(** The packed description of an ellipsoid with three different radii. *)
Definition example_ellipsoid_packed : list value :=
  [VNumber 1; VNumber 2; VNumber 3; VNumber 6; VNumber 5; VNumber 100].

(** A worker with the sphere module that has only received an empty
    object, at 5, and the packed ellipsoid, at 6. *)
Definition example_fresh_sphere_worker : state :=
  state_of
    ((SphereOutlineGeometry.init ;;
      alloc (Object empty_object) ;;
      alloc (Array example_ellipsoid_packed)) empty_state).

(** A worker with the sphere module that has unpacked a sphere of radius 7
    before, has packed the description it got into a new array, and then
    received an empty object, at 13, and the packed ellipsoid, at 14. *)
Definition example_used_sphere_worker : state :=
  state_of
    ((e <- SphereOutlineGeometry.init ;;
      a0 <- alloc (Array [VNumber 7; VNumber 7; VNumber 7;
                          VNumber 4; VNumber 4; VNumber 50]) ;;
      d0 <- SphereOutlineGeometry.unpack e a0 (Some 0) VUndefined ;;
      a1 <- alloc (Array []) ;;
      SphereOutlineGeometry.pack d0 a1 (Some 2) ;;
      alloc (Object empty_object) ;;
      alloc (Array example_ellipsoid_packed)) empty_state).

(** * Lemmas and theorems *)

(** ** Reasoning about runs *)

Arguments hupd : simpl never.
Arguments oupd : simpl never.

Lemma hupd_eq h l c : hupd h l c l = Some c.
Proof. unfold hupd. now rewrite Nat.eqb_refl. Qed.

Lemma hupd_ne h l c l' : l' <> l -> hupd h l c l' = h l'.
Proof. intros H. unfold hupd. apply Nat.eqb_neq in H. now rewrite H. Qed.

Lemma oupd_eq o k v : oupd o k v k = v.
Proof. unfold oupd. now rewrite String.eqb_refl. Qed.

Lemma oupd_ne o k v k' : String.eqb k' k = false -> oupd o k v k' = o k'.
Proof. intros H. unfold oupd. now rewrite H. Qed.

Lemma bind_Return {A B} (c : M A) (k : A -> M B) s a s' :
  c s = Return a s' -> bind c k s = k a s'.
Proof. intros H. unfold bind. now rewrite H. Qed.

Lemma bind_Throw {A B} (c : M A) (k : A -> M B) s e s' :
  c s = Throw e s' -> bind c k s = Throw e s'.
Proof. intros H. unfold bind. now rewrite H. Qed.

Lemma bind_assoc {A B C} (c : M A) (k : A -> M B) (k' : B -> M C) s :
  bind (bind c k) k' s = bind c (fun x => bind (k x) k') s.
Proof. unfold bind. destruct (c s); reflexivity. Qed.

Lemma getField_obj s l o k :
  heap s l = Some (Object o) -> getField (VRef l) k s = Return (o k) s.
Proof. intros H. unfold getField. now rewrite H. Qed.

Lemma setField_obj s l o k x :
  heap s l = Some (Object o) ->
  setField (VRef l) k x s
  = Return tt (set_heap s (hupd (heap s) l (Object (oupd o k x)))).
Proof. intros H. unfold setField. now rewrite H. Qed.

Lemma getIndex_arr s l els i :
  heap s l = Some (Array els) ->
  getIndex (VRef l) i s = Return (nth i els VUndefined) s.
Proof. intros H. unfold getIndex. now rewrite H. Qed.

Lemma setIndex_arr s l els i x :
  heap s l = Some (Array els) ->
  setIndex (VRef l) i x s
  = Return tt (set_heap s (hupd (heap s) l (Array (array_set els i x)))).
Proof. intros H. unfold setIndex. now rewrite H. Qed.

Lemma typeOf_number_ok name x s :
  Check.typeOf_number name (VNumber x) s = Return tt s.
Proof. reflexivity. Qed.

Lemma typeOf_object_ok name l s :
  Check.typeOf_object name (VRef l) s = Return tt s.
Proof. reflexivity. Qed.

Lemma Check_defined_ok name l s :
  Check.defined name (VRef l) s = Return tt s.
Proof. reflexivity. Qed.

Lemma frame_heap L s s' l :
  frame L s s' -> l < next s -> ~ In l L -> heap s' l = heap s l.
Proof. intros (_ & _ & H). apply H. Qed.

Lemma frame_next L s s' : frame L s s' -> next s <= next s'.
Proof. now intros (H & _). Qed.

Lemma frame_loads L s s' : frame L s s' -> loads s' = loads s.
Proof. now intros (_ & H & _). Qed.

Lemma frame_refl L s : frame L s s.
Proof. repeat split; auto. Qed.

Lemma frame_trans L s1 s2 s3 :
  frame L s1 s2 -> frame L s2 s3 -> frame L s1 s3.
Proof.
  intros (N1 & L1 & H1) (N2 & L2 & H2). repeat split.
  - lia.
  - congruence.
  - intros l Hl Hn. rewrite H2 by (auto; lia). now apply H1.
Qed.

Lemma frame_weaken L L' s s' :
  incl L L' -> frame L s s' -> frame L' s s'.
Proof. intros I (N & Ld & H). repeat split; auto. Qed.

Ltac next_norm :=
  repeat match goal with
    | N : next ?s = _ |- context [next ?s] => is_var s; rewrite N
    end.
Ltac st_simpl := cbv beta delta [set_heap]; cbn [heap next loads]; next_norm.
Ltac st_simpl_all := cbv beta delta [set_heap] in *; cbn [heap next loads] in *.

Lemma not_in_cons (x a : loc) l : a <> x -> ~ In x l -> ~ In x (a :: l).
Proof. intros H1 H2 [H|H]; auto. Qed.

Lemma not_in_nil (x : loc) : ~ In x [].
Proof. intros []. Qed.

Ltac neq :=
  st_simpl;
  first
    [ match goal with
      | H : distinct ?a ?b |- ?a <> ?b => exact H
      | H : distinct ?b ?a |- ?a <> ?b => exact (not_eq_sym H)
      end
    | lia ].

Ltac not_in :=
  first
    [ st_simpl; lia
    | repeat (apply not_in_cons; [neq|]); apply not_in_nil ].

Ltac heap_norm :=
  st_simpl;
  repeat first
    [ rewrite hupd_eq
    | rewrite hupd_ne by neq
    | match goal with
      | F : frame ?L ?s ?s' |- context [heap ?s' ?l] =>
          rewrite (frame_heap L s s' l F) by not_in;
          st_simpl
      end ].

Lemma empty_object_eq k : empty_object k = VUndefined.
Proof. reflexivity. Qed.

Ltac obj_norm :=
  repeat first
    [ rewrite oupd_eq
    | rewrite empty_object_eq
    | rewrite oupd_ne by reflexivity
    | match goal with
      | H : ?o (String ?a ?b) = _ |- _ => progress rewrite H
      end ].

Ltac heap_solve := heap_norm; first [reflexivity | eassumption].

Ltac loads_solve :=
  st_simpl;
  repeat match goal with
    | F : frame ?L ?s ?s' |- context [loads ?s'] =>
        rewrite (frame_loads L s s' F); st_simpl
    end;
  reflexivity.

Ltac frame_solve :=
  split;
  [ st_simpl; lia
  | split;
    [ loads_solve
    | let Hn := fresh "Hn" in
      intros ? ? Hn; cbn [In] in Hn; heap_norm; reflexivity ] ].

Lemma distinct_of_NoDup (l : list loc) :
  NoDup l ->
  forall i j a b, nth_error l i = Some a -> nth_error l j = Some b ->
                  i <> j -> distinct a b.
Proof.
  intros D i j a b Hi Hj N E. subst b.
  apply N. eapply NoDup_nth_error; eauto.
  - apply nth_error_Some. congruence.
  - congruence.
Qed.

(** One step of a run: the primitive at the head of the program. *)
Ltac step :=
  lazymatch goal with
  | |- context [bind (bind ?c ?k) ?K ?s] => rewrite (bind_assoc c k K s)
  | |- context [bind (getField (VRef ?l) ?k) ?K ?s] =>
      erewrite (bind_Return (getField (VRef l) k) K s)
        by (apply getField_obj; heap_solve)
  | |- context [bind (setField (VRef ?l) ?k ?x) ?K ?s] =>
      erewrite (bind_Return (setField (VRef l) k x) K s)
        by (apply setField_obj; heap_solve)
  | |- context [bind (getIndex (VRef ?l) ?i) ?K ?s] =>
      erewrite (bind_Return (getIndex (VRef l) i) K s)
        by (apply getIndex_arr; heap_solve)
  | |- context [bind (setIndex (VRef ?l) ?i ?x) ?K ?s] =>
      erewrite (bind_Return (setIndex (VRef l) i x) K s)
        by (apply setIndex_arr; heap_solve)
  | |- context [bind (alloc ?c) ?K ?s] =>
      rewrite (bind_Return (alloc c) K s _ _ eq_refl)
  | |- context [bind (ret ?a) ?K ?s] =>
      rewrite (bind_Return (ret a) K s _ _ eq_refl)
  | |- context [bind (Check.typeOf_number ?n (VNumber ?x)) ?K ?s] =>
      rewrite (bind_Return (Check.typeOf_number n (VNumber x)) K s tt s
                 (typeOf_number_ok n x s))
  | |- context [bind (Check.typeOf_object ?n (VRef ?l)) ?K ?s] =>
      rewrite (bind_Return (Check.typeOf_object n (VRef l)) K s tt s
                 (typeOf_object_ok n l s))
  | |- context [bind (Check.defined ?n (VRef ?l)) ?K ?s] =>
      rewrite (bind_Return (Check.defined n (VRef l)) K s tt s
                 (Check_defined_ok n l s))
  | |- context [getField (VRef ?l) ?k ?s] =>
      erewrite (getField_obj s l _ k) by heap_solve
  | |- context [setField (VRef ?l) ?k ?x ?s] =>
      erewrite (setField_obj s l _ k x) by heap_solve
  end;
  st_simpl; cbn [negb defined defaultOptions]; obj_norm; cbn [negb defined].

(** A call of a function whose behaviour is given by [E]. *)
Ltac call E :=
  lazymatch type of E with
  | ?c ?s = Return ?a ?s' =>
      lazymatch goal with
      | |- context [bind c ?K s] => rewrite (bind_Return c K s a s' E)
      | |- context [c s] => rewrite E
      end
  end;
  st_simpl; cbn [negb defined].

(** *** Arrays *)

Lemma nth_array_set_eq els i v : nth i (array_set els i v) VUndefined = v.
Proof.
  revert els. induction i as [|i IH]; intros [|x els]; cbn; auto.
Qed.

Lemma nth_array_set_ne els i j v :
  j <> i -> nth j (array_set els i v) VUndefined = nth j els VUndefined.
Proof.
  revert els j. induction i as [|i IH]; intros [|x els] [|j] H; cbn; auto;
    try lia.
  - now destruct j.
  - rewrite IH by lia. now destruct j.
Qed.

Lemma nth_write_at_lt els i c j :
  j < i -> nth j (write_at els i c) VUndefined = nth j els VUndefined.
Proof.
  revert els i. induction c as [|v c IH]; intros els i H; cbn; auto.
  rewrite IH by lia. apply nth_array_set_ne. lia.
Qed.

Lemma nth_write_at els i c k :
  k < length c ->
  nth (i + k) (write_at els i c) VUndefined = nth k c VUndefined.
Proof.
  revert els i k. induction c as [|v c IH]; intros els i k H; cbn in *.
  - lia.
  - destruct k as [|k].
    + rewrite Nat.add_0_r, nth_write_at_lt by lia. apply nth_array_set_eq.
    + replace (i + S k) with (S i + k) by lia. apply IH. lia.
Qed.

Lemma sub_write_at els i c : sub (write_at els i c) i (length c) = c.
Proof.
  unfold sub. apply nth_ext with (d := VUndefined) (d' := VUndefined).
  - now rewrite length_map, length_seq.
  - intros k Hk. rewrite length_map, length_seq in Hk.
    rewrite (nth_indep _ _ (nth (i + 0) (write_at els i c) VUndefined))
      by now rewrite length_map, length_seq.
    rewrite (map_nth (fun k => nth (i + k) (write_at els i c) VUndefined)).
    rewrite seq_nth by lia. cbn. now apply nth_write_at.
Qed.

Lemma arr_at_not_obj s a els l o :
  arr_at s a els -> heap s l = Some (Object o) -> l <> a.
Proof. intros (_ & H) H' ->. congruence. Qed.

(** *** Cartesian3 *)

Lemma c3_at_frame L s s' l c :
  frame L s s' -> ~ In l L -> c3_at s l c -> c3_at s' l c.
Proof.
  intros F N (B & o & H & ->). split.
  - pose proof (frame_next _ _ _ F). lia.
  - exists o. split; auto. now rewrite (frame_heap _ _ _ _ F B N).
Qed.

Lemma Cartesian3_new_spec x y z s :
  exists s', Cartesian3.new x y z s = Return (VRef (next s)) s' /\
    next s' = S (next s) /\ frame [] s s' /\
    c3_at s' (next s) (dv0 [x; y; z]).
Proof.
  unfold Cartesian3.new, Cartesian3.constructor.
  repeat step.
  eexists; split; [reflexivity|]. heap_norm.
  split; [reflexivity|]. split; [frame_solve|].
  split; [st_simpl; lia|]. eexists; split; [heap_solve|]. obj_norm. reflexivity.
Qed.

Lemma Cartesian3_clone_fresh s l c :
  c3_at s l c ->
  exists s', Cartesian3.clone (VRef l) VUndefined s = Return (VRef (next s)) s' /\
    next s' = S (next s) /\ frame [] s s' /\
    c3_at s' (next s) (dv0 c).
Proof.
  intros (B & o & Hl & ->).
  unfold Cartesian3.clone. cbn [negb defined].
  repeat step.
  destruct (Cartesian3_new_spec (o "x") (o "y") (o "z") s) as (s' & E & N & F & C).
  call E. eauto.
Qed.

Lemma Cartesian3_clone_into s l c d c0 :
  c3_at s l c -> c3_at s d c0 ->
  exists s', Cartesian3.clone (VRef l) (VRef d) s = Return (VRef d) s' /\
    next s' = next s /\ frame [d] s s' /\ c3_at s' d c.
Proof.
  intros (Bl & o & Hl & ->) (B & o0 & Hd & ->).
  unfold Cartesian3.clone. cbn [negb defined].
  destruct (Nat.eq_dec l d) as [->|Hne].
  - assert (o0 = o) by congruence. subst o0.
    repeat step.
    eexists; split; [reflexivity|]. heap_norm.
    split; [reflexivity|]. split; [frame_solve|].
    split; [st_simpl; lia|]. eexists; split; [heap_solve|]. obj_norm. reflexivity.
  - repeat step.
    eexists; split; [reflexivity|]. heap_norm.
    split; [reflexivity|]. split; [frame_solve|].
    split; [st_simpl; lia|]. eexists; split; [heap_solve|]. obj_norm. reflexivity.
Qed.

Lemma Cartesian3_pack_spec s l c a els i :
  c3_at s l c -> arr_at s a els ->
  exists s', Cartesian3.pack (VRef l) (VRef a) (Some i) s = Return (VRef a) s' /\
    next s' = next s /\ frame [a] s s' /\ arr_at s' a (write_at els i c).
Proof.
  intros (Bl & o & Hl & ->) (Ba & Ha).
  assert (l <> a) by (intros ->; congruence).
  unfold Cartesian3.pack.
  repeat step.
  eexists; split; [reflexivity|]. heap_norm.
  split; [reflexivity|]. split; [frame_solve|].
  split; [st_simpl; lia|]. heap_norm. cbn [write_at].
  replace (i + 1) with (S i) by lia. replace (i + 2) with (S (S i)) by lia.
  reflexivity.
Qed.

Lemma Cartesian3_unpack_spec s a els i :
  arr_at s a els ->
  exists s', Cartesian3.unpack (VRef a) (Some i) s = Return (VRef (next s)) s' /\
    next s' = S (next s) /\ frame [] s s' /\
    c3_at s' (next s) (sub els i 3).
Proof.
  intros (Ba & Ha).
  unfold Cartesian3.unpack, Cartesian3.new, Cartesian3.constructor.
  repeat step.
  eexists; split; [reflexivity|]. heap_norm.
  split; [reflexivity|]. split; [frame_solve|].
  split; [st_simpl; lia|]. eexists; split; [heap_solve|]. obj_norm.
  unfold sub. cbn [map seq]. now rewrite Nat.add_0_r.
Qed.

(** *** Ellipsoid *)

Lemma ellipsoid_at_frame L s s' l r c :
  frame L s s' -> ~ In l L -> ~ In r L ->
  ellipsoid_at s l r c -> ellipsoid_at s' l r c.
Proof.
  intros F N N' (B & D & (o & H & R) & C). split; [|split; [|split]]; auto.
  - pose proof (frame_next _ _ _ F). lia.
  - exists o. split; auto. now rewrite (frame_heap _ _ _ _ F B N).
  - eapply c3_at_frame; eauto.
Qed.

Lemma Ellipsoid_new_spec x y z s :
  exists s', Ellipsoid.new x y z s = Return (VRef (next s)) s' /\
    next s' = S (S (next s)) /\ frame [] s s' /\
    ellipsoid_at s' (next s) (S (next s)) (dv0 [x; y; z]).
Proof.
  unfold Ellipsoid.new, Ellipsoid.constructor.
  repeat step.
  match goal with |- context [bind (Cartesian3.new x y z) ?K ?s0] =>
    destruct (Cartesian3_new_spec x y z s0) as (s1 & E & N & F & C) end.
  st_simpl_all.
  call E. repeat step.
  eexists; split; [reflexivity|]. heap_norm.
  split; [st_simpl; lia|]. split; [frame_solve|].
  split; [st_simpl; lia|]. split; [st_simpl; lia|]. split.
  - eexists; split; [heap_solve|]. obj_norm. reflexivity.
  - destruct C as (B & o & Ho & ->). split; [st_simpl; lia|].
    exists o. split; auto. heap_norm. auto.
Qed.

Lemma Ellipsoid_clone_fresh s l r c :
  ellipsoid_at s l r c ->
  exists s', Ellipsoid.clone (VRef l) VUndefined s = Return (VRef (next s)) s' /\
    next s' = S (S (next s)) /\ frame [] s s' /\
    ellipsoid_at s' (next s) (S (next s)) (dv0 c).
Proof.
  intros (B & D & (o & Hl & R) & (Br & orr & Hr & ->)).
  unfold Ellipsoid.clone. cbn [negb defined].
  repeat step.
  destruct (Ellipsoid_new_spec (orr "x") (orr "y") (orr "z") s)
    as (s' & E & N & F & C).
  call E. eauto.
Qed.

Lemma Ellipsoid_clone_into s l r c d dr c0 :
  ellipsoid_at s l r c -> ellipsoid_at s d dr c0 ->
  exists s', Ellipsoid.clone (VRef l) (VRef d) s = Return (VRef d) s' /\
    next s' = next s /\ frame [dr] s s' /\ ellipsoid_at s' d dr c.
Proof.
  intros (B & D & (o & Hl & R) & C) (Bd & Dd & (od & Hd & Rd) & Cd).
  unfold Ellipsoid.clone. cbn [negb defined].
  repeat step.
  destruct (Cartesian3_clone_into s r c dr c0 C Cd) as (s' & E & N & F & C').
  call E. unfold ret.
  eexists; split; [reflexivity|].
  split; [auto|]. split; [auto|].
  split; [st_simpl; lia|]. split; [auto|]. split; [|auto].
  exists od. split; auto. heap_norm. auto.
Qed.

Lemma Ellipsoid_pack_spec s l r c a els i :
  ellipsoid_at s l r c -> arr_at s a els ->
  exists s', Ellipsoid.pack (VRef l) (VRef a) (Some i) s = Return (VRef a) s' /\
    next s' = next s /\ frame [a] s s' /\ arr_at s' a (write_at els i c).
Proof.
  intros (B & D & (o & Hl & R) & C) A.
  unfold Ellipsoid.pack.
  repeat step.
  destruct (Cartesian3_pack_spec s r c a els i C A) as (s' & E & N & F & A').
  call E. unfold ret. eauto.
Qed.

Lemma Ellipsoid_unpack_spec s a els i :
  arr_at s a els ->
  exists s', Ellipsoid.unpack (VRef a) (Some i) s = Return (VRef (S (next s))) s' /\
    next s' = S (S (S (next s))) /\ frame [] s s' /\
    ellipsoid_at s' (S (next s)) (S (S (next s))) (dv0 (sub els i 3)).
Proof.
  intros A.
  unfold Ellipsoid.unpack.
  destruct (Cartesian3_unpack_spec s a els i A) as (s1 & E & N & F & C).
  call E. destruct C as (B & o & Ho & C).
  repeat step.
  destruct (Ellipsoid_new_spec (o "x") (o "y") (o "z") s1)
    as (s' & E' & N' & F' & C').
  rewrite N in *. rewrite E'.
  eexists; split; [reflexivity|].
  split; [st_simpl; lia|]. split; [eapply frame_trans; eauto|].
  rewrite C. auto.
Qed.

(** *** EllipseOutlineGeometry *)

Lemma NoDup4 (a b c d : nat) :
  a <> b -> a <> c -> a <> d -> b <> c -> b <> d -> c <> d -> NoDup [a; b; c; d].
Proof.
  intros. repeat constructor; cbn; intuition.
Qed.

Lemma EllipseOutlineGeometry_new_ref s lo oo lc cc le lr cr a b :
  lo < next s -> heap s lo = Some (Object oo) ->
  oo "center" = VRef lc -> c3_at s lc cc ->
  oo "ellipsoid" = VRef le -> ellipsoid_at s le lr cr ->
  oo "semiMajorAxis" = VNumber a -> oo "semiMinorAxis" = VNumber b ->
  exists s', EllipseOutlineGeometry.new (VRef lo) s = Return (VRef (next s)) s' /\
    next s' = 4 + next s /\ frame [] s s' /\
    ellipse_at s' (next s) (1 + next s) (2 + next s) (3 + next s)
      (dv0 cc ++ dv0 cr ++ [VNumber a; VNumber b]
       ++ defaults (oo "height") (oo "extrudedHeight") (oo "granularity")
                   (oo "numberOfVerticalLines"))%list.

Proof.
  intros Blo Hlo Hc Cc He Ce Ha Hb.
  unfold EllipseOutlineGeometry.new, EllipseOutlineGeometry.constructor.
  repeat step.
  match goal with |- context [bind (Cartesian3.clone _ _) ?K ?s0] =>
    destruct (Cartesian3_clone_fresh s0 lc cc) as (s1 & E1 & N1 & F1 & C1) end.
  { apply (c3_at_frame [] s); [frame_solve|cbn; tauto|exact Cc]. }
  st_simpl_all.
  call E1. rewrite ?N1. repeat step.
  match goal with |- context [bind (Ellipsoid.clone _ _) ?K ?s0] =>
    destruct (Ellipsoid_clone_fresh s0 le lr cr) as (s2 & E2 & N2 & F2 & C2) end.
  { apply (ellipsoid_at_frame [] s);
      [frame_solve|cbn; tauto|cbn; tauto|exact Ce]. }
  st_simpl_all.
  call E2. rewrite ?N2. repeat step.
  eexists; split; [reflexivity|]. heap_norm.
  split; [lia|]. split; [frame_solve|].
  split; [st_simpl; lia|]. split; [apply NoDup4; lia|].
  eexists _, (dv0 cc), (dv0 cr).
  split; [heap_solve|]. obj_norm.
  split; [reflexivity|]. split; [reflexivity|].
  split; [|split].
  - apply (c3_at_frame [next s] s1); [frame_solve|not_in|exact C1].
  - apply (ellipsoid_at_frame [next s] s2);
      [frame_solve|not_in|not_in|exact C2].
  - cbn [map ellipse_fields]. obj_norm. reflexivity.
Qed.

Lemma write_at_app els i c1 c2 :
  write_at els i (c1 ++ c2) = write_at (write_at els i c1) (i + length c1) c2.
Proof.
  revert els i. induction c1 as [|v c1 IH]; intros els i; cbn.
  - now rewrite Nat.add_0_r.
  - rewrite IH. f_equal. lia.
Qed.

Lemma sub_write_at_part els i c j n :
  j + n <= length c ->
  sub (write_at els i c) (i + j) n = firstn n (skipn j c).
Proof.
  intros H. unfold sub.
  apply nth_ext with (d := VUndefined) (d' := VUndefined).
  - rewrite length_map, length_seq, length_firstn, length_skipn. lia.
  - intros k Hk. rewrite length_map, length_seq in Hk.
    rewrite (nth_indep _ _ (nth (i + j + 0) (write_at els i c) VUndefined))
      by now rewrite length_map, length_seq.
    rewrite (map_nth (fun k => nth (i + j + k) (write_at els i c) VUndefined)).
    rewrite seq_nth by lia. cbn [Nat.add].
    rewrite <- Nat.add_assoc, nth_write_at by lia.
    rewrite nth_firstn.
    destruct (Nat.ltb_spec k n); [|lia].
    now rewrite nth_skipn.
Qed.

Lemma ellipse_at_frame L s s' l lc le lr c :
  frame L s s' -> ~ In l L -> ~ In lc L -> ~ In le L -> ~ In lr L ->
  ellipse_at s l lc le lr c -> ellipse_at s' l lc le lr c.
Proof.
  intros F N1 N2 N3 N4 (B & D & o & cc & cr & H & Hc & He & Cc & Ce & ->).
  split; [pose proof (frame_next _ _ _ F); lia|]. split; [exact D|].
  exists o, cc, cr. rewrite (frame_heap _ _ _ _ F B N1).
  split; [exact H|]. split; [exact Hc|]. split; [exact He|].
  split; [eapply c3_at_frame; eauto|].
  split; [eapply ellipsoid_at_frame; eauto|reflexivity].
Qed.

Lemma c3_at_length s l c : c3_at s l c -> length c = 3.
Proof. now intros (_ & o & _ & ->). Qed.

Lemma ellipsoid_at_length s l r c : ellipsoid_at s l r c -> length c = 3.
Proof. intros (_ & _ & _ & C). eapply c3_at_length; eauto. Qed.

Lemma ellipse_at_length s l lc le lr c :
  ellipse_at s l lc le lr c -> length c = 12.
Proof.
  intros (_ & _ & o & cc & cr & _ & _ & _ & Cc & Ce & ->).
  rewrite !length_app, (c3_at_length _ _ _ Cc), (ellipsoid_at_length _ _ _ _ Ce).
  reflexivity.
Qed.

Lemma arr_at_frame L s s' a els :
  frame L s s' -> ~ In a L -> arr_at s a els -> arr_at s' a els.
Proof.
  intros F N (B & H). split.
  - pose proof (frame_next _ _ _ F). lia.
  - now rewrite (frame_heap _ _ _ _ F B N).
Qed.

Lemma EllipseOutlineGeometry_pack_spec s l lc le lr c a els i :
  ellipse_at s l lc le lr c -> arr_at s a els ->
  exists s', EllipseOutlineGeometry.pack (VRef l) (VRef a) (Some i) s
             = Return (VRef a) s' /\
    next s' = next s /\ frame [a] s s' /\ arr_at s' a (write_at els i c).
Proof.
  intros (B & D & o & cc & cr & H & Hc & He & Cc & Ce & ->) A.
  pose proof (c3_at_length _ _ _ Cc) as Lc.
  pose proof (ellipsoid_at_length _ _ _ _ Ce) as Lr.
  assert (Dl : l <> a) by (destruct A as (_ & A); intros ->; congruence).
  assert (Dc : lc <> a).
  { destruct A as (_ & A), Cc as (_ & ? & Cc & _). intros ->. congruence. }
  assert (De : le <> a).
  { destruct A as (_ & A), Ce as (_ & _ & (? & Ce & _) & _). intros ->.
    congruence. }
  assert (Dr : lr <> a).
  { destruct A as (_ & A), Ce as (_ & _ & _ & (_ & ? & Ce & _)). intros ->.
    congruence. }
  unfold EllipseOutlineGeometry.pack.
  repeat step.
  destruct (Cartesian3_pack_spec s lc cc a els i Cc A) as (s1 & E1 & N1 & F1 & A1).
  call E1. repeat step.
  destruct (Ellipsoid_pack_spec s1 le lr cr a (write_at els i cc) (i + 3))
    as (s2 & E2 & N2 & F2 & A2); auto.
  { apply (ellipsoid_at_frame [a] s); auto; not_in. }
  call E2. destruct A2 as (Ba & A2). repeat step.
  eexists; split; [reflexivity|]. heap_norm.
  split; [lia|]. split; [frame_solve|]. split; [st_simpl; lia|].
  heap_norm. do 2 f_equal.
  rewrite !write_at_app, Lc, Lr. cbn [write_at map ellipse_fields length].
  repeat (f_equal; try lia).
Qed.

Lemma EllipseOutlineGeometry_unpack_into s a els i R Rc Re Rr c0 :
  arr_at s a els -> ellipse_at s R Rc Re Rr c0 ->
  exists s', EllipseOutlineGeometry.unpack (VRef a) (Some i) (VRef R) s
             = Return (VRef R) s' /\
    next s' = 4 + next s /\ frame [R; Rc; Rr] s s' /\
    ellipse_at s' R Rc Re Rr (unpacked els i).
Proof.
  intros A (B & D & o & cc & cr & H & Hc & He & Cc & Ce & ->).
  assert (D' : R <> Rc /\ R <> Re /\ R <> Rr /\ Rc <> Re /\ Rc <> Rr /\ Re <> Rr).
  { inversion D as [|? ? N1 D1]; inversion D1 as [|? ? N2 D2];
      inversion D2 as [|? ? N3 D3]; subst. cbn in *. intuition. }
  destruct D' as (D1 & D2 & D3 & D4 & D5 & D6).
  pose proof Ce as (Be & _ & _ & (Br & _)).
  pose proof Cc as (Bc & _).
  unfold EllipseOutlineGeometry.unpack.
  destruct (Cartesian3_unpack_spec s a els i A) as (s1 & E1 & N1 & F1 & C1).
  call E1.
  destruct (Ellipsoid_unpack_spec s1 a els (i + 3)) as (s2 & E2 & N2 & F2 & C2).
  { apply (arr_at_frame [] s); auto. }
  rewrite N1 in *. call E2.
  assert (A2 : arr_at s2 a els).
  { apply (arr_at_frame [] s1); auto. apply (arr_at_frame [] s); auto. }
  destruct A2 as (Ba & A2).
  repeat step.
  destruct (Cartesian3_clone_into s2 (next s) (sub els i 3) Rc cc)
    as (s3 & E3 & N3 & F3 & C3).
  { apply (c3_at_frame [] s1); auto. }
  { apply (c3_at_frame [] s1); auto. apply (c3_at_frame [] s); auto. }
  call E3.
  repeat step.
  match goal with |- context [bind (Ellipsoid.clone _ _) ?K ?s0] =>
    destruct (Ellipsoid_clone_into s0 (S (S (next s))) (S (S (S (next s))))
                (dv0 (sub els (i + 3) 3)) Re Rr cr)
      as (s4 & E4 & N4 & F4 & C4) end.
  { apply (ellipsoid_at_frame [R; Rc] s2); [frame_solve|not_in|not_in|auto]. }
  { apply (ellipsoid_at_frame [R; Rc] s); [|not_in|not_in|auto].
    frame_solve. }
  st_simpl_all. call E4.
  repeat step.
  eexists; split; [reflexivity|]. heap_norm.
  split; [lia|]. split; [frame_solve|]. split; [st_simpl; lia|].
  split; [exact D|].
  eexists _, (sub els i 3), (dv0 (sub els (i + 3) 3)).
  split; [heap_solve|]. obj_norm.
  split; [reflexivity|]. split; [reflexivity|].
  split; [|split].
  - apply (c3_at_frame [R; Rr] s3); [frame_solve|not_in|auto].
  - apply (ellipsoid_at_frame [R] s4); [frame_solve|not_in|not_in|auto].
  - unfold unpacked. cbn [map ellipse_fields]. obj_norm. reflexivity.
Qed.

Lemma EllipseOutlineGeometry_new_default s lo oo lc cc a b :
  lo < next s -> heap s lo = Some (Object oo) ->
  oo "center" = VRef lc -> c3_at s lc cc ->
  oo "ellipsoid" = VUndefined ->
  oo "semiMajorAxis" = VNumber a -> oo "semiMinorAxis" = VNumber b ->
  exists s', EllipseOutlineGeometry.new (VRef lo) s = Return (VRef (next s)) s' /\
    next s' = 4 + next s /\ frame [] s s' /\
    ellipse_at s' (next s) (1 + next s) (2 + next s) (3 + next s)
      (dv0 cc ++ WGS84_radii ++ [VNumber a; VNumber b]
       ++ defaults (oo "height") (oo "extrudedHeight") (oo "granularity")
                   (oo "numberOfVerticalLines"))%list.
Proof.
  intros Blo Hlo Hc Cc He Ha Hb.
  unfold EllipseOutlineGeometry.new, EllipseOutlineGeometry.constructor.
  repeat step.
  match goal with |- context [bind (Cartesian3.clone _ _) ?K ?s0] =>
    destruct (Cartesian3_clone_fresh s0 lc cc) as (s1 & E1 & N1 & F1 & C1) end.
  { apply (c3_at_frame [] s); [frame_solve|cbn; tauto|exact Cc]. }
  st_simpl_all.
  call E1. rewrite ?N1. repeat step.
  unfold Ellipsoid.WGS84.
  match goal with |- context [bind (Ellipsoid.new ?x ?y ?z) ?K ?s0] =>
    destruct (Ellipsoid_new_spec x y z s0) as (s2 & E2 & N2 & F2 & C2) end.
  st_simpl_all.
  call E2. rewrite ?N2. repeat step.
  eexists; split; [reflexivity|]. heap_norm.
  split; [lia|]. split; [frame_solve|].
  split; [st_simpl; lia|]. split; [apply NoDup4; lia|].
  eexists _, (dv0 cc), WGS84_radii.
  split; [heap_solve|]. obj_norm.
  split; [reflexivity|]. split; [reflexivity|].
  split; [|split].
  - apply (c3_at_frame [next s] s1); [frame_solve|not_in|exact C1].
  - apply (ellipsoid_at_frame [next s] s2);
      [frame_solve|not_in|not_in|exact C2].
  - cbn [map ellipse_fields]. obj_norm. reflexivity.
Qed.

Lemma EllipseOutlineGeometry_new_spec s lo oo lc cc cr a b :
  lo < next s -> heap s lo = Some (Object oo) ->
  oo "center" = VRef lc -> c3_at s lc cc ->
  ellipsoid_arg s (oo "ellipsoid") cr ->
  oo "semiMajorAxis" = VNumber a -> oo "semiMinorAxis" = VNumber b ->
  exists s', EllipseOutlineGeometry.new (VRef lo) s = Return (VRef (next s)) s' /\
    next s' = 4 + next s /\ frame [] s s' /\
    ellipse_at s' (next s) (1 + next s) (2 + next s) (3 + next s)
      (dv0 cc ++ cr ++ [VNumber a; VNumber b]
       ++ defaults (oo "height") (oo "extrudedHeight") (oo "granularity")
                   (oo "numberOfVerticalLines"))%list.
Proof.
  intros Blo Hlo Hc Cc [(He & ->)|(le & lr & cr0 & He & Ce & ->)] Ha Hb.
  - eapply EllipseOutlineGeometry_new_default; eauto.
  - eapply EllipseOutlineGeometry_new_ref; eauto.
Qed.

(** *** CircleOutlineGeometry *)

Lemma circle_at_frame L s s' d eg lc le lr c :
  frame L s s' ->
  ~ In d L -> ~ In eg L -> ~ In lc L -> ~ In le L -> ~ In lr L ->
  circle_at s d eg lc le lr c -> circle_at s' d eg lc le lr c.
Proof.
  intros F N0 N1 N2 N3 N4 (B & D & (o & H & Hg) & E).
  split; [pose proof (frame_next _ _ _ F); lia|]. split; [exact D|].
  split.
  - exists o. now rewrite (frame_heap _ _ _ _ F B N0).
  - eapply ellipse_at_frame; eauto.
Qed.

Lemma CircleOutlineGeometry_new_spec s lo oo lc cc cr r :
  lo < next s -> heap s lo = Some (Object oo) ->
  oo "radius" = VNumber r ->
  oo "center" = VRef lc -> c3_at s lc cc ->
  ellipsoid_arg s (oo "ellipsoid") cr ->
  exists s', CircleOutlineGeometry.new (VRef lo) s = Return (VRef (next s)) s' /\
    next s' = 6 + next s /\ frame [] s s' /\
    circle_at s' (next s) (2 + next s) (3 + next s) (4 + next s) (5 + next s)
      (circle_content cc cr r oo).
Proof.
  intros Blo Hlo Hr Hc Cc Harg.
  unfold CircleOutlineGeometry.new, CircleOutlineGeometry.constructor.
  repeat step.
  match goal with |- context [bind (EllipseOutlineGeometry.new (VRef ?l)) ?K ?s0] =>
    destruct (EllipseOutlineGeometry_new_spec s0 l
      (literal [("center", VRef lc); ("semiMajorAxis", VNumber r);
                ("semiMinorAxis", VNumber r); ("ellipsoid", oo "ellipsoid");
                ("height", oo "height"); ("extrudedHeight", oo "extrudedHeight");
                ("granularity", oo "granularity");
                ("numberOfVerticalLines", oo "numberOfVerticalLines")])
      lc cc cr r r) as (s1 & E1 & N1 & F1 & C1) end.
  { st_simpl. lia. }
  { heap_solve. }
  { reflexivity. }
  { apply (c3_at_frame [] s); [frame_solve|cbn; tauto|exact Cc]. }
  { change (literal _ "ellipsoid") with (oo "ellipsoid").
    destruct Harg as [H|(le & lr & cr0 & H1 & H2 & H3)]; [left; exact H|].
    right. exists le, lr, cr0. split; [exact H1|]. split; [|exact H3].
    apply (ellipsoid_at_frame [] s); [frame_solve|cbn; tauto|cbn; tauto|exact H2]. }
  { reflexivity. }
  { reflexivity. }
  st_simpl_all. call E1. repeat step.
  eexists; split; [reflexivity|]. heap_norm.
  split; [lia|]. split; [frame_solve|].
  split; [st_simpl; lia|]. split; [not_in|]. split.
  - eexists; split; [heap_solve|]. obj_norm. reflexivity.
  - apply (ellipse_at_frame [next s] s1);
      [frame_solve|not_in|not_in|not_in|not_in|exact C1].
Qed.

Lemma app_inj_length {A} (l1 l2 r1 r2 : list A) :
  length l1 = length l2 -> (l1 ++ r1 = l2 ++ r2)%list -> l1 = l2 /\ r1 = r2.
Proof.
  revert l2. induction l1 as [|x l1 IH]; intros [|y l2] L E; cbn in *;
    try discriminate; auto.
  injection E as -> E. destruct (IH l2) as (-> & ->); auto.
Qed.

Lemma ellipse_at_inv s l lc le lr cc cr fs :
  length cc = 3 -> length cr = 3 ->
  ellipse_at s l lc le lr (cc ++ cr ++ fs) ->
  exists o, heap s l = Some (Object o) /\
    o "_center" = VRef lc /\ o "_ellipsoid" = VRef le /\
    c3_at s lc cc /\ ellipsoid_at s le lr cr /\ map o ellipse_fields = fs.
Proof.
  intros L1 L2 (_ & _ & o & cc' & cr' & H & Hc & He & Cc & Ce & E).
  apply app_inj_length in E as (-> & E);
    [|now rewrite (c3_at_length _ _ _ Cc)].
  apply app_inj_length in E as (-> & E);
    [|now rewrite (ellipsoid_at_length _ _ _ _ Ce)].
  exists o. auto 10.
Qed.

Lemma options_at_frame L s s' l lc le lr :
  frame L s s' -> ~ In l L -> ~ In lc L -> ~ In le L -> ~ In lr L ->
  options_at s l lc le lr -> options_at s' l lc le lr.
Proof.
  intros F N1 N2 N3 N4 (B & (o & H & Hc & He) & (c & Cc) & (c' & Ce)).
  split; [pose proof (frame_next _ _ _ F); lia|]. split; [|split].
  - exists o. now rewrite (frame_heap _ _ _ _ F B N1).
  - exists c. eapply c3_at_frame; eauto.
  - exists c'. eapply ellipsoid_at_frame; eauto.
Qed.

Lemma wf_frame L e g s s' :
  frame L s s' -> (forall l, In l (scratch_locs g) -> ~ In l L) ->
  wf e g s -> wf e g s'.
Proof.
  intros F N (He & (c & E) & O & D).
  split; [exact He|]. split; [|split; [|exact D]].
  - exists c. eapply ellipse_at_frame; eauto; apply N; cbn; auto.
  - eapply options_at_frame; eauto; apply N; cbn; auto 10.
Qed.

Lemma scratch_distinct g :
  NoDup (scratch_locs g) ->
  distinct (SEG g) (SEGc g) /\
  distinct (SEG g) (SEGe g) /\
  distinct (SEG g) (SEGr g) /\
  distinct (SEG g) (SO g) /\
  distinct (SEG g) (SOc g) /\
  distinct (SEG g) (SOe g) /\
  distinct (SEG g) (SOr g) /\
  distinct (SEGc g) (SEGe g) /\
  distinct (SEGc g) (SEGr g) /\
  distinct (SEGc g) (SO g) /\
  distinct (SEGc g) (SOc g) /\
  distinct (SEGc g) (SOe g) /\
  distinct (SEGc g) (SOr g) /\
  distinct (SEGe g) (SEGr g) /\
  distinct (SEGe g) (SO g) /\
  distinct (SEGe g) (SOc g) /\
  distinct (SEGe g) (SOe g) /\
  distinct (SEGe g) (SOr g) /\
  distinct (SEGr g) (SO g) /\
  distinct (SEGr g) (SOc g) /\
  distinct (SEGr g) (SOe g) /\
  distinct (SEGr g) (SOr g) /\
  distinct (SO g) (SOc g) /\
  distinct (SO g) (SOe g) /\
  distinct (SO g) (SOr g) /\
  distinct (SOc g) (SOe g) /\
  distinct (SOc g) (SOr g) /\
  distinct (SOe g) (SOr g).
Proof.
  unfold scratch_locs. intros D.
  pose proof (distinct_of_NoDup _ D) as H.
  repeat split;
    match goal with
    | |- distinct ?a ?b =>
        first [ exact (H 0 1 a b eq_refl eq_refl ltac:(lia))
              | exact (H 0 2 a b eq_refl eq_refl ltac:(lia))
              | exact (H 0 3 a b eq_refl eq_refl ltac:(lia))
              | exact (H 0 4 a b eq_refl eq_refl ltac:(lia))
              | exact (H 0 5 a b eq_refl eq_refl ltac:(lia))
              | exact (H 0 6 a b eq_refl eq_refl ltac:(lia))
              | exact (H 0 7 a b eq_refl eq_refl ltac:(lia))
              | exact (H 1 2 a b eq_refl eq_refl ltac:(lia))
              | exact (H 1 3 a b eq_refl eq_refl ltac:(lia))
              | exact (H 1 4 a b eq_refl eq_refl ltac:(lia))
              | exact (H 1 5 a b eq_refl eq_refl ltac:(lia))
              | exact (H 1 6 a b eq_refl eq_refl ltac:(lia))
              | exact (H 1 7 a b eq_refl eq_refl ltac:(lia))
              | exact (H 2 3 a b eq_refl eq_refl ltac:(lia))
              | exact (H 2 4 a b eq_refl eq_refl ltac:(lia))
              | exact (H 2 5 a b eq_refl eq_refl ltac:(lia))
              | exact (H 2 6 a b eq_refl eq_refl ltac:(lia))
              | exact (H 2 7 a b eq_refl eq_refl ltac:(lia))
              | exact (H 3 4 a b eq_refl eq_refl ltac:(lia))
              | exact (H 3 5 a b eq_refl eq_refl ltac:(lia))
              | exact (H 3 6 a b eq_refl eq_refl ltac:(lia))
              | exact (H 3 7 a b eq_refl eq_refl ltac:(lia))
              | exact (H 4 5 a b eq_refl eq_refl ltac:(lia))
              | exact (H 4 6 a b eq_refl eq_refl ltac:(lia))
              | exact (H 4 7 a b eq_refl eq_refl ltac:(lia))
              | exact (H 5 6 a b eq_refl eq_refl ltac:(lia))
              | exact (H 5 7 a b eq_refl eq_refl ltac:(lia))
              | exact (H 6 7 a b eq_refl eq_refl ltac:(lia)) ]
    end.
Qed.

Lemma CircleOutlineGeometry_unpack_new e g s a els i r :
  wf e g s -> arr_at s a els -> nth (i + 6) els VUndefined = VNumber r ->
  exists s', CircleOutlineGeometry.unpack e (VRef a) (Some i) VUndefined s
             = Return (VRef (4 + next s)) s' /\
    next s' = 10 + next s /\ frame (scratch_locs g) s s' /\ wf e g s' /\
    circle_at s' (4 + next s) (6 + next s) (7 + next s) (8 + next s)
      (9 + next s) (unpacked_circle els i r).
Proof.
  intros (-> & (c0 & E0) & (BO & (oO & HO & HOc & HOe) & (cOc & COc) & (cOe & COe)) & D)
         A Hr.
  pose proof (scratch_distinct g D) as Dg.
  destruct g as [seg segc sege segr so soc soe sor].
  cbn [SEG SEGc SEGe SEGr SO SOc SOe SOr scratch_locs] in *.
  repeat (let H := fresh "Dg" in destruct Dg as (H & Dg)).
  pose proof E0 as (B0 & _ & ? & ? & ? & _ & _ & _ & (B0c & _)
                    & (B0e & _ & _ & (B0r & _)) & _).
  pose proof COc as (BOc & _). pose proof COe as (BOe & _ & _ & (BOr & _)).
  unfold CircleOutlineGeometry.unpack.
  cbn [CircleOutlineGeometry.scratchEllipseGeometry
       CircleOutlineGeometry.scratchOptions].
  destruct (EllipseOutlineGeometry_unpack_into s a els i seg segc sege segr c0 A E0)
    as (s1 & E1 & N1 & F1 & C1).
  call E1.
  destruct (ellipse_at_inv s1 seg segc sege segr (sub els i 3)
              (dv0 (sub els (i + 3) 3)) _ eq_refl eq_refl C1)
    as (o1 & H1 & H1c & H1e & C1c & C1e & Hf1).
  cbn [map ellipse_fields] in Hf1.
  injection Hf1 as Hf6 Hf7 Hf8 Hf9 Hf10 Hf11.
  assert (O1 : options_at s1 so soc soe sor).
  { apply (options_at_frame [seg; segc; segr] s); auto; [not_in..|].
    split; [auto|]. split; [eauto|]. eauto. }
  destruct O1 as (BO1 & (oO1 & HO1 & HO1c & HO1e) & (cOc1 & COc1) & (cOe1 & COe1)).
  repeat step.
  destruct (Cartesian3_clone_into s1 segc (sub els i 3) soc cOc1 C1c COc1)
    as (s2 & E2 & N2 & F2 & C2).
  call E2. repeat step.
  match goal with |- context [bind (Ellipsoid.clone _ _) ?K ?s0] =>
    destruct (Ellipsoid_clone_into s0 sege segr (dv0 (sub els (i + 3) 3))
                soe sor cOe1) as (s3 & E3 & N3 & F3 & C3) end.
  { apply (ellipsoid_at_frame [so; soc] s1); [frame_solve|not_in|not_in|auto]. }
  { apply (ellipsoid_at_frame [so; soc] s1); [frame_solve|not_in|not_in|auto]. }
  st_simpl_all. call E3. repeat step.
  rewrite Hr.
  match goal with |- context [CircleOutlineGeometry.new (VRef so) ?s0] =>
    edestruct (CircleOutlineGeometry_new_spec s0 so) as (s4 & E4 & N4 & F4 & C4)
  end.
  { st_simpl. lia. }
  { heap_solve. }
  { obj_norm. reflexivity. }
  { obj_norm. reflexivity. }
  { apply (c3_at_frame [so; sor; seg] s2); [frame_solve|not_in|exact C2]. }
  { right. obj_norm. exists soe, sor, (dv0 (sub els (i + 3) 3)).
    split; [reflexivity|]. split; [|reflexivity].
    apply (ellipsoid_at_frame [so; seg] s3); [frame_solve|not_in|not_in|exact C3]. }
  st_simpl_all. rewrite E4.
  eexists; split; [reflexivity|].
  split; [lia|].
  assert (F : frame [seg; segc; sege; segr; so; soc; soe; sor] s s4).
  { frame_solve. }
  split; [exact F|]. split.
  - split; [reflexivity|]. cbn [SEG SEGc SEGe SEGr SO SOc SOe SOr scratch_locs].
    split; [|split; [|exact D]].
    + eexists. apply (ellipse_at_frame [so; soc; sor] s1);
        [frame_solve|not_in..|exact C1].
    + split; [lia|]. split; [|split].
      * eexists. split; [heap_solve|]. obj_norm. auto.
      * eexists. apply (c3_at_frame [so; sor; seg] s2);
          [frame_solve|not_in|exact C2].
      * eexists. apply (ellipsoid_at_frame [so; seg] s3);
          [frame_solve|not_in|not_in|exact C3].
  - unfold circle_content in C4. revert C4. obj_norm.
    rewrite <- Hf8, <- Hf9, <- Hf10, <- Hf11. obj_norm. exact (fun H => H).
Qed.

Lemma CircleOutlineGeometry_pack_spec s d eg lc le lr c a els i :
  circle_at s d eg lc le lr c -> arr_at s a els ->
  exists s', CircleOutlineGeometry.pack (VRef d) (VRef a) (Some i) s
             = Return (VRef a) s' /\
    next s' = next s /\ frame [a] s s' /\ arr_at s' a (write_at els i c).
Proof.
  intros (B & D & (o & H & Hg) & E) A.
  unfold CircleOutlineGeometry.pack.
  repeat step.
  apply EllipseOutlineGeometry_pack_spec with (1 := E) (2 := A).
Qed.

(** *** Reading a description *)

Lemma c3_at_read s l c : c3_at s l c -> read_Cartesian3 s (VRef l) = Some c.
Proof.
  intros (_ & o & H & ->). unfold read_Cartesian3, fields. now rewrite H.
Qed.

Lemma ellipsoid_at_read s l r c :
  ellipsoid_at s l r c -> read_Ellipsoid s (VRef l) = Some c.
Proof.
  intros (_ & _ & (o & H & Hr) & C). unfold read_Ellipsoid, field.
  rewrite H, Hr. now apply c3_at_read.
Qed.

Lemma ellipse_at_read s l lc le lr c :
  ellipse_at s l lc le lr c -> read_EllipseOutlineGeometry s (VRef l) = Some c.
Proof.
  intros (_ & _ & o & cc & cr & H & Hc & He & Cc & Ce & ->).
  unfold read_EllipseOutlineGeometry, field, fields. rewrite H, Hc, He.
  now rewrite (c3_at_read _ _ _ Cc), (ellipsoid_at_read _ _ _ _ Ce).
Qed.

Lemma circle_at_read s d eg lc le lr c :
  circle_at s d eg lc le lr c ->
  read_CircleOutlineGeometry s (VRef d) = Some c.
Proof.
  intros (_ & _ & (o & H & Hg) & E).
  unfold read_CircleOutlineGeometry, field. rewrite H, Hg.
  eapply ellipse_at_read; eauto.
Qed.

Lemma defaultValue_defined v d : defined v = true -> defaultValue v d = v.
Proof. intros H. unfold defaultValue. now rewrite H. Qed.

Lemma dv0_defined c : Forall (fun v => defined v = true) c -> dv0 c = c.
Proof.
  unfold dv0. induction 1 as [|v c H _ IH]; cbn [map]; [reflexivity|].
  now rewrite defaultValue_defined, IH.

Qed.

Lemma sub_write_at_0 els i c n :
  n <= length c -> sub (write_at els i c) i n = firstn n c.
Proof.
  intros H. rewrite <- (Nat.add_0_r i) at 2.
  now rewrite sub_write_at_part by lia.
Qed.

Lemma unpacked_circle_write_at els i c r :
  length c = 12 -> valid_content c r ->
  unpacked_circle (write_at els i c) i r = c.
Proof.
  intros L (F & H6 & H7).
  do 12 (destruct c as [|? c]; [discriminate L|]).
  destruct c; [|discriminate L]. cbn in H6, H7. subst.
  unfold unpacked_circle, defaults.
  rewrite sub_write_at_0, sub_write_at_part by (cbn; lia).
  rewrite !nth_write_at by (cbn; lia).
  cbn [firstn skipn nth].
  repeat match goal with
         | H : Forall _ (_ :: _) |- _ => inversion H; clear H; subst
         end.
  cbn [dv0 map app]. unfold defaultValue.
  repeat (match goal with
          | H : defined ?v = true |- _ => rewrite H
          end; cbn iota).
  reflexivity.

Qed.

Lemma arr_at_scratch e g s a els l :
  wf e g s -> arr_at s a els -> In l (scratch_locs g) -> ~ In l [a].
Proof.
  intros (_ & (c & E) & (_ & (o & H & _) & (c1 & C1) & (c2 & C2)) & _) (_ & A) I N.
  destruct N as [<-|[]].
  destruct E as (_ & _ & o0 & cc & cr & H0 & _ & _ & (_ & o1 & H1 & _)
                 & (_ & _ & (o2 & H2 & _) & (_ & o3 & H3 & _)) & _).
  destruct C1 as (_ & o4 & H4 & _).
  destruct C2 as (_ & _ & (o5 & H5 & _) & (_ & o6 & H6 & _)).
  unfold scratch_locs in I. cbn [In] in I.
  repeat (destruct I as [<-|I]; [congruence|]). exact I.
Qed.

(** Packing a valid description at any index of any array and unpacking
    it there yields a description with the same twelve fields. *)
Lemma pack_unpack_at e g s d eg lc le lr c r a els i :
  wf e g s -> circle_at s d eg lc le lr c -> valid_content c r ->
  arr_at s a els ->
  exists s1 s2,
    CircleOutlineGeometry.pack (VRef d) (VRef a) (Some i) s = Return (VRef a) s1 /\
    CircleOutlineGeometry.unpack e (VRef a) (Some i) VUndefined s1
    = Return (VRef (4 + next s)) s2 /\
    wf e g s2 /\
    circle_at s2 (4 + next s) (6 + next s) (7 + next s) (8 + next s)
      (9 + next s) c.
Proof.
  intros W C V A.
  destruct (CircleOutlineGeometry_pack_spec s d eg lc le lr c a els i C A)
    as (s1 & E1 & N1 & F1 & A1).
  assert (W1 : wf e g s1).
  { apply (wf_frame [a] e g s); auto. intros l. now apply arr_at_scratch with (e := e) (s := s) (els := els). }
  assert (L : length c = 12).
  { destruct C as (_ & _ & _ & E). eapply ellipse_at_length; eauto. }
  destruct (CircleOutlineGeometry_unpack_new e g s1 a (write_at els i c) i r W1 A1)
    as (s2 & E2 & N2 & F2 & W2 & C2).
  { destruct V as (_ & H6 & _). now rewrite nth_write_at by lia. }
  rewrite unpacked_circle_write_at in C2 by assumption.
  rewrite N1 in *. eauto 10.
Qed.


(** C1: for every valid CircleOutlineGeometry description [d],
    [unpack(pack(d, []), 0)] is a description whose twelve fields (center,
    radii of the ellipsoid, semi-axes, height, extruded height, granularity
    and number of vertical lines) are exactly those of [d]. *)
Theorem CircleOutlineGeometry_pack_unpack e g s d eg lc le lr c r a :
  wf e g s -> circle_at s d eg lc le lr c -> valid_content c r ->
  arr_at s a [] ->
  exists s1 d' s2,
    CircleOutlineGeometry.pack (VRef d) (VRef a) None s = Return (VRef a) s1 /\
    CircleOutlineGeometry.unpack e (VRef a) (Some 0) VUndefined s1
    = Return d' s2 /\
    read_CircleOutlineGeometry s2 d' = read_CircleOutlineGeometry s (VRef d) /\
    read_CircleOutlineGeometry s (VRef d) = Some c.
Proof.
  intros W C V A.
  destruct (pack_unpack_at e g s d eg lc le lr c r a [] 0 W C V A)
    as (s1 & s2 & E1 & E2 & _ & C2).
  exists s1, (VRef (4 + next s)), s2.
  split; [exact E1|]. split; [exact E2|].
  rewrite (circle_at_read _ _ _ _ _ _ _ C), (circle_at_read _ _ _ _ _ _ _ C2).
  auto.
Qed.

(** The structure predicates on a concrete heap, from what the readers
    compute. *)
Lemma field_inv s l k v :
  field s (VRef l) k = Some v ->
  exists o, heap s l = Some (Object o) /\ o k = v.
Proof.
  unfold field. destruct (heap s l) as [[o|]|]; try discriminate.
  intros [= <-]. eauto.
Qed.

Lemma fields_inv s l ks c :
  fields s (VRef l) ks = Some c ->
  exists o, heap s l = Some (Object o) /\ c = map o ks.
Proof.
  unfold fields. destruct (heap s l) as [[o|]|]; try discriminate.
  intros [= <-]. eauto.
Qed.

Lemma c3_at_intro s l c :
  l < next s -> read_Cartesian3 s (VRef l) = Some c -> c3_at s l c.
Proof.
  intros B H. apply fields_inv in H as (o & H & ->). split; eauto.
Qed.

Lemma ellipsoid_at_intro s l r c :
  l < next s -> r < next s -> l <> r ->
  field s (VRef l) "_radii" = Some (VRef r) ->
  read_Cartesian3 s (VRef r) = Some c -> ellipsoid_at s l r c.
Proof.
  intros B B' D H C. apply field_inv in H as (o & H & Hr).
  split; [exact B|]. split; [exact D|]. split; [eauto|].
  now apply c3_at_intro.
Qed.

Lemma ellipse_at_intro s l lc le lr cc cr fs :
  l < next s -> lc < next s -> le < next s -> lr < next s ->
  NoDup [l; lc; le; lr] ->
  field s (VRef l) "_center" = Some (VRef lc) ->
  field s (VRef l) "_ellipsoid" = Some (VRef le) ->
  field s (VRef le) "_radii" = Some (VRef lr) ->
  read_Cartesian3 s (VRef lc) = Some cc ->
  read_Cartesian3 s (VRef lr) = Some cr ->
  fields s (VRef l) ellipse_fields = Some fs ->
  ellipse_at s l lc le lr (cc ++ cr ++ fs).
Proof.
  intros B Bc Be Br D Hc He Hr Cc Cr Hf.
  apply field_inv in Hc as (o & H & Hc).
  apply field_inv in He as (o' & H' & He).
  apply fields_inv in Hf as (o'' & H'' & ->).
  assert (o' = o) by congruence. assert (o'' = o) by congruence. subst o' o''.
  split; [exact B|]. split; [exact D|].
  exists o, cc, cr. split; [exact H|]. split; [exact Hc|]. split; [exact He|].
  split; [now apply c3_at_intro|]. split; [|reflexivity].
  apply ellipsoid_at_intro; auto.
  inversion D as [|? ? _ D1]; inversion D1 as [|? ? _ D2];
    inversion D2 as [|? ? N _]; subst.
  intros ->. apply N. now left.
Qed.

Lemma circle_at_intro s d eg lc le lr cc cr fs :
  d < next s -> ~ In d [eg; lc; le; lr] ->
  field s (VRef d) "_ellipseGeometry" = Some (VRef eg) ->
  ellipse_at s eg lc le lr (cc ++ cr ++ fs) ->
  circle_at s d eg lc le lr (cc ++ cr ++ fs).
Proof.
  intros B N H E. apply field_inv in H as (o & H & Hg).
  split; [exact B|]. split; [exact N|]. split; [eauto|exact E].
Qed.

Lemma options_at_intro s l lc le lr cc cr :
  l < next s -> lc < next s -> le < next s -> lr < next s -> le <> lr ->
  field s (VRef l) "center" = Some (VRef lc) ->
  field s (VRef l) "ellipsoid" = Some (VRef le) ->
  field s (VRef le) "_radii" = Some (VRef lr) ->
  read_Cartesian3 s (VRef lc) = Some cc ->
  read_Cartesian3 s (VRef lr) = Some cr ->
  options_at s l lc le lr.
Proof.
  intros B Bc Be Br D Hc He Hr Cc Cr.
  apply field_inv in Hc as (o & H & Hc).
  apply field_inv in He as (o' & H' & He).
  assert (o' = o) by congruence. subst o'.
  split; [exact B|]. split; [eauto|]. split.
  - exists cc. now apply c3_at_intro.
  - exists cr. now apply ellipsoid_at_intro.
Qed.

Ltac concrete_NoDup :=
  repeat (apply NoDup_cons; [cbn [In]; lia|]); apply NoDup_nil.

(** Closed facts about a concrete heap, by evaluation. *)
Ltac concrete :=
  lazymatch goal with
  | |- NoDup _ => concrete_NoDup
  | |- _ < _ => vm_compute; lia
  | |- _ <> _ => vm_compute; lia
  | |- ~ In _ _ => cbn [In]; lia
  | |- _ = _ => vm_compute; reflexivity
  end.

Lemma example_wf : wf example_env example_scratch example_state.
Proof.
  split; [reflexivity|]. unfold example_scratch, scratch_locs.
  cbn [SEG SEGc SEGe SEGr SO SOc SOe SOr]. split; [|split].
  - eexists. eapply ellipse_at_intro; concrete.
  - eapply options_at_intro; concrete.
  - concrete.
Qed.

Lemma example_circle : circle_at example_state 12 14 15 16 17 example_content.
Proof.
  change example_content
    with ([VNumber 0; VNumber 0; VNumber 0]
          ++ [VNumber 6378137.0; VNumber 6378137.0; VNumber 6356752.3142451793]
          ++ [VNumber 100000; VNumber 100000;
              VNumber 0; VNumber 0; VNumber 0.02; VNumber 16])%list.
  apply circle_at_intro; [concrete..|].
  apply ellipse_at_intro; concrete.
Qed.

Lemma example_valid : valid_content example_content 100000.
Proof. split; [repeat constructor|split; reflexivity]. Qed.

Lemma example_array : arr_at example_state 18 [].
Proof. split; [vm_compute; lia|reflexivity]. Qed.

Lemma CircleOutlineGeometry_pack_unpack_witness :
  exists s1 d' s2,
    CircleOutlineGeometry.pack (VRef 12) (VRef 18) None example_state
    = Return (VRef 18) s1 /\
    CircleOutlineGeometry.unpack example_env (VRef 18) (Some 0) VUndefined s1
    = Return d' s2 /\
    read_CircleOutlineGeometry s2 d'
    = read_CircleOutlineGeometry example_state (VRef 12) /\
    read_CircleOutlineGeometry example_state (VRef 12) = Some example_content.
Proof.
  exact (CircleOutlineGeometry_pack_unpack example_env example_scratch
           example_state 12 14 15 16 17 example_content 100000 18
           example_wf example_circle example_valid example_array).
Defined.

(** *** createGeometry and the creation entry point *)

Lemma EllipseOutlineGeometry_createGeometry_spec s l lc le lr c :
  ellipse_at s l lc le lr c ->
  EllipseOutlineGeometry.createGeometry (VRef l) s
  = Return (EllipseOutlineGeometry.tessellate c) s.
Proof.
  intros (B & D & o & cc & cr & H & Hc & He & (Bc & oc & Hlc & ->)
          & (Be & De & (oe & Hle & Hr) & (Br & orr & Hlr & ->)) & ->).
  unfold EllipseOutlineGeometry.createGeometry.
  repeat step. reflexivity.
Qed.

Lemma CircleOutlineGeometry_createGeometry_spec s d eg lc le lr c :
  circle_at s d eg lc le lr c ->
  CircleOutlineGeometry.createGeometry (VRef d) s
  = Return (EllipseOutlineGeometry.tessellate c) s.
Proof.
  intros (B & D & (o & H & Hg) & E).
  unfold CircleOutlineGeometry.createGeometry.
  repeat step. eapply EllipseOutlineGeometry_createGeometry_spec; eauto.
Qed.

(** The entry point on a description: the center and the ellipsoid of the
    base description are replaced by fresh clones, nothing else is written,
    and the geometry is computed from the clones. *)
Lemma createCircleOutlineGeometry_direct e s d eg lc le lr cc cr fs :
  length cc = 3 -> length cr = 3 ->
  circle_at s d eg lc le lr (cc ++ cr ++ fs) ->
  exists s',
    CircleOutlineGeometry.createCircleOutlineGeometry e (VRef d) None s
    = Return (EllipseOutlineGeometry.tessellate (dv0 cc ++ dv0 cr ++ fs)) s' /\
    next s' = 3 + next s /\ frame [eg] s s' /\
    circle_at s' d eg (next s) (1 + next s) (2 + next s)
      (dv0 cc ++ dv0 cr ++ fs) /\
    exists og,
      heap s eg = Some (Object og) /\
      heap s' eg
      = Some (Object (oupd (oupd og "_center" (VRef (next s)))
                        "_ellipsoid" (VRef (1 + next s)))).
Proof.
  intros L1 L2 (B & D & (o & H & Hg) & E).
  pose proof E as (Bg & Dg & _).
  destruct (ellipse_at_inv s eg lc le lr cc cr fs L1 L2 E)
    as (og & Hog & Hgc & Hge & Cc & Ce & Hf).
  assert (Dn : d <> eg) by (cbn [In] in D; intros ->; tauto).
  assert (D1 : distinct d eg) by exact Dn.
  unfold CircleOutlineGeometry.createCircleOutlineGeometry.
  repeat step.
  destruct (Cartesian3_clone_fresh s lc cc Cc) as (s1 & E1 & N1 & F1 & C1).
  call E1. repeat step.
  match goal with |- context [bind (Ellipsoid.clone _ _) ?K ?s0] =>
    destruct (Ellipsoid_clone_fresh s0 le lr cr) as (s2 & E2 & N2 & F2 & C2) end.
  { pose proof Ce as (Ble & _ & _ & (Blr & _)).
    assert (distinct le eg /\ distinct lr eg) as (? & ?).
    { inversion Dg as [|? ? Ng D']; subst. cbn [In] in Ng.
      split; intros ->; tauto. }
    apply (ellipsoid_at_frame [eg] s); [frame_solve|not_in|not_in|exact Ce]. }
  st_simpl_all. call E2. repeat step.
  assert (CA : circle_at
                 {| heap := hupd (heap s2) eg
                      (Object (oupd (oupd og "_center" (VRef (next s)))
                                 "_ellipsoid" (VRef (S (next s)))));
                    next := S (S (S (next s))); loads := loads s2 |}
                 d eg (next s) (1 + next s) (2 + next s)
                 (dv0 cc ++ dv0 cr ++ fs)).
  { split; [st_simpl; lia|]. split; [cbn [In]; lia|]. split.
    - exists o. split; [heap_solve|exact Hg].
    - split; [st_simpl; lia|]. split; [apply NoDup4; lia|].
      exists (oupd (oupd og "_center" (VRef (next s)))
                "_ellipsoid" (VRef (S (next s)))), (dv0 cc), (dv0 cr).
      split; [heap_solve|]. obj_norm.
      split; [reflexivity|]. split; [reflexivity|]. split; [|split].
      + apply (c3_at_frame [eg] s1); [frame_solve|not_in|exact C1].
      + apply (ellipsoid_at_frame [eg] s2); [frame_solve|not_in|not_in|exact C2].
      + rewrite <- Hf. cbn [map ellipse_fields]. obj_norm. reflexivity. }
  rewrite (CircleOutlineGeometry_createGeometry_spec _ _ _ _ _ _ _ CA).
  eexists; split; [reflexivity|].
  split; [st_simpl; lia|]. split; [frame_solve|]. split; [exact CA|].
  exists og. split; [exact Hog|heap_solve].
Qed.

(** *** EllipsoidOutlineGeometry *)

Lemma ellipsoidg_at_frame L s s' l lr c :
  frame L s s' -> ~ In l L -> ~ In lr L ->
  ellipsoidg_at s l lr c -> ellipsoidg_at s' l lr c.
Proof.
  intros F N1 N2 (B & D & o & cr & H & Hr & Cr & ->).
  split; [pose proof (frame_next _ _ _ F); lia|]. split; [exact D|].
  exists o, cr. rewrite (frame_heap _ _ _ _ F B N1).
  split; [exact H|]. split; [exact Hr|].
  split; [eapply c3_at_frame; eauto|reflexivity].

Qed.

Lemma ellipsoidg_at_inv s l lr cr fs :
  length cr = 3 -> ellipsoidg_at s l lr (cr ++ fs) ->
  exists o, heap s l = Some (Object o) /\ o "_radii" = VRef lr /\
    c3_at s lr cr /\ map o ellipsoid_fields = fs.
Proof.
  intros L (_ & _ & o & cr' & H & Hr & Cr & E).
  apply app_inj_length in E as (-> & E);
    [|now rewrite (c3_at_length _ _ _ Cr)].
  exists o. auto.
Qed.

Lemma EllipsoidOutlineGeometry_new_spec s lo oo cr :
  lo < next s -> heap s lo = Some (Object oo) ->
  radii_arg s (oo "radii") cr ->
  exists s', EllipsoidOutlineGeometry.new (VRef lo) s = Return (VRef (next s)) s' /\
    next s' = 2 + next s /\ frame [] s s' /\
    ellipsoidg_at s' (next s) (1 + next s)
      (cr ++ sdefaults (oo "stackPartitions") (oo "slicePartitions")
                       (oo "subdivisions"))%list.
Proof.
  intros Blo Hlo [(Hr & ->)|(lr & cr0 & Hr & Cr & ->)];
    unfold EllipsoidOutlineGeometry.new, EllipsoidOutlineGeometry.constructor;
    repeat step.
  - match goal with |- context [bind (Cartesian3.new ?x ?y ?z) ?K ?s0] =>
      destruct (Cartesian3_new_spec x y z s0) as (s1 & E1 & N1 & F1 & C1) end.
    st_simpl_all. call E1. repeat step.
    eexists; split; [reflexivity|]. heap_norm.
    split; [lia|]. split; [frame_solve|].
    split; [st_simpl; lia|]. split; [lia|].
    eexists _, unit_radii. split; [heap_solve|]. obj_norm.
    split; [reflexivity|]. split.
    + apply (c3_at_frame [next s] s1); [frame_solve|not_in|exact C1].
    + cbn [map ellipsoid_fields]. obj_norm. reflexivity.
  - match goal with |- context [bind (Cartesian3.clone _ _) ?K ?s0] =>
      destruct (Cartesian3_clone_fresh s0 lr cr0) as (s1 & E1 & N1 & F1 & C1) end.
    { apply (c3_at_frame [] s); [frame_solve|apply not_in_nil|exact Cr]. }
    st_simpl_all. call E1. repeat step.
    eexists; split; [reflexivity|]. heap_norm.
    split; [lia|]. split; [frame_solve|].
    split; [st_simpl; lia|]. split; [lia|].
    eexists _, (dv0 cr0). split; [heap_solve|]. obj_norm.
    split; [reflexivity|]. split.
    + apply (c3_at_frame [next s] s1); [frame_solve|not_in|exact C1].
    + cbn [map ellipsoid_fields]. obj_norm. reflexivity.
Qed.


Lemma EllipsoidOutlineGeometry_unpack_into s a els i R Rr c0 :
  arr_at s a els -> ellipsoidg_at s R Rr c0 ->
  exists s', EllipsoidOutlineGeometry.unpack (VRef a) (Some i) (VRef R) s
             = Return (VRef R) s' /\
    next s' = 1 + next s /\ frame [R; Rr] s s' /\
    ellipsoidg_at s' R Rr (unpacked_ellipsoid els i).
Proof.
  intros A (B & D & o & cr & H & Hr & Cr & ->).
  pose proof Cr as (Br & _).
  assert (D1 : distinct R Rr) by exact D.
  unfold EllipsoidOutlineGeometry.unpack.
  destruct (Cartesian3_unpack_spec s a els i A) as (s1 & E1 & N1 & F1 & C1).
  call E1.
  assert (A1 : arr_at s1 a els) by (apply (arr_at_frame [] s); auto).
  destruct A1 as (Ba & A1).
  repeat step.
  destruct (Cartesian3_clone_into s1 (next s) (sub els i 3) Rr cr)
    as (s2 & E2 & N2 & F2 & C2); auto.
  { apply (c3_at_frame [] s); auto. }
  call E2. repeat step.
  eexists; split; [reflexivity|]. heap_norm.
  split; [lia|]. split; [frame_solve|]. split; [st_simpl; lia|].
  split; [exact D|].
  eexists _, (sub els i 3). split; [heap_solve|]. obj_norm.
  split; [reflexivity|]. split.
  - apply (c3_at_frame [R] s2); [frame_solve|not_in|exact C2].
  - unfold unpacked_ellipsoid. cbn [map ellipsoid_fields]. obj_norm.
    reflexivity.
Qed.

Lemma EllipsoidOutlineGeometry_createGeometry_spec s l lr c :
  ellipsoidg_at s l lr c ->
  EllipsoidOutlineGeometry.createGeometry (VRef l) s
  = Return (EllipsoidOutlineGeometry.tessellate c) s.
Proof.
  intros (B & D & o & cr & H & Hr & (Br & orr & Hlr & ->) & ->).
  unfold EllipsoidOutlineGeometry.createGeometry.
  repeat step. reflexivity.
Qed.

(** *** SphereOutlineGeometry *)

Lemma sphere_at_frame L s s' d eg lr c :
  frame L s s' -> ~ In d L -> ~ In eg L -> ~ In lr L ->
  sphere_at s d eg lr c -> sphere_at s' d eg lr c.
Proof.
  intros F N0 N1 N2 (B & D & (o & H & Hg) & E).
  split; [pose proof (frame_next _ _ _ F); lia|]. split; [exact D|].
  split.
  - exists o. now rewrite (frame_heap _ _ _ _ F B N0).
  - eapply ellipsoidg_at_frame; eauto.
Qed.

Lemma SphereOutlineGeometry_new_spec s lo oo :
  lo < next s -> heap s lo = Some (Object oo) ->
  exists s', SphereOutlineGeometry.new (VRef lo) s = Return (VRef (next s)) s' /\
    next s' = 5 + next s /\ frame [] s s' /\
    sphere_at s' (next s) (3 + next s) (4 + next s) (sphere_content oo).
Proof.
  intros Blo Hlo.
  unfold SphereOutlineGeometry.new, SphereOutlineGeometry.constructor.
  repeat step.
  match goal with |- context [bind (Cartesian3.new ?x ?y ?z) ?K ?s0] =>
    destruct (Cartesian3_new_spec x y z s0) as (s1 & E1 & N1 & F1 & C1) end.
  st_simpl_all. call E1. repeat step.
  match goal with |- context [bind (EllipsoidOutlineGeometry.new (VRef ?l)) ?K ?s0] =>
    edestruct (EllipsoidOutlineGeometry_new_spec s0 l) as (s2 & E2 & N2 & F2 & C2)
  end.
  { st_simpl. lia. }
  { heap_solve. }
  { right. eexists _, _. split; [reflexivity|]. split; [|reflexivity].
    apply (c3_at_frame [] s1); [frame_solve|apply not_in_nil|exact C1]. }
  st_simpl_all. call E2. repeat step.
  eexists; split; [reflexivity|]. heap_norm.
  split; [lia|]. split; [frame_solve|].
  split; [st_simpl; lia|]. split; [cbn [In]; lia|]. split.
  - eexists; split; [heap_solve|]. obj_norm. reflexivity.
  - apply (ellipsoidg_at_frame [next s] s2); [frame_solve|not_in|not_in|exact C2].
Qed.

Lemma SphereOutlineGeometry_unpack_new e g s a els i :
  sphere_wf e g s -> arr_at s a els ->
  exists s', SphereOutlineGeometry.unpack e (VRef a) (Some i) VUndefined s
             = Return (VRef (1 + next s)) s' /\
    next s' = 6 + next s /\ frame (sphere_scratch_locs g) s s' /\
    sphere_wf e g s' /\
    sphere_at s' (1 + next s) (4 + next s) (5 + next s) (unpacked_sphere els i).
Proof.
  intros (-> & (c0 & E0) & BO & (oO & HO & HOr) & (cOr & COr) & D) A.
  pose proof (distinct_of_NoDup _ D) as Hd.
  destruct g as [seg segr so sor].
  unfold sphere_scratch_locs in *. cbn [SSEG SSEGr SSO SSOr] in *.
  pose proof (Hd 0 1 _ _ eq_refl eq_refl ltac:(lia)) as D01.
  pose proof (Hd 0 2 _ _ eq_refl eq_refl ltac:(lia)) as D02.
  pose proof (Hd 0 3 _ _ eq_refl eq_refl ltac:(lia)) as D03.
  pose proof (Hd 1 2 _ _ eq_refl eq_refl ltac:(lia)) as D12.
  pose proof (Hd 1 3 _ _ eq_refl eq_refl ltac:(lia)) as D13.
  pose proof (Hd 2 3 _ _ eq_refl eq_refl ltac:(lia)) as D23.
  clear Hd.
  pose proof E0 as (B0 & _ & ? & ? & _ & _ & (B0r & _) & _).
  pose proof COr as (BOr & _).
  unfold SphereOutlineGeometry.unpack.
  cbn [SphereOutlineGeometry.scratchEllipsoidGeometry
       SphereOutlineGeometry.scratchOptions].
  destruct (EllipsoidOutlineGeometry_unpack_into s a els i seg segr c0 A E0)
    as (s1 & E1 & N1 & F1 & C1).
  call E1.
  destruct (ellipsoidg_at_inv s1 seg segr (sub els i 3) _ eq_refl C1)
    as (o1 & H1 & H1r & C1r & Hf1).
  cbn [map ellipsoid_fields] in Hf1.
  injection Hf1 as Hf3 Hf4 Hf5.
  destruct C1r as (B1r & or1 & Hr1 & Hx).
  unfold sub in Hx. cbn [map seq] in Hx. injection Hx as Hx0 Hx1 Hx2.
  repeat step.
  match goal with |- context [SphereOutlineGeometry.new (VRef so) ?s0] =>
    edestruct (SphereOutlineGeometry_new_spec s0 so) as (s2 & E2 & N2 & F2 & C2)
  end.
  { st_simpl. lia. }
  { heap_solve. }
  st_simpl_all. rewrite E2.
  eexists; split; [reflexivity|].
  split; [lia|]. split; [frame_solve|]. split.
  - split; [reflexivity|]. unfold sphere_scratch_locs.
    cbn [SSEG SSEGr SSO SSOr].
    split; [|split; [lia|split; [|split; [|exact D]]]].
    + eexists. apply (ellipsoidg_at_frame [so] s1);
        [frame_solve|not_in..|exact C1].
    + eexists. split; [heap_solve|]. obj_norm. reflexivity.

    + eexists. apply (c3_at_frame [seg; segr; so] s); [frame_solve|not_in|exact COr].
  - revert C2. unfold sphere_content, unpacked_sphere. obj_norm.
    rewrite <- Hx0, <- Hf3, <- Hf4, <- Hf5. rewrite Nat.add_0_r.
    exact (fun H => H).
Qed.

Lemma SphereOutlineGeometry_createGeometry_spec s d eg lr c :
  sphere_at s d eg lr c ->
  SphereOutlineGeometry.createGeometry (VRef d) s
  = Return (EllipsoidOutlineGeometry.tessellate c) s.
Proof.
  intros (B & D & (o & H & Hg) & E).
  unfold SphereOutlineGeometry.createGeometry.
  repeat step. eapply EllipsoidOutlineGeometry_createGeometry_spec; eauto.
Qed.


Lemma wf_bounds e g s l : wf e g s -> In l (scratch_locs g) -> l < next s.
Proof.
  intros (_ & (c & E) & (BO & _ & (c1 & (BOc & _)) & (c2 & (BOe & _ & _ & (BOr & _)))) & _).
  destruct E as (B & _ & o & cc & cr & _ & _ & _ & (Bc & _)
                 & (Be & _ & _ & (Br & _)) & _).
  unfold scratch_locs. cbn [In].
  intros [<-|[<-|[<-|[<-|[<-|[<-|[<-|[<-|[]]]]]]]]]; assumption.
Qed.

Lemma defaultValue_is_defined v d : defined d = true -> defined (defaultValue v d) = true.
Proof. intros H. unfold defaultValue. destruct (defined v) eqn:E; auto. Qed.

Lemma dv0_all_defined c : Forall (fun v => defined v = true) (dv0 c).
Proof.
  unfold dv0. induction c as [|v c IH]; cbn [map]; constructor; auto.
  now apply defaultValue_is_defined.
Qed.

Lemma ellipsoid_arg_length s v cr : ellipsoid_arg s v cr -> length cr = 3.
Proof.
  intros [(_ & ->)|(le & lr & cr0 & _ & E & ->)]; [reflexivity|].
  unfold dv0. rewrite length_map. eapply ellipsoid_at_length; eauto.
Qed.

Lemma ellipsoid_arg_defined s v cr :
  ellipsoid_arg s v cr -> Forall (fun v => defined v = true) cr.
Proof.
  intros [(_ & ->)|(le & lr & cr0 & _ & _ & ->)].
  - repeat constructor.
  - apply dv0_all_defined.
Qed.

Lemma circle_content_valid s cc cr r oo v :
  length cc = 3 -> ellipsoid_arg s v cr ->
  valid_content (circle_content cc cr r oo) r.
Proof.
  intros Lc Harg.
  pose proof (ellipsoid_arg_length _ _ _ Harg) as Lr.
  pose proof (ellipsoid_arg_defined _ _ _ Harg) as Dr.
  unfold valid_content, circle_content. split.
  - apply Forall_app. split; [apply dv0_all_defined|].
    apply Forall_app. split; [exact Dr|].
    unfold defaults. repeat constructor; now apply defaultValue_is_defined.
  - do 3 (destruct cc as [|? cc]; [discriminate Lc|]).
    destruct cc; [|discriminate Lc].
    do 3 (destruct cr as [|? cr]; [discriminate Lr|]).
    destruct cr; [|discriminate Lr].
    split; reflexivity.
Qed.

Lemma frame_fresh_scratch e g s l :
  wf e g s -> next s <= l -> ~ In l (scratch_locs g).
Proof.
  intros W B I. pose proof (wf_bounds e g s l W I). lia.
Qed.

(** C5: constructing a CircleOutlineGeometry with the radius [r] derives
    the canonical ellipse outline with semiMajorAxis = semiMinorAxis = [r]
    and the center, ellipsoid, height, extruded height, granularity and
    number of vertical lines of the options; packing the result into an
    empty array and unpacking it yields a description with the same fields,
    so again with both semi-axes equal to [r]. *)
Theorem CircleOutlineGeometry_derives_ellipse e g s lo oo lc cc cr r :
  wf e g s ->
  lo < next s -> heap s lo = Some (Object oo) ->
  oo "radius" = VNumber r ->
  oo "center" = VRef lc -> c3_at s lc cc ->
  ellipsoid_arg s (oo "ellipsoid") cr ->
  exists d d' s',
    (d <- CircleOutlineGeometry.new (VRef lo) ;;
     a <- alloc (Array []) ;;
     CircleOutlineGeometry.pack d a None ;;
     d' <- CircleOutlineGeometry.unpack e a (Some 0) VUndefined ;;
     ret (d, d')) s = Return (d, d') s' /\
    read_CircleOutlineGeometry s' d
    = Some (dv0 cc ++ cr ++ [VNumber r; VNumber r]
            ++ defaults (oo "height") (oo "extrudedHeight") (oo "granularity")
                        (oo "numberOfVerticalLines"))%list /\
    read_CircleOutlineGeometry s' d' = read_CircleOutlineGeometry s' d /\
    (exists c, read_CircleOutlineGeometry s' d' = Some c /\
               nth 6 c VUndefined = VNumber r /\ nth 7 c VUndefined = VNumber r).
Proof.
  intros W Blo Hlo Hr Hc Cc Harg.
  destruct (CircleOutlineGeometry_new_spec s lo oo lc cc cr r Blo Hlo Hr Hc Cc Harg)
    as (s1 & E1 & N1 & F1 & C1).
  call E1. repeat step.
  match goal with |- context [bind (CircleOutlineGeometry.pack _ _ _) ?K ?s0] =>
    assert (W2 : wf e g s0);
    [|assert (C2 : circle_at s0 (next s) (2 + next s) (3 + next s) (4 + next s)
                     (5 + next s) (circle_content cc cr r oo));
      [|assert (A2 : arr_at s0 (6 + next s) [])]]
  end.
  { apply (wf_frame [] e g s); [frame_solve|intros; apply not_in_nil|exact W]. }
  { apply (circle_at_frame [] s1); [frame_solve|apply not_in_nil..|exact C1]. }
  { split; [st_simpl; lia|heap_solve]. }
  assert (V : valid_content (circle_content cc cr r oo) r).
  { eapply circle_content_valid; [eapply c3_at_length; eauto|eauto]. }
  edestruct (pack_unpack_at e g _ _ _ _ _ _ _ r _ [] 0 W2 C2 V A2)
    as (s3 & s4 & E3 & E4 & W4 & C4).
  change (CircleOutlineGeometry.pack ?d ?a None)
    with (CircleOutlineGeometry.pack d a (Some 0)).
  call E3. call E4. unfold ret.
  eexists _, _, _. split; [reflexivity|].
  assert (R4 : read_CircleOutlineGeometry s4 (VRef (next s))
               = Some (circle_content cc cr r oo)).
  { apply circle_at_read with (eg := 2 + next s) (lc := 3 + next s)
                              (le := 4 + next s) (lr := 5 + next s).
    destruct (CircleOutlineGeometry_pack_spec _ _ _ _ _ _ _ _ [] 0 C2 A2)
      as (s3' & E3' & N3 & F3 & A3).
    assert (s3' = s3) by congruence. subst s3'.
    assert (W3 : wf e g s3).
    { apply (wf_frame [6 + next s] e g _ _ F3); [|exact W2].
      intros l I. pose proof (wf_bounds e g s l W I). cbn [In]. lia. }
    destruct (CircleOutlineGeometry_unpack_new e g s3 (6 + next s)
                (write_at [] 0 (circle_content cc cr r oo)) 0 r W3 A3)
      as (s4' & E4' & N4 & F4 & _).
    { destruct V as (_ & H6 & _). rewrite nth_write_at; [exact H6|].
      destruct C2 as (_ & _ & _ & E). rewrite (ellipse_at_length _ _ _ _ _ _ E).
      lia. }
    assert (s4' = s4).
    { st_simpl_all. rewrite N3 in E4'. st_simpl_all. congruence. }
    subst s4'.
    apply (circle_at_frame (scratch_locs g) s3);
      [exact F4|apply (frame_fresh_scratch e g s); auto; lia..|].
    apply (circle_at_frame [6 + next s] _ _ _ _ _ _ _ _ F3);
      [cbn [In]; lia..|exact C2]. }
  split; [exact R4|]. st_simpl_all.
  rewrite (circle_at_read _ _ _ _ _ _ _ C4).
  split; [now rewrite R4|].
  exists (circle_content cc cr r oo). split; [reflexivity|].
  destruct V as (_ & H6 & H7). auto.
Qed.

Lemma typeOf_number_throws name v s :
  is_number v = false ->
  Check.typeOf_number name v s
  = Throw (DeveloperError ("Expected " ++ name
                           ++ " to be typeof number, actual typeof was "
                           ++ typeOf v)) s.
Proof. destruct v; try discriminate; reflexivity. Qed.

Lemma getField_option_radius s options radius c :
  option_radius s options = Some radius -> defined options = true ->
  getField options "radius"
    {| heap := hupd (heap s) (next s) c; next := S (next s); loads := loads s |}
  = Return radius
    {| heap := hupd (heap s) (next s) c; next := S (next s); loads := loads s |}.
Proof.
  intros Hr Hd. destruct options as [| | |l| |]; try discriminate Hd;
    cbn [option_radius] in Hr; try (injection Hr as <-; reflexivity).
  destruct (Nat.ltb_spec l (next s)) as [B|]; [|discriminate Hr].
  unfold getField. st_simpl. rewrite hupd_ne by lia.
  destruct (heap s l) as [[o|els]|]; [| |discriminate Hr];
    now injection Hr as <-.
Qed.

(** The constructor stops at the check of the radius: it has allocated the
    new object and defaulted the options, and written nothing else. *)
Lemma CircleOutlineGeometry_new_invalid s options radius :
  option_radius s options = Some radius -> is_number radius = false ->
  exists this s0 o s',
    alloc (Object empty_object) s = Return this s0 /\
    defaultOptions options s0 = Return o s' /\
    CircleOutlineGeometry.new options s
    = Throw (DeveloperError
               ("Expected radius to be typeof number, actual typeof was "
                ++ typeOf radius)) s' /\
    frame [] s s'.
Proof.
  intros Hr Hn.
  unfold CircleOutlineGeometry.new, CircleOutlineGeometry.constructor.
  rewrite (bind_Return (alloc (Object empty_object)) _ s _ _ eq_refl).
  rewrite bind_assoc. cbv beta.
  destruct (defined options) eqn:Hd.
  - eexists _, _. eexists _, _. split; [reflexivity|].
    unfold defaultOptions. rewrite Hd. split; [reflexivity|].
    rewrite (bind_Return (ret _) _ _ _ _ eq_refl). rewrite bind_assoc.
    rewrite (bind_Return _ _ _ _ _
               (getField_option_radius s options radius _ Hr Hd)).
    rewrite bind_assoc.
    rewrite (bind_Throw _ _ _ _ _ (typeOf_number_throws "radius" radius _ Hn)).
    split; [reflexivity|frame_solve].
  - destruct options; try discriminate Hd. cbn [option_radius] in Hr.
    injection Hr as <-.
    eexists _, _. eexists _, _. split; [reflexivity|].
    cbn [defaultOptions defined]. split; [reflexivity|].
    repeat step. rewrite ?bind_assoc.
    rewrite (bind_Throw _ _ _ _ _ (typeOf_number_throws "radius" VUndefined _ eq_refl)).
    split; [reflexivity|frame_solve].
Qed.

(** C6: constructing a CircleOutlineGeometry whose radius is absent or is
    not a number raises the InvalidArgument condition (a DeveloperError) at
    construction time, before anything is packed or computed: the
    constructor ends in the error, and no object that existed before the
    call was written. *)
Theorem CircleOutlineGeometry_requires_radius s options radius :
  option_radius s options = Some radius -> is_number radius = false ->
  exists s',
    CircleOutlineGeometry.new options s
    = Throw (DeveloperError
               ("Expected radius to be typeof number, actual typeof was "
                ++ typeOf radius)) s' /\
    frame [] s s'.
Proof.
  intros Hr Hn.
  destruct (CircleOutlineGeometry_new_invalid s options radius Hr Hn)
    as (this & s0 & o & s' & _ & _ & E & F).
  exists s'. split; [exact E|exact F].
Qed.

Lemma CircleOutlineGeometry_requires_radius_witness :
  exists s',
    CircleOutlineGeometry.new (VRef 1) example_options_state
    = Throw (DeveloperError
               "Expected radius to be typeof number, actual typeof was undefined")
            s' /\
    frame [] example_options_state s'.
Proof.
  apply (CircleOutlineGeometry_requires_radius example_options_state (VRef 1)
           VUndefined); reflexivity.
Defined.

(** *** Reading a sphere outline *)

Lemma ellipsoidg_at_read s l lr c :
  ellipsoidg_at s l lr c -> read_EllipsoidOutlineGeometry s (VRef l) = Some c.
Proof.
  intros (_ & _ & o & cr & H & Hr & Cr & ->).
  unfold read_EllipsoidOutlineGeometry, field, fields. rewrite H, Hr.
  now rewrite (c3_at_read _ _ _ Cr).
Qed.

Lemma sphere_at_read s d eg lr c :
  sphere_at s d eg lr c -> read_SphereOutlineGeometry s (VRef d) = Some c.
Proof.
  intros (_ & _ & (o & H & Hg) & E).
  unfold read_SphereOutlineGeometry, field. rewrite H, Hg.
  eapply ellipsoidg_at_read; eauto.
Qed.

(** C10: the SphereOutlineGeometry constructor takes the radius as
    optional, with the default 1.0: without a radius it raises nothing and
    yields the unit sphere, radii (1, 1, 1) and the default partitions where
    they are absent too. It reads [options.radius] of the options as they
    are given, so with no options at all it fails with a TypeError. *)
Theorem SphereOutlineGeometry_radius_optional :
  (forall s lo oo,
      lo < next s -> heap s lo = Some (Object oo) ->
      oo "radius" = VUndefined ->
      exists d s',
        SphereOutlineGeometry.new (VRef lo) s = Return d s' /\
        read_SphereOutlineGeometry s' d
        = Some ([VNumber 1; VNumber 1; VNumber 1]
                ++ sdefaults (oo "stackPartitions") (oo "slicePartitions")
                             (oo "subdivisions"))%list) /\
  (forall s,
      exists s',
        SphereOutlineGeometry.new VUndefined s
        = Throw (TypeError "Cannot read properties of undefined") s').
Proof.
  split.
  - intros s lo oo Blo Hlo Hr.
    destruct (SphereOutlineGeometry_new_spec s lo oo Blo Hlo)
      as (s' & E & N & F & C).
    exists (VRef (next s)), s'. split; [exact E|].
    rewrite (sphere_at_read _ _ _ _ _ C).
    unfold sphere_content. now rewrite Hr.
  - intros s. eexists. reflexivity.
Qed.

Lemma SphereOutlineGeometry_radius_optional_witness :
  exists d s',
    SphereOutlineGeometry.new (VRef 0) example_sphere_state = Return d s' /\
    read_SphereOutlineGeometry s' d
    = Some [VNumber 1; VNumber 1; VNumber 1;
            VNumber 10; VNumber 8; VNumber 200].
Proof.
  apply (proj1 SphereOutlineGeometry_radius_optional example_sphere_state 0
           empty_object); [vm_compute; lia|reflexivity|reflexivity].
Defined.

(** *** The creation entry points *)

Lemma dv0_dv0 c : dv0 (dv0 c) = dv0 c.
Proof. apply dv0_defined, dv0_all_defined. Qed.

Section Entry.

Variable unpack : value -> option nat -> M value.
Variable createGeometry : value -> M value.

Lemma createCylinderGeometry_offset g i s :
  createCylinderGeometry unpack createGeometry g (Some i) s
  = (d <- unpack g (Some i) ;; createGeometry d) s.
Proof. reflexivity. Qed.

Lemma createCylinderGeometry_direct g s :
  createCylinderGeometry unpack createGeometry g None s = createGeometry g s.
Proof. reflexivity. Qed.

Lemma createEllipseGeometry_offset g i s d s1 :
  unpack g (Some i) s = Return d s1 ->
  createEllipseGeometry unpack createGeometry g (Some i) s
  = createEllipseGeometry unpack createGeometry d None s1.
Proof.
  intros E. unfold createEllipseGeometry.
  rewrite (bind_Return _ _ _ _ _ E). reflexivity.
Qed.

Lemma createEllipseGeometry_direct s d lc le lr cc cr o :
  centered_at s d lc le lr cc cr o ->
  exists s',
    createEllipseGeometry unpack createGeometry (VRef d) None s
    = createGeometry (VRef d) s' /\
    next s' = 3 + next s /\ frame [d] s s' /\
    centered_at s' d (next s) (1 + next s) (2 + next s) (dv0 cc) (dv0 cr)
      (recloned o (next s) (1 + next s)).
Proof.
  intros (B & D & H & Hc & He & Cc & Ce).
  assert (distinct le d /\ distinct lr d) as (D1 & D2).
  { inversion D as [|? ? Ng D']; subst. cbn [In] in Ng.
    split; intros ->; tauto. }
  unfold createEllipseGeometry.
  repeat step.
  destruct (Cartesian3_clone_fresh s lc cc Cc) as (s1 & E1 & N1 & F1 & C1).
  call E1. repeat step.
  match goal with |- context [bind (Ellipsoid.clone _ _) ?K ?s0] =>
    destruct (Ellipsoid_clone_fresh s0 le lr cr) as (s2 & E2 & N2 & F2 & C2) end.
  { pose proof Ce as (Ble & _ & _ & (Blr & _)).
    apply (ellipsoid_at_frame [d] s); [frame_solve|not_in|not_in|exact Ce]. }
  st_simpl_all. call E2. repeat step.
  eexists; split; [reflexivity|].
  split; [st_simpl; lia|]. split; [frame_solve|].
  split; [st_simpl; lia|]. split; [apply NoDup4; lia|].
  split; [heap_solve|]. unfold recloned. obj_norm.
  split; [reflexivity|]. split; [reflexivity|]. split.
  - apply (c3_at_frame [d] s1); [frame_solve|not_in|exact C1].
  - apply (ellipsoid_at_frame [d] s2); [frame_solve|not_in|not_in|exact C2].
Qed.

End Entry.

Lemma createCircleOutlineGeometry_offset e g i s d s1 :
  CircleOutlineGeometry.unpack e g (Some i) VUndefined s = Return d s1 ->
  CircleOutlineGeometry.createCircleOutlineGeometry e g (Some i) s
  = CircleOutlineGeometry.createCircleOutlineGeometry e d None s1.
Proof.
  intros E. unfold CircleOutlineGeometry.createCircleOutlineGeometry.
  rewrite (bind_Return _ _ _ _ _ E). reflexivity.
Qed.

Lemma createCircleOutlineGeometry_packed e g s a els i r :
  wf e g s -> arr_at s a els -> nth (i + 6) els VUndefined = VNumber r ->
  exists d s1 v s2,
    CircleOutlineGeometry.unpack e (VRef a) (Some i) VUndefined s
    = Return d s1 /\
    CircleOutlineGeometry.createGeometry d s1 = Return v s1 /\
    CircleOutlineGeometry.createCircleOutlineGeometry e (VRef a) (Some i) s
    = Return v s2.
Proof.
  intros W A Hr.
  destruct (CircleOutlineGeometry_unpack_new e g s a els i r W A Hr)
    as (s1 & E1 & N1 & F1 & W1 & C1).
  unfold unpacked_circle in C1. rewrite dv0_dv0 in C1.
  destruct (createCircleOutlineGeometry_direct e s1 _ _ _ _ _
              (dv0 (sub els i 3)) (dv0 (sub els (i + 3) 3)) _
              eq_refl eq_refl C1) as (s2 & E2 & _).
  rewrite !dv0_dv0 in E2.
  eexists _, s1, _, s2. split; [exact E1|]. split.
  - exact (CircleOutlineGeometry_createGeometry_spec _ _ _ _ _ _ _ C1).
  - rewrite (createCircleOutlineGeometry_offset _ _ _ _ _ _ E1). exact E2.
Qed.

Lemma createCircleOutlineGeometry_given e s d eg lc le lr c :
  circle_at s d eg lc le lr c -> Forall (fun v => defined v = true) c ->
  exists v s',
    CircleOutlineGeometry.createGeometry (VRef d) s = Return v s /\
    CircleOutlineGeometry.createCircleOutlineGeometry e (VRef d) None s
    = Return v s'.
Proof.
  intros C V.
  pose proof C as (_ & _ & _ & (_ & _ & o & cc & cr & _ & _ & _ & Cc & Ce & ->)).
  apply Forall_app in V as (Vc & V). apply Forall_app in V as (Vr & _).
  destruct (createCircleOutlineGeometry_direct e s d eg lc le lr cc cr _
              (c3_at_length _ _ _ Cc) (ellipsoid_at_length _ _ _ _ Ce) C)
    as (s' & E & _).
  rewrite (dv0_defined _ Vc), (dv0_defined _ Vr) in E.
  eexists _, s'. split; [|exact E].
  exact (CircleOutlineGeometry_createGeometry_spec _ _ _ _ _ _ _ C).
Qed.

(** C7: each creation entry point unpacks its first argument at the offset
    when an offset is given and takes it as the description otherwise, and
    in both cases returns what the shape's [createGeometry] returns for that
    description. createEllipseGeometry first gives the description clones of
    its center and ellipsoid, with the same coordinates, and so does
    createCircleOutlineGeometry for the ellipse of the circle. *)
Theorem entry_point_creates_geometry :
  (forall unpack createGeometry g s,
      createCylinderGeometry unpack createGeometry g None s
      = createGeometry g s /\
      forall i,
        createCylinderGeometry unpack createGeometry g (Some i) s
        = (d <- unpack g (Some i) ;; createGeometry d) s) /\
  (forall e g s,
      SphereOutlineGeometry.createSphereOutlineGeometry e g None s
      = SphereOutlineGeometry.createGeometry g s /\
      forall i,
        SphereOutlineGeometry.createSphereOutlineGeometry e g (Some i) s
        = (d <- SphereOutlineGeometry.unpack e g (Some i) VUndefined ;;
           SphereOutlineGeometry.createGeometry d) s) /\
  (forall unpack createGeometry s d lc le lr cc cr o,
      centered_at s d lc le lr cc cr o ->
      exists s',
        frame [d] s s' /\
        centered_at s' d (next s) (1 + next s) (2 + next s) (dv0 cc) (dv0 cr)
          (recloned o (next s) (1 + next s)) /\
        createEllipseGeometry unpack createGeometry (VRef d) None s
        = createGeometry (VRef d) s' /\
        forall g i s0,
          unpack g (Some i) s0 = Return (VRef d) s ->
          createEllipseGeometry unpack createGeometry g (Some i) s0
          = createGeometry (VRef d) s') /\
  (forall e g s,
      wf e g s ->
      (forall d eg lc le lr c,
          circle_at s d eg lc le lr c ->
          Forall (fun v => defined v = true) c ->
          exists v s',
            CircleOutlineGeometry.createGeometry (VRef d) s = Return v s /\
            CircleOutlineGeometry.createCircleOutlineGeometry e (VRef d) None s
            = Return v s') /\
      (forall a els i r,
          arr_at s a els -> nth (i + 6) els VUndefined = VNumber r ->
          exists d s1 v s2,
            CircleOutlineGeometry.unpack e (VRef a) (Some i) VUndefined s
            = Return d s1 /\
            CircleOutlineGeometry.createGeometry d s1 = Return v s1 /\
            CircleOutlineGeometry.createCircleOutlineGeometry e (VRef a)
              (Some i) s
            = Return v s2)).
Proof.
  split; [|split; [|split]].
  - intros. split; [reflexivity|intros; reflexivity].
  - intros. split; [reflexivity|intros; reflexivity].
  - intros unpack createGeometry s d lc le lr cc cr o C.
    destruct (createEllipseGeometry_direct unpack createGeometry _ _ _ _ _ _ _ _ C)
      as (s' & E & _ & F & C').
    exists s'. split; [exact F|]. split; [exact C'|]. split; [exact E|].
    intros g i s0 U.
    now rewrite (createEllipseGeometry_offset _ _ _ _ _ _ _ U).
  - intros e g s W. split.
    + intros d eg lc le lr c C V.
      exact (createCircleOutlineGeometry_given e s d eg lc le lr c C V).
    + intros a els i r A Hr.
      exact (createCircleOutlineGeometry_packed e g s a els i r W A Hr).
Qed.

Lemma entry_point_creates_geometry_witness :
  exists v s',
    CircleOutlineGeometry.createGeometry (VRef 12) example_state
    = Return v example_state /\
    CircleOutlineGeometry.createCircleOutlineGeometry example_env (VRef 12)
      None example_state
    = Return v s'.
Proof.
  apply (proj1 (proj2 (proj2 (proj2 entry_point_creates_geometry))
                  example_env example_scratch example_state example_wf)
           12 14 15 16 17 example_content example_circle).
  exact (proj1 example_valid).
Defined.

Lemma example_caller_wf : wf example_env example_scratch example_caller.
Proof.
  split; [reflexivity|]. unfold example_scratch, scratch_locs.
  cbn [SEG SEGc SEGe SEGr SO SOc SOe SOr]. split; [|split].
  - eexists. apply ellipse_at_intro; concrete.
  - eapply options_at_intro; concrete.
  - concrete.
Qed.

Lemma CircleOutlineGeometry_derives_ellipse_witness :
  exists d d' s',
    (d <- CircleOutlineGeometry.new (VRef 11) ;;
     a <- alloc (Array []) ;;
     CircleOutlineGeometry.pack d a None ;;
     d' <- CircleOutlineGeometry.unpack example_env a (Some 0) VUndefined ;;
     ret (d, d')) example_caller = Return (d, d') s' /\
    read_CircleOutlineGeometry s' d = Some example_content /\
    read_CircleOutlineGeometry s' d' = read_CircleOutlineGeometry s' d /\
    (exists c, read_CircleOutlineGeometry s' d' = Some c /\
               nth 6 c VUndefined = VNumber 100000 /\
               nth 7 c VUndefined = VNumber 100000).
Proof.
  apply (CircleOutlineGeometry_derives_ellipse example_env example_scratch
           example_caller 11
           (literal [("center", VRef 10); ("radius", VNumber 100000)])
           10 [VNumber 0; VNumber 0; VNumber 0] WGS84_radii 100000
           example_caller_wf).
  - concrete.
  - concrete.
  - reflexivity.
  - reflexivity.
  - apply c3_at_intro; concrete.
  - left. split; reflexivity.
Defined.

(** *** What [unpack] depends on *)

Lemma CircleOutlineGeometry_unpack_invalid e g s a els i :
  wf e g s -> arr_at s a els ->
  is_number (nth (i + 6) els VUndefined) = false ->
  exists s', CircleOutlineGeometry.unpack e (VRef a) (Some i) VUndefined s
             = Throw (DeveloperError
                        ("Expected radius to be typeof number, actual typeof was "
                         ++ typeOf (nth (i + 6) els VUndefined))) s'.
Proof.
  intros (-> & (c0 & E0) & (BO & (oO & HO & HOc & HOe) & (cOc & COc) & (cOe & COe)) & D)
         A Hr.
  pose proof (scratch_distinct g D) as Dg.
  destruct g as [seg segc sege segr so soc soe sor].
  cbn [SEG SEGc SEGe SEGr SO SOc SOe SOr scratch_locs] in *.
  repeat (let H := fresh "Dg" in destruct Dg as (H & Dg)).
  pose proof E0 as (B0 & _ & ? & ? & ? & _ & _ & _ & (B0c & _)
                    & (B0e & _ & _ & (B0r & _)) & _).
  pose proof COc as (BOc & _). pose proof COe as (BOe & _ & _ & (BOr & _)).
  unfold CircleOutlineGeometry.unpack.
  cbn [CircleOutlineGeometry.scratchEllipseGeometry
       CircleOutlineGeometry.scratchOptions].
  destruct (EllipseOutlineGeometry_unpack_into s a els i seg segc sege segr c0 A E0)
    as (s1 & E1 & N1 & F1 & C1).
  call E1.
  destruct (ellipse_at_inv s1 seg segc sege segr (sub els i 3)
              (dv0 (sub els (i + 3) 3)) _ eq_refl eq_refl C1)
    as (o1 & H1 & H1c & H1e & C1c & C1e & Hf1).
  cbn [map ellipse_fields] in Hf1.
  injection Hf1 as Hf6 Hf7 Hf8 Hf9 Hf10 Hf11.
  assert (O1 : options_at s1 so soc soe sor).
  { apply (options_at_frame [seg; segc; segr] s); auto; [not_in..|].
    split; [auto|]. split; [eauto|]. eauto. }
  destruct O1 as (BO1 & (oO1 & HO1 & HO1c & HO1e) & (cOc1 & COc1) & (cOe1 & COe1)).
  repeat step.
  destruct (Cartesian3_clone_into s1 segc (sub els i 3) soc cOc1 C1c COc1)
    as (s2 & E2 & N2 & F2 & C2).
  call E2. repeat step.
  match goal with |- context [bind (Ellipsoid.clone _ _) ?K ?s0] =>
    destruct (Ellipsoid_clone_into s0 sege segr (dv0 (sub els (i + 3) 3))
                soe sor cOe1) as (s3 & E3 & N3 & F3 & C3) end.
  { apply (ellipsoid_at_frame [so; soc] s1); [frame_solve|not_in|not_in|auto]. }
  { apply (ellipsoid_at_frame [so; soc] s1); [frame_solve|not_in|not_in|auto]. }
  st_simpl_all. call E3. repeat step.
  match goal with |- context [CircleOutlineGeometry.new (VRef so) ?s0] =>
    destruct (CircleOutlineGeometry_new_invalid s0 (VRef so)
                (nth (i + 6) els VUndefined))
      as (this & s0' & o & s4 & _ & _ & E4 & _)
  end.
  { unfold option_radius. heap_norm. obj_norm.
    match goal with |- context [(?x <? ?y)%nat] =>
      destruct (Nat.ltb_spec x y) as [_|B]; [reflexivity|lia] end. }
  { exact Hr. }
  st_simpl_all. rewrite E4. eexists. reflexivity.
Qed.


Lemma CircleOutlineGeometry_unpack_equivalent e1 g1 s1 a1 e2 g2 s2 a2 els i :
  wf e1 g1 s1 -> wf e2 g2 s2 -> arr_at s1 a1 els -> arr_at s2 a2 els ->
  equivalent read_CircleOutlineGeometry
    (CircleOutlineGeometry.unpack e1 (VRef a1) (Some i) VUndefined s1)
    (CircleOutlineGeometry.unpack e2 (VRef a2) (Some i) VUndefined s2).
Proof.
  intros W1 W2 A1 A2.
  destruct (is_number (nth (i + 6) els VUndefined)) eqn:Hn.
  - destruct (nth (i + 6) els VUndefined) as [|r| | | |] eqn:Hr;
      try discriminate Hn.
    destruct (CircleOutlineGeometry_unpack_new e1 g1 s1 a1 els i r W1 A1 Hr)
      as (s1' & -> & _ & _ & _ & C1).
    destruct (CircleOutlineGeometry_unpack_new e2 g2 s2 a2 els i r W2 A2 Hr)
      as (s2' & -> & _ & _ & _ & C2).
    exists (unpacked_circle els i r).
    split; eapply circle_at_read; eassumption.
  - destruct (CircleOutlineGeometry_unpack_invalid e1 g1 s1 a1 els i W1 A1 Hn)
      as (s1' & ->).
    destruct (CircleOutlineGeometry_unpack_invalid e2 g2 s2 a2 els i W2 A2 Hn)
      as (s2' & ->).
    reflexivity.
Qed.




Lemma arr_at_intro s a els :
  a < next s -> heap s a = Some (Array els) -> arr_at s a els.
Proof. now split. Qed.

(** *** What an entry point writes *)

(** C9, as the claim states it, fails: after createCircleOutlineGeometry on
    the circle at 12, constructed from a center and the radius 100000, the
    canonical base description of the circle holds another [_center] than
    before. *)
Lemma createCircleOutlineGeometry_changes_description :
  ~ unchanged_description example_state
      (state_of (CircleOutlineGeometry.createCircleOutlineGeometry
                   example_env (VRef 12) None example_state))
      (VRef 12).
Proof.
  intros (_ & H). specialize (H (VRef 14) eq_refl "_center").
  vm_compute in H. discriminate H.
Qed.

Lemma recloned_other o lc le k :
  k <> "_center" -> k <> "_ellipsoid" -> recloned o lc le k = o k.
Proof.
  intros H1 H2. unfold recloned.
  rewrite !oupd_ne; [reflexivity|now apply String.eqb_neq..].
Qed.

Lemma createCircleOutlineGeometry_delegates e s d eg lc le lr cc cr fs :
  length cc = 3 -> length cr = 3 ->
  circle_at s d eg lc le lr (cc ++ cr ++ fs) ->
  exists s' og,
    CircleOutlineGeometry.createCircleOutlineGeometry e (VRef d) None s
    = CircleOutlineGeometry.createGeometry (VRef d) s' /\
    next s' = 3 + next s /\ frame [eg] s s' /\
    circle_at s' d eg (next s) (1 + next s) (2 + next s)
      (dv0 cc ++ dv0 cr ++ fs) /\
    heap s eg = Some (Object og) /\
    heap s' eg = Some (Object (recloned og (next s) (1 + next s))).
Proof.
  intros L1 L2 (B & D & (o & H & Hg) & E).
  pose proof E as (Bg & Dg & _).
  destruct (ellipse_at_inv s eg lc le lr cc cr fs L1 L2 E)
    as (og & Hog & Hgc & Hge & Cc & Ce & Hf).
  assert (Dn : d <> eg) by (cbn [In] in D; intros ->; tauto).
  assert (D1 : distinct d eg) by exact Dn.
  unfold CircleOutlineGeometry.createCircleOutlineGeometry.
  repeat step.
  destruct (Cartesian3_clone_fresh s lc cc Cc) as (s1 & E1 & N1 & F1 & C1).
  call E1. repeat step.
  match goal with |- context [bind (Ellipsoid.clone _ _) ?K ?s0] =>
    destruct (Ellipsoid_clone_fresh s0 le lr cr) as (s2 & E2 & N2 & F2 & C2) end.
  { pose proof Ce as (Ble & _ & _ & (Blr & _)).
    assert (distinct le eg /\ distinct lr eg) as (? & ?).
    { inversion Dg as [|? ? Ng D']; subst. cbn [In] in Ng.
      split; intros ->; tauto. }
    apply (ellipsoid_at_frame [eg] s); [frame_solve|not_in|not_in|exact Ce]. }
  st_simpl_all. call E2. repeat step.
  eexists _, og. split; [reflexivity|].
  split; [st_simpl; lia|]. split; [frame_solve|]. split; [|split].
  - split; [st_simpl; lia|]. split; [cbn [In]; lia|]. split.
    + exists o. split; [heap_solve|exact Hg].
    + split; [st_simpl; lia|]. split; [apply NoDup4; lia|].
      exists (oupd (oupd og "_center" (VRef (next s)))
                "_ellipsoid" (VRef (S (next s)))), (dv0 cc), (dv0 cr).
      split; [heap_solve|]. obj_norm.
      split; [reflexivity|]. split; [reflexivity|]. split; [|split].
      * apply (c3_at_frame [eg] s1); [frame_solve|not_in|exact C1].
      * apply (ellipsoid_at_frame [eg] s2); [frame_solve|not_in|not_in|exact C2].
      * rewrite <- Hf. cbn [map ellipse_fields]. obj_norm. reflexivity.
  - exact Hog.
  - unfold recloned. heap_solve.
Qed.

Lemma createCircleOutlineGeometry_rebinds e s d eg lc le lr c :
  circle_at s d eg lc le lr c -> Forall (fun v => defined v = true) c ->
  exists s',
    CircleOutlineGeometry.createCircleOutlineGeometry e (VRef d) None s
    = CircleOutlineGeometry.createGeometry (VRef d) s' /\
    frame [eg] s s' /\
    same_fields s s' (VRef d) /\
    (forall k, k <> "_center" -> k <> "_ellipsoid" ->
               field s' (VRef eg) k = field s (VRef eg) k) /\
    field s' (VRef eg) "_center" = Some (VRef (next s)) /\
    field s' (VRef eg) "_ellipsoid" = Some (VRef (1 + next s)) /\
    read_Cartesian3 s' (VRef (next s)) = read_Cartesian3 s (VRef lc) /\
    read_Ellipsoid s' (VRef (1 + next s)) = read_Ellipsoid s (VRef le) /\
    read_CircleOutlineGeometry s' (VRef d)
    = read_CircleOutlineGeometry s (VRef d).
Proof.
  intros C V.
  pose proof C as (B & D & _ & (_ & _ & o & cc & cr & _ & _ & _ & Cc & Ce & ->)).
  apply Forall_app in V as (Vc & V). apply Forall_app in V as (Vr & _).
  destruct (createCircleOutlineGeometry_delegates e s d eg lc le lr cc cr _
              (c3_at_length _ _ _ Cc) (ellipsoid_at_length _ _ _ _ Ce) C)
    as (s' & og & E & _ & F & C' & Hs & Hs').
  rewrite (dv0_defined _ Vc), (dv0_defined _ Vr) in C'.
  exists s'. split; [exact E|]. split; [exact F|].
  split; [|split; [|split; [|split; [|split; [|split]]]]].
  - intros k. unfold field. rewrite (frame_heap _ _ _ _ F B); [reflexivity|].
    cbn [In] in *. tauto.
  - intros k H1 H2. unfold field. rewrite Hs, Hs'.
    f_equal. exact (recloned_other og (next s) (1 + next s) k H1 H2).
  - unfold field. rewrite Hs'. reflexivity.
  - unfold field. rewrite Hs'. reflexivity.
  - pose proof C' as (_ & _ & _ & E').
    destruct (ellipse_at_inv _ _ _ _ _ cc cr _ (c3_at_length _ _ _ Cc)
                (ellipsoid_at_length _ _ _ _ Ce) E')
      as (o' & _ & _ & _ & Cc' & _).
    now rewrite (c3_at_read _ _ _ Cc'), (c3_at_read _ _ _ Cc).
  - pose proof C' as (_ & _ & _ & E').
    destruct (ellipse_at_inv _ _ _ _ _ cc cr _ (c3_at_length _ _ _ Cc)
                (ellipsoid_at_length _ _ _ _ Ce) E')
      as (o' & _ & _ & _ & _ & Ce' & _).
    now rewrite (ellipsoid_at_read _ _ _ _ Ce'), (ellipsoid_at_read _ _ _ _ Ce).
  - now rewrite (circle_at_read _ _ _ _ _ _ _ C),
      (circle_at_read _ _ _ _ _ _ _ C').
Qed.

(** C9, amended: on an already-constructed description and no offset, an
    entry point writes no object that existed but the description it hands
    to the shape's [createGeometry], and of that at most two fields.
    createSphereOutlineGeometry and createCylinderGeometry hand the
    description over in the state they were called in.
    createCircleOutlineGeometry gives the canonical base description of the
    circle fresh clones as its [_center] and [_ellipsoid], with the
    coordinates and radii of the objects they replace, and createEllipseGeometry
    does so for the ellipse itself; every other field keeps its value, the
    circle keeps all its fields, and the numeric content of the description
    is, when it is handed over, what it was. What [createGeometry] of the
    base description does from there on is that function's. *)
Theorem entry_point_writes_clones_only :
  (forall e s d eg lc le lr c,
      circle_at s d eg lc le lr c -> Forall (fun v => defined v = true) c ->
      exists s',
        CircleOutlineGeometry.createCircleOutlineGeometry e (VRef d) None s
        = CircleOutlineGeometry.createGeometry (VRef d) s' /\
        frame [eg] s s' /\
        same_fields s s' (VRef d) /\
        (forall k, k <> "_center" -> k <> "_ellipsoid" ->
                   field s' (VRef eg) k = field s (VRef eg) k) /\
        field s' (VRef eg) "_center" = Some (VRef (next s)) /\
        field s' (VRef eg) "_ellipsoid" = Some (VRef (1 + next s)) /\
        read_Cartesian3 s' (VRef (next s)) = read_Cartesian3 s (VRef lc) /\
        read_Ellipsoid s' (VRef (1 + next s)) = read_Ellipsoid s (VRef le) /\
        read_CircleOutlineGeometry s' (VRef d)
        = read_CircleOutlineGeometry s (VRef d)) /\
  (forall unpack createGeometry s d lc le lr cc cr o,
      centered_at s d lc le lr cc cr o ->
      Forall (fun v => defined v = true) (cc ++ cr) ->
      exists s',
        createEllipseGeometry unpack createGeometry (VRef d) None s
        = createGeometry (VRef d) s' /\
        frame [d] s s' /\
        centered_at s' d (next s) (1 + next s) (2 + next s) cc cr
          (recloned o (next s) (1 + next s)) /\
        forall k, k <> "_center" -> k <> "_ellipsoid" ->
                  field s' (VRef d) k = field s (VRef d) k) /\
  (forall e d s,
      SphereOutlineGeometry.createSphereOutlineGeometry e d None s
      = SphereOutlineGeometry.createGeometry d s) /\
  (forall unpack createGeometry d s,
      createCylinderGeometry unpack createGeometry d None s
      = createGeometry d s).
Proof.
  split; [|split; [|split]].
  - exact createCircleOutlineGeometry_rebinds.
  - intros unpack createGeometry s d lc le lr cc cr o C V.
    apply Forall_app in V as (Vc & Vr).
    destruct (createEllipseGeometry_direct unpack createGeometry _ _ _ _ _ _ _ _ C)
      as (s' & E & _ & F & C').
    rewrite (dv0_defined _ Vc), (dv0_defined _ Vr) in C'.
    exists s'. split; [exact E|]. split; [exact F|]. split; [exact C'|].
    intros k H1 H2. unfold field.
    destruct C as (_ & _ & -> & _). destruct C' as (_ & _ & -> & _).
    now rewrite recloned_other.
  - reflexivity.
  - reflexivity.
Qed.

Lemma entry_point_writes_clones_only_witness :
  exists s',
    CircleOutlineGeometry.createCircleOutlineGeometry example_env (VRef 12)
      None example_state
    = CircleOutlineGeometry.createGeometry (VRef 12) s' /\
    frame [14] example_state s' /\
    same_fields example_state s' (VRef 12) /\
    (forall k, k <> "_center" -> k <> "_ellipsoid" ->
               field s' (VRef 14) k = field example_state (VRef 14) k) /\
    field s' (VRef 14) "_center" = Some (VRef (next example_state)) /\
    field s' (VRef 14) "_ellipsoid" = Some (VRef (1 + next example_state)) /\
    read_Cartesian3 s' (VRef (next example_state))
    = read_Cartesian3 example_state (VRef 15) /\
    read_Ellipsoid s' (VRef (1 + next example_state))
    = read_Ellipsoid example_state (VRef 16) /\
    read_CircleOutlineGeometry s' (VRef 12)
    = read_CircleOutlineGeometry example_state (VRef 12).
Proof.
  apply (proj1 entry_point_writes_clones_only example_env example_state
           12 14 15 16 17 example_content example_circle).
  exact (proj1 example_valid).
Defined.

(** *** The dispatcher *)

Lemma bind_Return_inv {A B} (c : M A) (k : A -> M B) s b s' :
  bind c k s = Return b s' ->
  exists a s1, c s = Return a s1 /\ k a s1 = Return b s'.
Proof.
  unfold bind. destruct (c s) as [a s1|x s1]; [eauto|discriminate].
Qed.

Lemma array_set_app done rest v :
  array_set (done ++ VUndefined :: rest) (length done) v
  = (done ++ v :: rest)%list.
Proof.
  induction done as [|x done IH]; cbn; [reflexivity|now rewrite IH].
Qed.

Section Batch.

Import Worker.

Variable modules : string -> option (value -> option nat -> M value).
Variable packCreateGeometryResults : list value -> value -> M value.
Variable e : Worker.env.

Lemma runs_length ts s rs s' :
  runs modules e ts s rs s' -> length rs = length ts.
Proof. induction 1; cbn; auto. Qed.

Lemma runs_or_fails ts s :
  (exists rs s', runs modules e ts s rs s') \/
  (exists k x s', fails modules e ts s k x s').
Proof.
  revert s. induction ts as [|t ts IH]; intros s.
  - left. exists [], s. constructor.
  - destruct (createOne modules e t s) as [r s1|x s1] eqn:E.
    + destruct (IH s1) as [(rs & s' & R)|(k & x & s' & t' & rs & sk & N & R & T)].
      * left. exists (r :: rs), s'. econstructor; eauto.
      * right. exists (S k), x, s', t', (r :: rs), sk.
        split; [exact N|]. split; [|exact T]. cbn. econstructor; eauto.
    + right. exists 0, x, s1, t, [], s.
      split; [reflexivity|]. split; [constructor|exact E].
Qed.

Lemma for_loop_runs pre rest done s rs s' :
  length done = length pre ->
  runs modules e rest s rs s' ->
  for_loop modules e (pre ++ rest) (length rest) (length pre)
    (done ++ repeat VUndefined (length rest)) s
  = Return (done ++ rs)%list s'.
Proof.
  intros L R. revert pre done L.
  induction R as [s|t ts s r s1 rs s2 E R IH]; intros pre done L.
  - cbn. now rewrite !app_nil_r.
  - cbn [length for_loop repeat].
    rewrite nth_error_app2, Nat.sub_diag by lia. cbn [nth_error].
    rewrite (bind_Return _ _ _ _ _ E).
    rewrite <- L, array_set_app.
    specialize (IH (pre ++ [t])%list (done ++ [r])%list).
    rewrite !length_app, <- !app_assoc in IH. cbn [length app] in IH.
    rewrite L, Nat.add_1_r in *. apply IH. reflexivity.
Qed.

Lemma for_loop_fails pre rest done s k x s' :
  length done = length pre ->
  fails modules e rest s k x s' ->
  for_loop modules e (pre ++ rest) (length rest) (length pre)
    (done ++ repeat VUndefined (length rest)) s
  = Throw x s'.
Proof.
  intros L (t & rs & sk & N & R & T). revert pre done rest s rs L N R.
  induction k as [|k IH]; intros pre done rest s rs L N R.
  - destruct rest as [|t' rest]; [discriminate N|]. injection N as ->.
    cbn [firstn] in R. inversion R; subst.
    cbn [length for_loop repeat].
    rewrite nth_error_app2, Nat.sub_diag by lia. cbn [nth_error].
    now rewrite (bind_Throw _ _ _ _ _ T).
  - destruct rest as [|t' rest]; [discriminate N|]. cbn [nth_error] in N.
    cbn [firstn] in R. inversion R as [|? ? ? r s1 rs' ? E R']; subst.
    cbn [length for_loop repeat].
    rewrite nth_error_app2, Nat.sub_diag by lia. cbn [nth_error].
    rewrite (bind_Return _ _ _ _ _ E).
    rewrite <- L, array_set_app.
    specialize (IH (pre ++ [t'])%list (done ++ [r])%list rest s1 rs').
    rewrite !length_app, <- !app_assoc in IH. cbn [length app] in IH.
    rewrite L, Nat.add_1_r in *. apply IH; auto.
Qed.

Lemma createGeometry_runs subTasks transferableObjects s rs s' :
  runs modules e subTasks s rs s' ->
  createGeometry modules packCreateGeometryResults e subTasks
    transferableObjects s
  = packCreateGeometryResults rs transferableObjects s'.
Proof.
  intros R. unfold createGeometry.
  rewrite (bind_Return _ _ _ _ _
             (for_loop_runs [] subTasks [] s rs s' eq_refl R)).
  reflexivity.
Qed.

Lemma createGeometry_fails subTasks transferableObjects s k x s' :
  fails modules e subTasks s k x s' ->
  createGeometry modules packCreateGeometryResults e subTasks
    transferableObjects s
  = Throw x s'.
Proof.
  intros F. unfold createGeometry.
  now rewrite (bind_Throw _ _ _ _ _
                 (for_loop_fails [] subTasks [] s k x s' eq_refl F)).
Qed.

Lemma createOne_slot t s r s' :
  createOne modules e t s = Return r s' <-> slot modules e t s r s'.
Proof.
  unfold createOne, slot. destruct (moduleName t) as [m|].
  - split.
    + intros H. apply bind_Return_inv in H as (f & s1 & H1 & H2). eauto.
    + intros (f & s1 & H1 & H2). now rewrite (bind_Return _ _ _ _ _ H1).
  - unfold ret. split.
    + intros H. injection H as <- <-. auto.
    + intros (-> & ->). reflexivity.
Qed.

Lemma runs_slot ts s rs s' i t :
  runs modules e ts s rs s' -> nth_error ts i = Some t ->
  exists si si',
    runs modules e (firstn i ts) s (firstn i rs) si /\
    slot modules e t si (nth i rs VUndefined) si'.
Proof.
  intros R. revert i. induction R as [s|t' ts s r s1 rs s2 E R IH]; intros i N.
  - destruct i; discriminate N.
  - destruct i as [|i].
    + injection N as ->. exists s, s1. split; [constructor|].
      now apply createOne_slot.
    + destruct (IH i N) as (si & si' & R' & S').
      exists si, si'. split; [|exact S']. cbn. econstructor; eauto.
Qed.

End Batch.

(** C2: in a batch, result slot [i] is the contribution of task [i]. The
    sub-tasks run in the order of the batch, and either one of them raises
    or all of them return; when they return, the manifest is built from a
    list of results as long as the batch, whose slot [i] holds the geometry
    of task [i] itself when the task has no module name (and the task then
    changes nothing), and otherwise the value that the creation function
    resolved for the module name of task [i] returns on the geometry and the
    offset of task [i]. *)
Theorem createGeometry_slot_order modules packCreateGeometryResults e :
  (forall subTasks s,
      (exists results s', runs modules e subTasks s results s') \/
      (exists k x s', fails modules e subTasks s k x s')) /\
  (forall subTasks transferableObjects s results s',
      runs modules e subTasks s results s' ->
      Worker.createGeometry modules packCreateGeometryResults e subTasks
        transferableObjects s
      = packCreateGeometryResults results transferableObjects s' /\
      length results = length subTasks /\
      forall i task,
        nth_error subTasks i = Some task ->
        exists si si',
          runs modules e (firstn i subTasks) s (firstn i results) si /\
          slot modules e task si (nth i results VUndefined) si').
Proof.
  split.
  - apply runs_or_fails.
  - intros subTasks transferableObjects s results s' R.
    split; [now apply createGeometry_runs|].
    split; [exact (runs_length _ _ _ _ _ _ R)|].
    intros i task N. exact (runs_slot _ _ _ _ _ _ _ _ R N).
Qed.

(** C3: when a sub-task of a batch raises a condition, after the ones
    before it have run, the batch fails with that condition: the dispatcher
    ends in the error, in the state the failing sub-task left, whatever the
    packer is, so no manifest was built and no result of another sub-task
    is reported. *)
Theorem createGeometry_fails_as_a_whole
        modules packCreateGeometryResults e subTasks transferableObjects
        s k x s' :
  fails modules e subTasks s k x s' ->
  Worker.createGeometry modules packCreateGeometryResults e subTasks
    transferableObjects s
  = Throw x s'.
Proof. apply createGeometry_fails. Qed.

Lemma getModule_miss modules e s lc cache m f :
  Worker.moduleCache e = VRef lc -> heap s lc = Some (Object cache) ->
  cache m = VUndefined -> modules ("Workers/" ++ m) = Some f ->
  Worker.getModule modules e m s
  = Return (VFunction ("Workers/" ++ m))
      {| heap :=
           hupd (heap s) lc
             (Object
                (oupd cache
                   (if Worker.exports_is_object e then "undefined"
                    else Worker.Function_toString ("Workers/" ++ m))
                   (VFunction ("Workers/" ++ m))));
         next := next s;
         loads := ("Workers/" ++ m) :: loads s |}.
Proof.
  intros Hc Hl Hm Hf. unfold Worker.getModule. rewrite Hc.
  rewrite (bind_Return _ _ _ _ _ (getField_obj _ _ _ _ Hl)).
  rewrite Hm. cbn [negb defined].
  assert (R : Worker.require modules ("Workers/" ++ m) s
              = Return (VFunction ("Workers/" ++ m))
                  (mkState (heap s) (next s) (("Workers/" ++ m) :: loads s))).
  { unfold Worker.require. now rewrite Hf. }
  destruct (Worker.exports_is_object e).
  - rewrite (bind_Return _ _ _ _ _ R).
    erewrite bind_Return by (apply setField_obj; cbn [heap]; exact Hl).
    reflexivity.
  - rewrite (bind_Return _ _ _ _ _ R).
    erewrite bind_Return by (apply setField_obj; cbn [heap]; exact Hl).
    reflexivity.
Qed.

(** C4 fails on the code: [getModule] stores what it loaded under the key
    that the variable [module] converts to, not under the module name. After
    the first resolution of a module name [m] the cache still has nothing
    for [m], and the second call, which returns the same creation function,
    invokes the loader once more. *)
Theorem getModule_loads_again modules e s lc cache m f :
  Worker.moduleCache e = VRef lc -> heap s lc = Some (Object cache) ->
  cache m = VUndefined -> modules ("Workers/" ++ m) = Some f ->
  (if Worker.exports_is_object e then "undefined"
   else Worker.Function_toString ("Workers/" ++ m)) <> m ->
  exists s1 s2,
    Worker.getModule modules e m s = Return (VFunction ("Workers/" ++ m)) s1 /\
    field s1 (Worker.moduleCache e) m = Some VUndefined /\
    Worker.getModule modules e m s1
    = Return (VFunction ("Workers/" ++ m)) s2 /\
    loads s2 = ("Workers/" ++ m) :: ("Workers/" ++ m) :: loads s.
Proof.
  intros Hc Hl Hm Hf Hk.
  pose proof (getModule_miss modules e s lc cache m f Hc Hl Hm Hf) as E1.
  eexists _, _. split; [exact E1|].
  assert (Hm' : oupd cache
                  (if Worker.exports_is_object e then "undefined"
                   else Worker.Function_toString ("Workers/" ++ m))
                  (VFunction ("Workers/" ++ m)) m = VUndefined).
  { rewrite oupd_ne; [exact Hm|].
    apply String.eqb_neq. intros Heq. apply Hk. now symmetry. }
  split.
  - rewrite Hc. unfold field. cbn [heap]. rewrite hupd_eq. now rewrite Hm'.
  - split.
    + erewrite (getModule_miss modules e _ lc _ m f Hc);
        [reflexivity|cbn [heap]; apply hupd_eq|exact Hm'|exact Hf].
    + reflexivity.
Qed.

(** *** A worker and its batches *)

Lemma Return_intro {A} (o : outcome A) a :
  value_of o = Some a -> o = Return a (state_of o).
Proof. destruct o; cbn; congruence. Qed.

Lemma Throw_intro {A} (o : outcome A) x :
  exn_of o = Some x -> o = Throw x (state_of o).
Proof. destruct o; cbn; congruence. Qed.

Lemma example_batch_runs :
  runs example_modules example_dispatcher example_batch example_batch_state
    [example_geometry; EllipseOutlineGeometry.tessellate example_content]
    example_batch_final.
Proof.
  econstructor; [reflexivity|].
  econstructor; [|constructor].
  unfold example_batch_final.
  refine (Return_intro
            (Worker.createOne example_modules example_dispatcher
               (packed_task 11) example_batch_state) _ _).
  vm_compute. reflexivity.
Qed.

Lemma createGeometry_slot_order_witness :
  Worker.createGeometry example_modules example_pack example_dispatcher
    example_batch VUndefined example_batch_state
  = example_pack
      [example_geometry; EllipseOutlineGeometry.tessellate example_content]
      VUndefined example_batch_final /\
  length [example_geometry; EllipseOutlineGeometry.tessellate example_content]
  = length example_batch /\
  forall i task,
    nth_error example_batch i = Some task ->
    exists si si',
      runs example_modules example_dispatcher (firstn i example_batch)
        example_batch_state
        (firstn i [example_geometry;
                   EllipseOutlineGeometry.tessellate example_content]) si /\
      slot example_modules example_dispatcher task si
        (nth i [example_geometry;
                EllipseOutlineGeometry.tessellate example_content]
           VUndefined) si'.
Proof.
  exact (proj2 (createGeometry_slot_order example_modules example_pack
                  example_dispatcher)
           example_batch VUndefined example_batch_state _ _
           example_batch_runs).
Defined.

Lemma example_bad_batch_fails :
  fails example_modules example_dispatcher example_bad_batch
    example_batch_state 1
    (DeveloperError
       "Expected radius to be typeof number, actual typeof was undefined")
    (state_of (Worker.createOne example_modules example_dispatcher
                 (packed_task 12) example_batch_final)).
Proof.
  exists (packed_task 12),
    [EllipseOutlineGeometry.tessellate example_content], example_batch_final.
  split; [reflexivity|]. split.
  - cbn [firstn example_bad_batch]. econstructor; [|constructor].
    unfold example_batch_final.
    refine (Return_intro
              (Worker.createOne example_modules example_dispatcher
                 (packed_task 11) example_batch_state) _ _).
    vm_compute. reflexivity.
  - refine (Throw_intro
              (Worker.createOne example_modules example_dispatcher
                 (packed_task 12) example_batch_final) _ _).
    vm_compute. reflexivity.
Qed.

Lemma createGeometry_fails_as_a_whole_witness :
  Worker.createGeometry example_modules example_pack example_dispatcher
    example_bad_batch VUndefined example_batch_state
  = Throw
      (DeveloperError
         "Expected radius to be typeof number, actual typeof was undefined")
      (state_of (Worker.createOne example_modules example_dispatcher
                   (packed_task 12) example_batch_final)).
Proof.
  exact (createGeometry_fails_as_a_whole example_modules example_pack
           example_dispatcher example_bad_batch VUndefined
           example_batch_state 1 _ _ example_bad_batch_fails).
Defined.

Lemma example_cache_empty :
  field example_batch_state (VRef 10) "createCircleOutlineGeometry"
  = Some VUndefined /\
  exists cache,
    heap example_batch_state 10 = Some (Object cache) /\
    cache "createCircleOutlineGeometry" = VUndefined.
Proof.
  split; [vm_compute; reflexivity|].
  destruct (field_inv example_batch_state 10 "createCircleOutlineGeometry"
              VUndefined) as (cache & H & Hm); [vm_compute; reflexivity|].
  exists cache. auto.
Qed.

Lemma getModule_loads_again_witness :
  exists s1 s2,
    Worker.getModule example_modules example_dispatcher
      "createCircleOutlineGeometry" example_batch_state
    = Return (VFunction "Workers/createCircleOutlineGeometry") s1 /\
    field s1 (VRef 10) "createCircleOutlineGeometry" = Some VUndefined /\
    Worker.getModule example_modules example_dispatcher
      "createCircleOutlineGeometry" s1
    = Return (VFunction "Workers/createCircleOutlineGeometry") s2 /\
    loads s2
    = "Workers/createCircleOutlineGeometry"
      :: "Workers/createCircleOutlineGeometry"
      :: loads example_batch_state.
Proof.
  destruct example_cache_empty as (_ & cache & H & Hm).
  apply (getModule_loads_again example_modules example_dispatcher
           example_batch_state 10 cache "createCircleOutlineGeometry"
           (CircleOutlineGeometry.createCircleOutlineGeometry example_env)
           eq_refl H Hm eq_refl).
  discriminate.
Defined.

(** *** Packing for a worker *)

Lemma circle_at_frame_array s s' a els d eg lc le lr c :
  frame [a] s s' -> arr_at s a els ->
  circle_at s d eg lc le lr c -> circle_at s' d eg lc le lr c.
Proof.
  intros F A C.
  pose proof C as (_ & _ & (o & H & _) & (_ & _ & og & cc & cr & Hg & _ & _
                   & (_ & oc & Hc & _)
                   & (_ & _ & (oe & He & _) & (_ & orr & Hr & _)) & _)).
  apply (circle_at_frame [a] s); [exact F|..|exact C];
    (intros [<-|[]]; eapply arr_at_not_obj; [exact A| |reflexivity]);
    eassumption.
Qed.

Lemma nth_write_at_ge els i c j :
  i + length c <= j ->
  nth j (write_at els i c) VUndefined = nth j els VUndefined.
Proof.
  revert els i. induction c as [|v c IH]; intros els i H; cbn in *; auto.
  rewrite IH by lia. apply nth_array_set_ne. lia.
Qed.

Lemma sub_ext els els' i n :
  (forall k, k < n -> nth (i + k) els VUndefined = nth (i + k) els' VUndefined) ->
  sub els i n = sub els' i n.
Proof.
  intros H. unfold sub. apply map_ext_in. intros k Hk.
  apply in_seq in Hk. apply H. lia.
Qed.

Lemma unpacked_circle_ext els els' i r :
  (forall k, k < 12 ->
             nth (i + k) els VUndefined = nth (i + k) els' VUndefined) ->
  unpacked_circle els i r = unpacked_circle els' i r.
Proof.
  intros H. unfold unpacked_circle.
  rewrite (sub_ext els els' i 3) by (intros; apply H; lia).
  rewrite (sub_ext els els' (i + 3) 3)
    by (intros; rewrite <- !Nat.add_assoc; apply H; lia).
  now rewrite !H by lia.
Qed.

Lemma createCircleOutlineGeometry_unpacked e g s a els i r :
  wf e g s -> arr_at s a els -> nth (i + 6) els VUndefined = VNumber r ->
  exists s',
    CircleOutlineGeometry.createCircleOutlineGeometry e (VRef a) (Some i) s
    = Return (EllipseOutlineGeometry.tessellate (unpacked_circle els i r)) s' /\
    wf e g s' /\ frame (scratch_locs g) s s'.
Proof.
  intros W A Hr.
  destruct (CircleOutlineGeometry_unpack_new e g s a els i r W A Hr)
    as (s1 & E1 & N1 & F1 & W1 & C1).
  pose proof C1 as C1'. unfold unpacked_circle in C1'.
  destruct (createCircleOutlineGeometry_direct e s1 _ _ _ _ _
              (dv0 (sub els i 3)) (dv0 (dv0 (sub els (i + 3) 3))) _
              eq_refl eq_refl C1') as (s2 & E2 & N2 & F2 & _).
  rewrite !dv0_dv0 in E2.
  exists s2. split.
  - rewrite (createCircleOutlineGeometry_offset _ _ _ _ _ _ E1).
    unfold unpacked_circle. rewrite dv0_dv0. exact E2.
  - split.
    + apply (wf_frame [6 + next s] e g s1); [exact F2| |exact W1].
      intros l Hl [<-|[]].
      apply (frame_fresh_scratch e g s _ W) in Hl; [auto|lia].
    + pose proof (frame_next _ _ _ F1) as Hn1.
      pose proof (frame_next _ _ _ F2) as Hn2.
      split; [lia|]. split.
      * rewrite (frame_loads _ _ _ F2). apply (frame_loads _ _ _ F1).
      * intros l Hl Hin.
        rewrite (frame_heap _ _ _ l F2) by (cbn [In]; lia).
        apply (frame_heap _ _ _ l F1); assumption.
Qed.

(** X1: packing a valid circle into an array at an index and handing the
    array and the index to createCircleOutlineGeometry yields the geometry
    that createGeometry computes for the circle itself. *)
Theorem pack_then_createCircleOutlineGeometry
        e g s d eg lc le lr c r a els i :
  wf e g s -> circle_at s d eg lc le lr c -> valid_content c r ->
  arr_at s a els ->
  exists v s1 s2,
    CircleOutlineGeometry.createGeometry (VRef d) s = Return v s /\
    CircleOutlineGeometry.pack (VRef d) (VRef a) (Some i) s
    = Return (VRef a) s1 /\
    CircleOutlineGeometry.createCircleOutlineGeometry e (VRef a) (Some i) s1
    = Return v s2.
Proof.
  intros W C V A.
  destruct (CircleOutlineGeometry_pack_spec s d eg lc le lr c a els i C A)
    as (s1 & E1 & N1 & F1 & A1).
  assert (W1 : wf e g s1).
  { apply (wf_frame [a] e g s); auto. intros l.
    now apply arr_at_scratch with (e := e) (s := s) (els := els). }
  assert (L : length c = 12).
  { destruct C as (_ & _ & _ & E). eapply ellipse_at_length; eauto. }
  destruct (createCircleOutlineGeometry_unpacked e g s1 a (write_at els i c)
              i r W1 A1) as (s2 & E2 & _).
  { destruct V as (_ & H6 & _). now rewrite nth_write_at by lia. }
  rewrite unpacked_circle_write_at in E2 by assumption.
  exists (EllipseOutlineGeometry.tessellate c), s1, s2.
  split; [|split; [exact E1|exact E2]].
  exact (CircleOutlineGeometry_createGeometry_spec _ _ _ _ _ _ _ C).
Qed.

Lemma pack_then_createCircleOutlineGeometry_witness :
  exists v s1 s2,
    CircleOutlineGeometry.createGeometry (VRef 12) example_state
    = Return v example_state /\
    CircleOutlineGeometry.pack (VRef 12) (VRef 18) (Some 5) example_state
    = Return (VRef 18) s1 /\
    CircleOutlineGeometry.createCircleOutlineGeometry example_env (VRef 18)
      (Some 5) s1
    = Return v s2.
Proof.
  exact (pack_then_createCircleOutlineGeometry example_env example_scratch
           example_state 12 14 15 16 17 example_content 100000 18 [] 5
           example_wf example_circle example_valid example_array).
Defined.

(** X2: two valid circles packed one after the other into the same array,
    the second [packedLength] elements after the first, are both recovered:
    unpacking at the two indices returns descriptions with the fields of
    the first and of the second circle, and unpacking the second leaves the
    description unpacked first as it was. *)
Theorem CircleOutlineGeometry_pack_consecutive
        e g s d1 eg1 lc1 le1 lr1 c1 r1 d2 eg2 lc2 le2 lr2 c2 r2 a els i :
  wf e g s ->
  circle_at s d1 eg1 lc1 le1 lr1 c1 -> valid_content c1 r1 ->
  circle_at s d2 eg2 lc2 le2 lr2 c2 -> valid_content c2 r2 ->
  arr_at s a els ->
  exists s1 s2 d1' s3 d2' s4,
    CircleOutlineGeometry.pack (VRef d1) (VRef a) (Some i) s
    = Return (VRef a) s1 /\
    CircleOutlineGeometry.pack (VRef d2) (VRef a)
      (Some (i + CircleOutlineGeometry.packedLength)) s1
    = Return (VRef a) s2 /\
    CircleOutlineGeometry.unpack e (VRef a) (Some i) VUndefined s2
    = Return d1' s3 /\
    CircleOutlineGeometry.unpack e (VRef a)
      (Some (i + CircleOutlineGeometry.packedLength)) VUndefined s3
    = Return d2' s4 /\
    read_CircleOutlineGeometry s3 d1' = Some c1 /\
    read_CircleOutlineGeometry s4 d1' = Some c1 /\
    read_CircleOutlineGeometry s4 d2' = Some c2.
Proof.
  intros W C1 V1 C2 V2 A.
  change CircleOutlineGeometry.packedLength with 12.
  assert (L1 : length c1 = 12).
  { destruct C1 as (_ & _ & _ & E). eapply ellipse_at_length; eauto. }
  assert (L2 : length c2 = 12).
  { destruct C2 as (_ & _ & _ & E). eapply ellipse_at_length; eauto. }
  destruct (CircleOutlineGeometry_pack_spec s d1 eg1 lc1 le1 lr1 c1 a els i C1 A)
    as (s1 & E1 & N1 & F1 & A1).
  pose proof (circle_at_frame_array s s1 a els _ _ _ _ _ _ F1 A C2) as C2'.
  assert (W1 : wf e g s1).
  { apply (wf_frame [a] e g s); auto. intros l.
    now apply arr_at_scratch with (e := e) (s := s) (els := els). }
  destruct (CircleOutlineGeometry_pack_spec s1 d2 eg2 lc2 le2 lr2 c2 a
              (write_at els i c1) (i + 12) C2' A1)
    as (s2 & E2 & N2 & F2 & A2).
  assert (W2 : wf e g s2).
  { apply (wf_frame [a] e g s1); auto. intros l.
    now apply arr_at_scratch with (e := e) (s := s1) (els := write_at els i c1). }
  destruct (CircleOutlineGeometry_unpack_new e g s2 a _ i r1 W2 A2)
    as (s3 & E3 & N3 & F3 & W3 & C3).
  { destruct V1 as (_ & H6 & _).
    rewrite nth_write_at_lt by lia. now rewrite nth_write_at by lia. }
  rewrite (unpacked_circle_ext _ (write_at els i c1) i r1) in C3
    by (intros k Hk; apply nth_write_at_lt; lia).
  rewrite unpacked_circle_write_at in C3 by assumption.
  assert (A3 : arr_at s3 a (write_at (write_at els i c1) (i + 12) c2)).
  { apply (arr_at_frame (scratch_locs g) s2); [exact F3| |exact A2].
    intros Hin. apply (arr_at_scratch e g s2 a _ a W2 A2 Hin). now left. }
  destruct (CircleOutlineGeometry_unpack_new e g s3 a _ (i + 12) r2 W3 A3)
    as (s4 & E4 & N4 & F4 & W4 & C4).
  { destruct V2 as (_ & H6 & _). now rewrite nth_write_at by lia. }
  rewrite unpacked_circle_write_at in C4 by assumption.
  exists s1, s2, (VRef (4 + next s2)), s3, (VRef (4 + next s3)), s4.
  split; [exact E1|]. split; [exact E2|]. split; [exact E3|].
  split; [exact E4|]. split; [|split].
  - exact (circle_at_read _ _ _ _ _ _ _ C3).
  - apply (circle_at_read s4 (4 + next s2) (6 + next s2) (7 + next s2)
             (8 + next s2) (9 + next s2)).
    apply (circle_at_frame (scratch_locs g) s3); [exact F4|..|exact C3];
      apply (frame_fresh_scratch e g s2 _ W2); lia.
  - exact (circle_at_read _ _ _ _ _ _ _ C4).
Qed.

Lemma example_two_circles_wf :
  wf example_env example_scratch example_two_circles.
Proof.
  split; [reflexivity|]. unfold example_scratch, scratch_locs.
  cbn [SEG SEGc SEGe SEGr SO SOc SOe SOr]. split; [|split].
  - eexists. apply ellipse_at_intro; concrete.
  - eapply options_at_intro; concrete.
  - concrete.
Qed.

Lemma example_first_circle :
  circle_at example_two_circles 12 14 15 16 17 example_content.
Proof.
  change example_content
    with ([VNumber 0; VNumber 0; VNumber 0]
          ++ [VNumber 6378137.0; VNumber 6378137.0; VNumber 6356752.3142451793]
          ++ [VNumber 100000; VNumber 100000;
              VNumber 0; VNumber 0; VNumber 0.02; VNumber 16])%list.
  apply circle_at_intro; [concrete..|].
  apply ellipse_at_intro; concrete.
Qed.

Lemma example_second_circle :
  circle_at example_two_circles 20 22 23 24 25 example_content'.
Proof.
  change example_content'
    with ([VNumber 1; VNumber 2; VNumber 3]
          ++ [VNumber 6378137.0; VNumber 6378137.0; VNumber 6356752.3142451793]
          ++ [VNumber 250000; VNumber 250000;
              VNumber 10; VNumber 0; VNumber 0.02; VNumber 16])%list.
  apply circle_at_intro; [concrete..|].
  apply ellipse_at_intro; concrete.
Qed.

Lemma example_valid' : valid_content example_content' 250000.
Proof. split; [repeat constructor|split; reflexivity]. Qed.

Lemma CircleOutlineGeometry_pack_consecutive_witness :
  exists s1 s2 d1' s3 d2' s4,
    CircleOutlineGeometry.pack (VRef 12) (VRef 26) (Some 0)
      example_two_circles
    = Return (VRef 26) s1 /\
    CircleOutlineGeometry.pack (VRef 20) (VRef 26)
      (Some (0 + CircleOutlineGeometry.packedLength)) s1
    = Return (VRef 26) s2 /\
    CircleOutlineGeometry.unpack example_env (VRef 26) (Some 0) VUndefined s2
    = Return d1' s3 /\
    CircleOutlineGeometry.unpack example_env (VRef 26)
      (Some (0 + CircleOutlineGeometry.packedLength)) VUndefined s3
    = Return d2' s4 /\
    read_CircleOutlineGeometry s3 d1' = Some example_content /\
    read_CircleOutlineGeometry s4 d1' = Some example_content /\
    read_CircleOutlineGeometry s4 d2' = Some example_content'.
Proof.
  apply (CircleOutlineGeometry_pack_consecutive example_env example_scratch
           example_two_circles 12 14 15 16 17 example_content 100000
           20 22 23 24 25 example_content' 250000 26 [] 0
           example_two_circles_wf example_first_circle example_valid
           example_second_circle example_valid').
  apply arr_at_intro; concrete.
Defined.

Lemma CircleOutlineGeometry_unpack_invalid_wf e g s a els i :
  wf e g s -> arr_at s a els ->
  is_number (nth (i + 6) els VUndefined) = false ->
  exists s', CircleOutlineGeometry.unpack e (VRef a) (Some i) VUndefined s
             = Throw (DeveloperError
                        ("Expected radius to be typeof number, actual typeof was "
                         ++ typeOf (nth (i + 6) els VUndefined))) s' /\
    frame (scratch_locs g) s s' /\ wf e g s'.
Proof.
  intros (-> & (c0 & E0) & (BO & (oO & HO & HOc & HOe) & (cOc & COc) & (cOe & COe)) & D)
         A Hr.
  pose proof (scratch_distinct g D) as Dg.
  destruct g as [seg segc sege segr so soc soe sor].
  cbn [SEG SEGc SEGe SEGr SO SOc SOe SOr scratch_locs] in *.
  repeat (let H := fresh "Dg" in destruct Dg as (H & Dg)).
  pose proof E0 as (B0 & _ & ? & ? & ? & _ & _ & _ & (B0c & _)
                    & (B0e & _ & _ & (B0r & _)) & _).
  pose proof COc as (BOc & _). pose proof COe as (BOe & _ & _ & (BOr & _)).
  unfold CircleOutlineGeometry.unpack.
  cbn [CircleOutlineGeometry.scratchEllipseGeometry
       CircleOutlineGeometry.scratchOptions].
  destruct (EllipseOutlineGeometry_unpack_into s a els i seg segc sege segr c0 A E0)
    as (s1 & E1 & N1 & F1 & C1).
  call E1.
  destruct (ellipse_at_inv s1 seg segc sege segr (sub els i 3)
              (dv0 (sub els (i + 3) 3)) _ eq_refl eq_refl C1)
    as (o1 & H1 & H1c & H1e & C1c & C1e & Hf1).
  cbn [map ellipse_fields] in Hf1.
  injection Hf1 as Hf6 Hf7 Hf8 Hf9 Hf10 Hf11.
  assert (O1 : options_at s1 so soc soe sor).
  { apply (options_at_frame [seg; segc; segr] s); auto; [not_in..|].
    split; [auto|]. split; [eauto|]. eauto. }
  destruct O1 as (BO1 & (oO1 & HO1 & HO1c & HO1e) & (cOc1 & COc1) & (cOe1 & COe1)).
  repeat step.
  destruct (Cartesian3_clone_into s1 segc (sub els i 3) soc cOc1 C1c COc1)
    as (s2 & E2 & N2 & F2 & C2).
  call E2. repeat step.
  match goal with |- context [bind (Ellipsoid.clone _ _) ?K ?s0] =>
    destruct (Ellipsoid_clone_into s0 sege segr (dv0 (sub els (i + 3) 3))
                soe sor cOe1) as (s3 & E3 & N3 & F3 & C3) end.
  { apply (ellipsoid_at_frame [so; soc] s1); [frame_solve|not_in|not_in|auto]. }
  { apply (ellipsoid_at_frame [so; soc] s1); [frame_solve|not_in|not_in|auto]. }
  st_simpl_all. call E3. repeat step.
  match goal with |- context [CircleOutlineGeometry.new (VRef so) ?s0] =>
    destruct (CircleOutlineGeometry_new_invalid s0 (VRef so)
                (nth (i + 6) els VUndefined))
      as (this & s0' & o & s4 & _ & _ & E4 & F4)
  end.
  { unfold option_radius. heap_norm. obj_norm.
    match goal with |- context [(?x <? ?y)%nat] =>
      destruct (Nat.ltb_spec x y) as [_|B]; [reflexivity|lia] end. }
  { exact Hr. }
  st_simpl_all. rewrite E4. eexists. split; [reflexivity|].
  pose proof (frame_next _ _ _ F4) as N4. st_simpl_all.
  assert (F : frame [seg; segc; sege; segr; so; soc; soe; sor] s s4).
  { unfold scratch_locs. cbn [SEG SEGc SEGe SEGr SO SOc SOe SOr].
    frame_solve. }
  split; [exact F|].
  split; [reflexivity|]. cbn [SEG SEGc SEGe SEGr SO SOc SOe SOr scratch_locs].
  split; [|split; [|exact D]].
  - eexists. apply (ellipse_at_frame [so; soc; sor] s1);
      [frame_solve|not_in..|exact C1].
  - split; [lia|]. split; [|split].
    + eexists. split; [heap_solve|]. obj_norm. auto.
    + eexists. apply (c3_at_frame [so; sor; seg] s2);
        [frame_solve|not_in|exact C2].
    + eexists. apply (ellipsoid_at_frame [so; seg] s3);
        [frame_solve|not_in|not_in|exact C3].
Qed.

(** X4: an unpack that fails, because the element at the place of the
    semi-major axis is not a number, raises a DeveloperError and leaves the
    module as usable as before: a later unpack fails or returns exactly as
    it would have without the failed call. *)
Theorem CircleOutlineGeometry_unpack_after_failure e g s a els i a' els' i' :
  wf e g s -> arr_at s a els ->
  is_number (nth (i + 6) els VUndefined) = false ->
  arr_at s a' els' ->
  exists s1,
    CircleOutlineGeometry.unpack e (VRef a) (Some i) VUndefined s
    = Throw (DeveloperError
               ("Expected radius to be typeof number, actual typeof was "
                ++ typeOf (nth (i + 6) els VUndefined))) s1 /\
    equivalent read_CircleOutlineGeometry
      (CircleOutlineGeometry.unpack e (VRef a') (Some i') VUndefined s1)
      (CircleOutlineGeometry.unpack e (VRef a') (Some i') VUndefined s).
Proof.
  intros W A Hn A'.
  destruct (CircleOutlineGeometry_unpack_invalid_wf e g s a els i W A Hn)
    as (s1 & E1 & F1 & W1).
  exists s1. split; [exact E1|].
  apply (CircleOutlineGeometry_unpack_equivalent e g s1 a' e g s a' els' i');
    [exact W1|exact W| |exact A'].
  apply (arr_at_frame (scratch_locs g) s); [exact F1| |exact A'].
  intros Hin. apply (arr_at_scratch e g s a' els' a' W A' Hin). now left.
Qed.

Lemma example_batch_state_wf :
  wf example_env example_scratch example_batch_state.
Proof.
  split; [reflexivity|]. unfold example_scratch, scratch_locs.
  cbn [SEG SEGc SEGe SEGr SO SOc SOe SOr]. split; [|split].
  - eexists. apply ellipse_at_intro; concrete.
  - eapply options_at_intro; concrete.
  - concrete.
Qed.

Lemma CircleOutlineGeometry_unpack_after_failure_witness :
  exists s1,
    CircleOutlineGeometry.unpack example_env (VRef 12) (Some 0) VUndefined
      example_batch_state
    = Throw (DeveloperError
               ("Expected radius to be typeof number, actual typeof was "
                ++ typeOf (nth (0 + 6) [] VUndefined))) s1 /\
    equivalent read_CircleOutlineGeometry
      (CircleOutlineGeometry.unpack example_env (VRef 11) (Some 0) VUndefined
         s1)
      (CircleOutlineGeometry.unpack example_env (VRef 11) (Some 0) VUndefined
         example_batch_state).
Proof.
  apply (CircleOutlineGeometry_unpack_after_failure example_env
           example_scratch example_batch_state 12 [] 0 11 example_content 0
           example_batch_state_wf).
  - apply arr_at_intro; concrete.
  - reflexivity.
  - apply arr_at_intro; concrete.
Defined.

(** *** Packing a sphere *)

Lemma ellipsoidg_at_length s l lr c : ellipsoidg_at s l lr c -> length c = 6.
Proof.
  intros (_ & _ & o & cr & _ & _ & Cr & ->).
  now rewrite length_app, (c3_at_length _ _ _ Cr).
Qed.

Lemma EllipsoidOutlineGeometry_pack_spec s l lr c a els i :
  ellipsoidg_at s l lr c -> arr_at s a els ->
  exists s', EllipsoidOutlineGeometry.pack (VRef l) (VRef a) (Some i) s
             = Return (VRef a) s' /\
    next s' = next s /\ frame [a] s s' /\ arr_at s' a (write_at els i c).
Proof.
  intros (B & D & o & cr & H & Hr & Cr & ->) A.
  pose proof (c3_at_length _ _ _ Cr) as Lr.
  assert (Dl : l <> a) by (destruct A as (_ & A); intros ->; congruence).
  unfold EllipsoidOutlineGeometry.pack.
  repeat step.
  destruct (Cartesian3_pack_spec s lr cr a els i Cr A) as (s1 & E1 & N1 & F1 & A1).
  call E1. destruct A1 as (Ba & A1). repeat step.
  eexists; split; [reflexivity|]. heap_norm.
  split; [lia|]. split; [frame_solve|]. split; [st_simpl; lia|].
  heap_norm. do 2 f_equal.
  rewrite write_at_app, Lr. cbn [write_at map ellipsoid_fields length].
  repeat (f_equal; try lia).
Qed.

Lemma SphereOutlineGeometry_pack_spec s d eg lr c a els i :
  sphere_at s d eg lr c -> arr_at s a els ->
  exists s', SphereOutlineGeometry.pack (VRef d) (VRef a) (Some i) s
             = Return (VRef a) s' /\
    next s' = next s /\ frame [a] s s' /\ arr_at s' a (write_at els i c).
Proof.
  intros (B & D & (o & H & Hg) & E) A.
  unfold SphereOutlineGeometry.pack.
  repeat step.
  apply EllipsoidOutlineGeometry_pack_spec with (1 := E) (2 := A).
Qed.

Lemma sphere_wf_frame L e g s s' :
  frame L s s' -> (forall l, In l (sphere_scratch_locs g) -> ~ In l L) ->
  sphere_wf e g s -> sphere_wf e g s'.
Proof.
  intros F N (He & (c & E) & B & (o & H & Hr) & (c' & C) & D).
  assert (N1 : ~ In (SSEG g) L) by (apply N; cbn; auto).
  assert (N2 : ~ In (SSEGr g) L) by (apply N; cbn; auto).
  assert (N3 : ~ In (SSO g) L) by (apply N; cbn; auto).
  assert (N4 : ~ In (SSOr g) L) by (apply N; cbn; auto).
  split; [exact He|]. split; [|split; [|split; [|split; [|exact D]]]].
  - exists c. eapply ellipsoidg_at_frame; eauto.
  - pose proof (frame_next _ _ _ F). lia.
  - exists o. now rewrite (frame_heap _ _ _ _ F B N3).
  - exists c'. eapply c3_at_frame; eauto.
Qed.

Lemma arr_at_sphere_scratch e g s a els l :
  sphere_wf e g s -> arr_at s a els ->
  In l (sphere_scratch_locs g) -> ~ In l [a].
Proof.
  intros (_ & (c & (_ & _ & og & cr & Hg & _ & (_ & orr & Hr & _) & _)) & _
          & (o & H & _) & (c' & (_ & o' & H' & _)) & _) A I [<-|[]].
  unfold sphere_scratch_locs in I. cbn [In] in I.
  destruct I as [<-|[<-|[<-|[<-|[]]]]];
    (eapply arr_at_not_obj; [exact A| |reflexivity]); eassumption.
Qed.

Lemma sphere_wf_bounds e g s l :
  sphere_wf e g s -> In l (sphere_scratch_locs g) -> l < next s.
Proof.
  intros (_ & (c & (Bg & _ & og & cr & _ & _ & (Br & _) & _)) & B & _
          & (c' & (B' & _)) & _) I.
  unfold sphere_scratch_locs in I. cbn [In] in I.
  destruct I as [<-|[<-|[<-|[<-|[]]]]]; assumption.
Qed.

Lemma unpacked_sphere_write_at els i c :
  length c = 6 -> valid_sphere c -> unpacked_sphere (write_at els i c) i = c.
Proof.
  intros L (F & H1 & H2).
  pose proof (nth_write_at els i c 0) as H0.
  rewrite Nat.add_0_r, L in H0. specialize (H0 ltac:(lia)).
  unfold unpacked_sphere, sdefaults.
  rewrite H0, !nth_write_at by lia. clear H0.
  do 6 (destruct c as [|? c]; [discriminate L|]).
  destruct c; [|discriminate L]. cbn in H1, H2. subst.
  cbn [nth].
  repeat match goal with
         | H : Forall _ (_ :: _) |- _ => inversion H; clear H; subst
         end.
  cbn [dv0 map app]. unfold defaultValue.
  repeat (match goal with
          | H : defined ?v = true |- _ => rewrite H
          end; cbn iota).
  reflexivity.
Qed.

(** X6: packing a sphere into any array at any index and unpacking it there
    returns a description with the radii, partitions and subdivisions of
    the sphere. *)
Theorem SphereOutlineGeometry_pack_unpack e g s d eg lr c a els i :
  sphere_wf e g s -> sphere_at s d eg lr c -> valid_sphere c ->
  arr_at s a els ->
  exists s1 d' s2,
    SphereOutlineGeometry.pack (VRef d) (VRef a) (Some i) s
    = Return (VRef a) s1 /\
    SphereOutlineGeometry.unpack e (VRef a) (Some i) VUndefined s1
    = Return d' s2 /\
    read_SphereOutlineGeometry s2 d' = Some c /\
    read_SphereOutlineGeometry s (VRef d) = Some c.
Proof.
  intros W C V A.
  destruct (SphereOutlineGeometry_pack_spec s d eg lr c a els i C A)
    as (s1 & E1 & N1 & F1 & A1).
  assert (W1 : sphere_wf e g s1).
  { apply (sphere_wf_frame [a] e g s); auto. intros l.
    now apply arr_at_sphere_scratch with (e := e) (s := s) (els := els). }
  assert (L : length c = 6).
  { destruct C as (_ & _ & _ & E). eapply ellipsoidg_at_length; eauto. }
  destruct (SphereOutlineGeometry_unpack_new e g s1 a (write_at els i c) i W1 A1)
    as (s2 & E2 & N2 & F2 & W2 & C2).
  rewrite unpacked_sphere_write_at in C2 by assumption.
  exists s1, (VRef (1 + next s1)), s2.
  split; [exact E1|]. split; [exact E2|]. split.
  - exact (sphere_at_read _ _ _ _ _ C2).
  - exact (sphere_at_read _ _ _ _ _ C).
Qed.

Lemma sphere_content_valid oo : valid_sphere (sphere_content oo).
Proof.
  unfold sphere_content, valid_sphere, sdefaults. cbv zeta.
  split; [|split; reflexivity].
  apply Forall_app. split; [apply dv0_all_defined|].
  repeat constructor; apply defaultValue_is_defined; reflexivity.
Qed.

Lemma ellipsoidg_at_intro s l lr cr fs :
  l < next s -> lr < next s -> l <> lr ->
  field s (VRef l) "_radii" = Some (VRef lr) ->
  read_Cartesian3 s (VRef lr) = Some cr ->
  fields s (VRef l) ellipsoid_fields = Some fs ->
  ellipsoidg_at s l lr (cr ++ fs).
Proof.
  intros B Br D Hr Cr Hf.
  apply field_inv in Hr as (o & H & Hr).
  apply fields_inv in Hf as (o' & H' & ->).
  rewrite H in H'. injection H' as <-.
  split; [exact B|]. split; [exact D|].
  exists o, cr. split; [exact H|]. split; [exact Hr|].
  split; [now apply c3_at_intro|reflexivity].
Qed.

Lemma sphere_wf_intro s l lr cr fs lo lor c :
  l < next s -> lr < next s -> lo < next s -> lor < next s ->
  NoDup [l; lr; lo; lor] ->
  field s (VRef l) "_radii" = Some (VRef lr) ->
  read_Cartesian3 s (VRef lr) = Some cr ->
  fields s (VRef l) ellipsoid_fields = Some fs ->
  field s (VRef lo) "radii" = Some (VRef lor) ->
  read_Cartesian3 s (VRef lor) = Some c ->
  sphere_wf (SphereOutlineGeometry.mkEnv (VRef l) (VRef lo))
    (mkSphereScratch l lr lo lor) s.
Proof.
  intros B Br Bo Bor D Hr Cr Hf Ho Co.
  split; [reflexivity|]. cbn [SSEG SSEGr SSO SSOr].
  split; [|split; [exact Bo|split; [|split; [|exact D]]]].
  - exists (cr ++ fs)%list. apply ellipsoidg_at_intro; auto.
    inversion D as [|? ? N _]; subst. cbn [In] in N. intros ->. tauto.
  - apply field_inv in Ho as (o & H & Ho). eauto.
  - exists c. now apply c3_at_intro.
Qed.

Lemma example_sphere_worker_wf :
  sphere_wf example_sphere_env example_sphere_scratch example_sphere_worker.
Proof. eapply sphere_wf_intro; concrete. Qed.

Lemma example_sphere :
  sphere_at example_sphere_worker 6 9 10 example_sphere_content.
Proof.
  split; [concrete|]. split; [concrete|]. split.
  - destruct (field_inv example_sphere_worker 6 "_ellipsoidGeometry" (VRef 9))
      as (o & H & Hg); [concrete|]. eauto.
  - apply (ellipsoidg_at_intro _ 9 10 [VNumber 2; VNumber 2; VNumber 2]
             [VNumber 10; VNumber 8; VNumber 200]); concrete.
Qed.

Lemma example_sphere_valid : valid_sphere example_sphere_content.
Proof.
  split; [|split; reflexivity]. repeat constructor.
Qed.

Lemma SphereOutlineGeometry_pack_unpack_witness :
  exists s1 d' s2,
    SphereOutlineGeometry.pack (VRef 6) (VRef 11) (Some 4)
      example_sphere_worker
    = Return (VRef 11) s1 /\
    SphereOutlineGeometry.unpack example_sphere_env (VRef 11) (Some 4)
      VUndefined s1
    = Return d' s2 /\
    read_SphereOutlineGeometry s2 d' = Some example_sphere_content /\
    read_SphereOutlineGeometry example_sphere_worker (VRef 6)
    = Some example_sphere_content.
Proof.
  apply (SphereOutlineGeometry_pack_unpack example_sphere_env
           example_sphere_scratch example_sphere_worker 6 9 10
           example_sphere_content 11 [] 4
           example_sphere_worker_wf example_sphere example_sphere_valid).
  apply arr_at_intro; concrete.
Defined.

(** X7: packing a sphere into an array at an index and handing the array
    and the index to createSphereOutlineGeometry yields the geometry that
    createGeometry computes for the sphere itself. *)
Theorem pack_then_createSphereOutlineGeometry e g s d eg lr c a els i :
  sphere_wf e g s -> sphere_at s d eg lr c -> valid_sphere c ->
  arr_at s a els ->
  exists v s1 s2,
    SphereOutlineGeometry.createGeometry (VRef d) s = Return v s /\
    SphereOutlineGeometry.pack (VRef d) (VRef a) (Some i) s
    = Return (VRef a) s1 /\
    SphereOutlineGeometry.createSphereOutlineGeometry e (VRef a) (Some i) s1
    = Return v s2.
Proof.
  intros W C V A.
  destruct (SphereOutlineGeometry_pack_spec s d eg lr c a els i C A)
    as (s1 & E1 & N1 & F1 & A1).
  assert (W1 : sphere_wf e g s1).
  { apply (sphere_wf_frame [a] e g s); auto. intros l.
    now apply arr_at_sphere_scratch with (e := e) (s := s) (els := els). }
  assert (L : length c = 6).
  { destruct C as (_ & _ & _ & E). eapply ellipsoidg_at_length; eauto. }
  destruct (SphereOutlineGeometry_unpack_new e g s1 a (write_at els i c) i W1 A1)
    as (s2 & E2 & N2 & F2 & W2 & C2).
  rewrite unpacked_sphere_write_at in C2 by assumption.
  exists (EllipsoidOutlineGeometry.tessellate c), s1, s2.
  split; [exact (SphereOutlineGeometry_createGeometry_spec _ _ _ _ _ C)|].
  split; [exact E1|].
  unfold SphereOutlineGeometry.createSphereOutlineGeometry.
  rewrite (bind_Return _ _ _ _ _ E2).
  exact (SphereOutlineGeometry_createGeometry_spec _ _ _ _ _ C2).
Qed.

Lemma pack_then_createSphereOutlineGeometry_witness :
  exists v s1 s2,
    SphereOutlineGeometry.createGeometry (VRef 6) example_sphere_worker
    = Return v example_sphere_worker /\
    SphereOutlineGeometry.pack (VRef 6) (VRef 11) (Some 0)
      example_sphere_worker
    = Return (VRef 11) s1 /\
    SphereOutlineGeometry.createSphereOutlineGeometry example_sphere_env
      (VRef 11) (Some 0) s1
    = Return v s2.
Proof.
  apply (pack_then_createSphereOutlineGeometry example_sphere_env
           example_sphere_scratch example_sphere_worker 6 9 10
           example_sphere_content 11 [] 0
           example_sphere_worker_wf example_sphere example_sphere_valid).
  apply arr_at_intro; concrete.
Defined.

(** *** The module cache *)

Lemma not_defined v : defined v = false -> v = VUndefined.
Proof. destruct v; cbn; congruence. Qed.

Lemma Worker_init_cache b s K :
  exists e s', Worker.init b s = Return e s' /\ cache_keys e s' K /\
               Worker.exports_is_object e = b.
Proof.
  unfold Worker.init. repeat step. eexists _, _. split; [reflexivity|].
  split; [|reflexivity].
  exists (next s), empty_object. cbn [Worker.moduleCache heap].
  split; [reflexivity|]. split; [apply hupd_eq|].
  intros k Hk. discriminate Hk.
Qed.

Lemma getModule_stores_no_module_name modules e s m f :
  cache_keys e s no_module_name -> ~ no_module_name m ->
  modules ("Workers/" ++ m) = Some f ->
  exists s',
    Worker.getModule modules e m s = Return (VFunction ("Workers/" ++ m)) s' /\
    loads s' = ("Workers/" ++ m) :: loads s /\
    cache_keys e s' no_module_name.
Proof.
  intros (lc & cache & Hc & Hl & HK) Hm Hf.
  assert (Hu : cache m = VUndefined).
  { apply not_defined. destruct (defined (cache m)) eqn:Hd; [|reflexivity].
    destruct Hm. now apply HK. }
  rewrite (getModule_miss modules e s lc cache m f Hc Hl Hu Hf).
  eexists. split; [reflexivity|]. split; [reflexivity|].
  exists lc. eexists. split; [exact Hc|]. cbn [heap].
  split; [apply hupd_eq|].
  intros k Hk. unfold oupd in Hk.
  destruct (String.eqb_spec k
              (if Worker.exports_is_object e then "undefined"
               else Worker.Function_toString ("Workers/" ++ m))) as [Heq|_].
  - rewrite Heq. destruct (Worker.exports_is_object e); [now left|right; eauto].
  - now apply HK.
Qed.

(** X8: the module cache never answers for the name of a worker module. The
    cache starts with no property of its own, and [getModule] stores a
    module only under the key that [undefined] or the loaded function
    converts to; so every call for a name the loader resolves, other than
    such a key and than the names a plain object inherits, returns the
    creation function after invoking the loader once more, however often
    that name or another was resolved before. *)
Theorem getModule_always_loads modules :
  (forall b s,
      exists e s',
        Worker.init b s = Return e s' /\ cache_keys e s' no_module_name /\
        Worker.exports_is_object e = b) /\
  (forall e s m f,
      cache_keys e s no_module_name -> ~ no_module_name m ->
      ~ In m Object_prototype_members ->
      modules ("Workers/" ++ m) = Some f ->
      exists s',
        Worker.getModule modules e m s
        = Return (VFunction ("Workers/" ++ m)) s' /\
        loads s' = ("Workers/" ++ m) :: loads s /\
        cache_keys e s' no_module_name).
Proof.
  split.
  - intros b s. apply Worker_init_cache.
  - intros e s m f K Hm _ Hf.
    exact (getModule_stores_no_module_name modules e s m f K Hm Hf).
Qed.

Lemma example_no_module_name :
  ~ no_module_name "createCircleOutlineGeometry" /\
  ~ no_module_name "createSphereOutlineGeometry".
Proof.
  split; (intros [H|(path & H)]; [discriminate H|]);
    unfold Worker.Function_toString in H; cbn in H; discriminate H.
Qed.

Lemma example_not_inherited :
  ~ In "createCircleOutlineGeometry" Object_prototype_members /\
  ~ In "createSphereOutlineGeometry" Object_prototype_members.
Proof.
  split; intros H; cbn in H;
    repeat (destruct H as [H|H]; [discriminate H|]); exact H.
Qed.

Lemma example_cache_keys :
  cache_keys example_dispatcher example_batch_state no_module_name.
Proof.
  exists 10, empty_object. split; [reflexivity|]. split; [concrete|].
  intros k Hk. discriminate Hk.
Qed.

Lemma getModule_always_loads_witness :
  exists s1 s2 s3,
    Worker.getModule example_modules' example_dispatcher
      "createCircleOutlineGeometry" example_batch_state
    = Return (VFunction "Workers/createCircleOutlineGeometry") s1 /\
    Worker.getModule example_modules' example_dispatcher
      "createSphereOutlineGeometry" s1
    = Return (VFunction "Workers/createSphereOutlineGeometry") s2 /\
    Worker.getModule example_modules' example_dispatcher
      "createCircleOutlineGeometry" s2
    = Return (VFunction "Workers/createCircleOutlineGeometry") s3 /\
    loads s3
    = "Workers/createCircleOutlineGeometry"
      :: "Workers/createSphereOutlineGeometry"
      :: "Workers/createCircleOutlineGeometry"
      :: loads example_batch_state.
Proof.
  destruct (proj2 (getModule_always_loads example_modules') example_dispatcher
              example_batch_state "createCircleOutlineGeometry" _
              example_cache_keys (proj1 example_no_module_name)
              (proj1 example_not_inherited) eq_refl)
    as (s1 & E1 & L1 & K1).
  destruct (proj2 (getModule_always_loads example_modules') example_dispatcher
              s1 "createSphereOutlineGeometry" _
              K1 (proj2 example_no_module_name)
              (proj2 example_not_inherited) eq_refl)
    as (s2 & E2 & L2 & K2).
  destruct (proj2 (getModule_always_loads example_modules') example_dispatcher
              s2 "createCircleOutlineGeometry" _
              K2 (proj1 example_no_module_name)
              (proj1 example_not_inherited) eq_refl)
    as (s3 & E3 & L3 & K3).
  exists s1, s2, s3. split; [exact E1|]. split; [exact E2|].
  split; [exact E3|]. cbn [append] in L1, L2, L3. now rewrite L3, L2, L1.
Defined.

(** X9: in a worker with CommonJS modules the last module loaded is stored
    under the key "undefined": after [getModule] has resolved a module
    name, [getModule("undefined")] returns the creation function of that
    module, without invoking the loader. *)
Theorem getModule_undefined_key modules e s lc cache m f :
  Worker.exports_is_object e = true ->
  Worker.moduleCache e = VRef lc -> heap s lc = Some (Object cache) ->
  cache m = VUndefined -> modules ("Workers/" ++ m) = Some f ->
  exists s1,
    Worker.getModule modules e m s = Return (VFunction ("Workers/" ++ m)) s1 /\
    Worker.getModule modules e "undefined" s1
    = Return (VFunction ("Workers/" ++ m)) s1.
Proof.
  intros He Hc Hl Hm Hf.
  rewrite (getModule_miss modules e s lc cache m f Hc Hl Hm Hf), He.
  eexists. split; [reflexivity|].
  unfold Worker.getModule. rewrite Hc.
  erewrite bind_Return by (apply getField_obj; cbn [heap]; apply hupd_eq).
  rewrite oupd_eq. reflexivity.
Qed.

Lemma getModule_undefined_key_witness :
  exists s1,
    Worker.getModule example_modules example_dispatcher
      "createCircleOutlineGeometry" example_batch_state
    = Return (VFunction ("Workers/" ++ "createCircleOutlineGeometry")) s1 /\
    Worker.getModule example_modules example_dispatcher "undefined" s1
    = Return (VFunction ("Workers/" ++ "createCircleOutlineGeometry")) s1.
Proof.
  apply (getModule_undefined_key example_modules example_dispatcher
           example_batch_state 10 empty_object "createCircleOutlineGeometry"
           (CircleOutlineGeometry.createCircleOutlineGeometry example_env)
           eq_refl eq_refl).
  - concrete.
  - reflexivity.
  - reflexivity.
Defined.

(** *** Batches of a worker with the circle outline module *)

Lemma wf_loads e g h n l l' :
  wf e g (mkState h n l) -> wf e g (mkState h n l').
Proof. exact (fun H => H). Qed.

Lemma arr_at_loads a els h n l l' :
  arr_at (mkState h n l) a els -> arr_at (mkState h n l') a els.
Proof. exact (fun H => H). Qed.

Lemma createGeometry_created modules e subTasks s :
  Forall (fun t => Worker.moduleName t = None) subTasks ->
  runs modules e subTasks s (map Worker.geometry subTasks) s.
Proof.
  induction 1 as [|t ts Ht _ IH]; cbn [map]; [constructor|].
  econstructor; [|exact IH]. unfold Worker.createOne. now rewrite Ht.
Qed.

(** X10: a batch of tasks that all carry their geometry is handed to the
    packer as the list of these geometries, in the order of the batch; no
    module is resolved and the state is the one the batch started in. *)
Theorem createGeometry_created_only
        modules packCreateGeometryResults e subTasks transferableObjects s :
  Forall (fun t => Worker.moduleName t = None) subTasks ->
  Worker.createGeometry modules packCreateGeometryResults e subTasks
    transferableObjects s
  = packCreateGeometryResults (map Worker.geometry subTasks)
      transferableObjects s.
Proof.
  intros H. apply createGeometry_runs.
  now apply createGeometry_created.
Qed.

Lemma createGeometry_created_only_witness :
  Worker.createGeometry example_modules example_pack example_dispatcher
    [created_task example_geometry; created_task VUndefined] VUndefined
    example_batch_state
  = example_pack [example_geometry; VUndefined] VUndefined
      example_batch_state.
Proof.
  apply (createGeometry_created_only example_modules example_pack
           example_dispatcher
           [created_task example_geometry; created_task VUndefined]).
  repeat constructor.
Defined.

Lemma createOne_packed_circle modules e ec g s a els i r :
  circle_worker modules e ec g s ->
  arr_at s a els -> nth (i + 6) els VUndefined = VNumber r ->
  exists s',
    Worker.createOne modules e
      (Worker.mkTask (VRef a) (Some "createCircleOutlineGeometry") (Some i)) s
    = Return (EllipseOutlineGeometry.tessellate (unpacked_circle els i r)) s' /\
    circle_worker modules e ec g s' /\
    loads s' = "Workers/createCircleOutlineGeometry" :: loads s /\
    forall a' els', arr_at s a' els' -> arr_at s' a' els'.
Proof.
  intros (Hf & W & lc & cache & Hc & Blc & Nlc & Hl & Hm) A Hr.
  unfold Worker.createOne.
  cbn [Worker.moduleName Worker.geometry Worker.offset].
  pose proof (getModule_miss modules e s lc cache
                "createCircleOutlineGeometry" _ Hc Hl Hm Hf) as E1.
  cbn [append] in E1.
  rewrite (bind_Return _ _ _ _ _ E1).
  unfold Worker.call. rewrite Hf.
  set (key := if Worker.exports_is_object e then "undefined"
              else Worker.Function_toString
                     "Workers/createCircleOutlineGeometry") in *.
  set (cache' := oupd cache key
                   (VFunction "Workers/createCircleOutlineGeometry")) in *.
  assert (F0 : frame [lc] s
                 (mkState (hupd (heap s) lc (Object cache')) (next s) (loads s))).
  { split; [cbn; lia|]. split; [reflexivity|].
    intros l _ Hl0. cbn [heap]. apply hupd_ne. cbn [In] in Hl0. intros ->. tauto. }
  assert (T : forall a' els', arr_at s a' els' ->
                arr_at (mkState (hupd (heap s) lc (Object cache')) (next s)
                          ("Workers/createCircleOutlineGeometry" :: loads s))
                  a' els').
  { intros a' els' A'. apply (arr_at_loads _ _ _ _ (loads s)).
    apply (arr_at_frame [lc] s); [exact F0| |exact A'].
    intros [<-|[]]. eapply arr_at_not_obj; [exact A'|exact Hl|reflexivity]. }
  assert (W1 : wf ec g
                 (mkState (hupd (heap s) lc (Object cache')) (next s)
                    ("Workers/createCircleOutlineGeometry" :: loads s))).
  { apply (wf_loads _ _ _ _ (loads s)).
    apply (wf_frame [lc] ec g s); [exact F0| |exact W].
    intros l Hin [<-|[]]. contradiction. }
  destruct (createCircleOutlineGeometry_unpacked ec g _ a els i r W1 (T _ _ A) Hr)
    as (s2 & E2 & W2 & F2).
  exists s2. split; [exact E2|]. split; [|split].
  - split; [exact Hf|]. split; [exact W2|].
    exists lc, cache'. split; [exact Hc|].
    pose proof (frame_next _ _ _ F2) as Hn. cbn [next] in Hn.
    split; [lia|]. split; [exact Nlc|]. split.
    + rewrite (frame_heap _ _ _ lc F2); [cbn [heap]; apply hupd_eq| |exact Nlc].
      cbn [next]. exact Blc.
    + unfold cache'. rewrite oupd_ne; [exact Hm|].
      unfold key. destruct (Worker.exports_is_object e); reflexivity.
  - rewrite (frame_loads _ _ _ F2). reflexivity.
  - intros a' els' A'.
    apply (arr_at_frame (scratch_locs g) _ s2 a' els' F2); [|exact (T _ _ A')].
    intros Hin. apply (arr_at_scratch ec g _ a' els' a' W1 (T _ _ A') Hin).
    now left.
Qed.

Lemma circle_task_transport s s' t v :
  (forall a els, arr_at s a els -> arr_at s' a els) ->
  circle_task s t v -> circle_task s' t v.
Proof.
  intros T [H|(a & els & i & r & -> & A & Hr & ->)]; [now left|].
  right. exists a, els, i, r. auto.
Qed.

Lemma circle_tasks_transport s s' ts vs :
  (forall a els, arr_at s a els -> arr_at s' a els) ->
  Forall2 (circle_task s) ts vs -> Forall2 (circle_task s') ts vs.
Proof.
  intros T H. induction H; constructor; auto.
  eapply circle_task_transport; eauto.
Qed.

Lemma repeat_app_cons {A} (x : A) n l :
  (repeat x n ++ x :: l = x :: repeat x n ++ l)%list.
Proof. induction n as [|n IH]; cbn; [reflexivity|now rewrite IH]. Qed.

Lemma circle_batch_runs modules e ec g subTasks :
  forall results s,
    circle_worker modules e ec g s ->
    Forall2 (circle_task s) subTasks results ->
    exists s',
      runs modules e subTasks s results s' /\
      circle_worker modules e ec g s' /\
      loads s'
      = (repeat "Workers/createCircleOutlineGeometry"
           (length (filter has_module subTasks)) ++ loads s)%list.
Proof.
  induction subTasks as [|t ts IH]; intros results s Wk H;
    inversion H as [|? v ? vs Ht Hts]; subst.
  - exists s. split; [constructor|]. split; [exact Wk|reflexivity].
  - destruct Ht as [(Hn & ->)|(a & els & i & r & -> & A & Hr & ->)].
    + destruct (IH vs s Wk Hts) as (s' & R & Wk' & L).
      exists s'. split; [|split; [exact Wk'|]].
      * econstructor; [|exact R]. unfold Worker.createOne. now rewrite Hn.
      * cbn [filter]. unfold has_module at 1. rewrite Hn. exact L.
    + destruct (createOne_packed_circle modules e ec g s a els i r Wk A Hr)
        as (s1 & E1 & Wk1 & L1 & T1).
      destruct (IH vs s1 Wk1 (circle_tasks_transport s s1 ts vs T1 Hts))
        as (s' & R & Wk' & L).
      exists s'. split; [|split; [exact Wk'|]].
      * econstructor; [exact E1|exact R].
      * cbn [filter has_module Worker.moduleName length repeat app].
        rewrite L, L1. apply repeat_app_cons.
Qed.

(** X11: a worker with the circle outline module, given a batch whose
    tasks carry their geometry or a packed circle with an offset, hands the
    packer, in the order of the batch, the geometry of each task of the
    first kind and the tessellation of the circle packed at the offset for
    each task of the second kind. The loader is invoked once for every
    packed task, and the worker is then ready for the next batch. *)
Theorem createGeometry_circle_batch
        modules packCreateGeometryResults e ec g s subTasks results
        transferableObjects :
  circle_worker modules e ec g s ->
  Forall2 (circle_task s) subTasks results ->
  exists s',
    Worker.createGeometry modules packCreateGeometryResults e subTasks
      transferableObjects s
    = packCreateGeometryResults results transferableObjects s' /\
    loads s'
    = (repeat "Workers/createCircleOutlineGeometry"
         (length (filter has_module subTasks)) ++ loads s)%list /\
    circle_worker modules e ec g s'.
Proof.
  intros Wk H.
  destruct (circle_batch_runs modules e ec g subTasks results s Wk H)
    as (s' & R & Wk' & L).
  exists s'. split; [|split; [exact L|exact Wk']].
  now apply createGeometry_runs.
Qed.

Lemma example_circle_worker :
  circle_worker example_modules example_dispatcher example_env
    example_scratch example_batch_state.
Proof.
  split; [reflexivity|]. split; [exact example_batch_state_wf|].
  exists 10, empty_object. split; [reflexivity|]. split; [concrete|].
  split; [|split; [concrete|reflexivity]].
  unfold example_scratch, scratch_locs.
  cbn [SEG SEGc SEGe SEGr SO SOc SOe SOr]. concrete.
Qed.

Lemma createGeometry_circle_batch_witness :
  exists s',
    Worker.createGeometry example_modules example_pack example_dispatcher
      [packed_task 11; created_task example_geometry; packed_task 11]
      VUndefined example_batch_state
    = example_pack
        [EllipseOutlineGeometry.tessellate
           (unpacked_circle example_content 0 100000);
         example_geometry;
         EllipseOutlineGeometry.tessellate
           (unpacked_circle example_content 0 100000)]
        VUndefined s' /\
    loads s'
    = (repeat "Workers/createCircleOutlineGeometry"
         (length (filter has_module
                    [packed_task 11; created_task example_geometry;
                     packed_task 11]))
       ++ loads example_batch_state)%list /\
    circle_worker example_modules example_dispatcher example_env
      example_scratch s'.
Proof.
  apply (createGeometry_circle_batch example_modules example_pack
           example_dispatcher example_env example_scratch
           example_batch_state _ _ VUndefined example_circle_worker).
  assert (A : arr_at example_batch_state 11 example_content)
    by (apply arr_at_intro; concrete).
  constructor;
    [right; exists 11, example_content, 0, 100000%float; auto|].
  constructor; [left; auto|].
  constructor; [right; exists 11, example_content, 0, 100000%float; auto|].
  constructor.
Defined.


(** X14: createCircleOutlineGeometry with an offset reads the array and
    does not write it: the array holds the same elements afterwards, and a
    second call on the same array and offset returns the same geometry. *)
Theorem createCircleOutlineGeometry_keeps_array e g s a els i r :
  wf e g s -> arr_at s a els -> nth (i + 6) els VUndefined = VNumber r ->
  exists v s1 s2,
    CircleOutlineGeometry.createCircleOutlineGeometry e (VRef a) (Some i) s
    = Return v s1 /\
    arr_at s1 a els /\
    CircleOutlineGeometry.createCircleOutlineGeometry e (VRef a) (Some i) s1
    = Return v s2 /\
    arr_at s2 a els.
Proof.
  intros W A Hr.
  destruct (createCircleOutlineGeometry_unpacked e g s a els i r W A Hr)
    as (s1 & E1 & W1 & F1).
  assert (A1 : arr_at s1 a els).
  { apply (arr_at_frame (scratch_locs g) s); [exact F1| |exact A].
    intros Hin. apply (arr_at_scratch e g s a els a W A Hin). now left. }
  destruct (createCircleOutlineGeometry_unpacked e g s1 a els i r W1 A1 Hr)
    as (s2 & E2 & W2 & F2).
  eexists _, s1, s2. split; [exact E1|]. split; [exact A1|].
  split; [exact E2|].
  apply (arr_at_frame (scratch_locs g) s1); [exact F2| |exact A1].
  intros Hin. apply (arr_at_scratch e g s1 a els a W1 A1 Hin). now left.
Qed.

Lemma createCircleOutlineGeometry_keeps_array_witness :
  exists v s1 s2,
    CircleOutlineGeometry.createCircleOutlineGeometry example_env (VRef 11)
      (Some 0) example_batch_state
    = Return v s1 /\
    arr_at s1 11 example_content /\
    CircleOutlineGeometry.createCircleOutlineGeometry example_env (VRef 11)
      (Some 0) s1
    = Return v s2 /\
    arr_at s2 11 example_content.
Proof.
  apply (createCircleOutlineGeometry_keeps_array example_env example_scratch
           example_batch_state 11 example_content 0 100000
           example_batch_state_wf).
  - apply arr_at_intro; concrete.
  - reflexivity.
Defined.

Lemma createOne_invalid_circle modules e ec g s a els i :
  circle_worker modules e ec g s ->
  arr_at s a els -> is_number (nth (i + 6) els VUndefined) = false ->
  exists s',
    Worker.createOne modules e
      (Worker.mkTask (VRef a) (Some "createCircleOutlineGeometry") (Some i)) s
    = Throw (DeveloperError
               ("Expected radius to be typeof number, actual typeof was "
                ++ typeOf (nth (i + 6) els VUndefined))) s' /\
    circle_worker modules e ec g s' /\
    forall a' els', arr_at s a' els' -> arr_at s' a' els'.
Proof.
  intros (Hf & W & lc & cache & Hc & Blc & Nlc & Hl & Hm) A Hr.
  unfold Worker.createOne.
  cbn [Worker.moduleName Worker.geometry Worker.offset].
  pose proof (getModule_miss modules e s lc cache
                "createCircleOutlineGeometry" _ Hc Hl Hm Hf) as E1.
  cbn [append] in E1.
  rewrite (bind_Return _ _ _ _ _ E1).
  unfold Worker.call. rewrite Hf.
  set (key := if Worker.exports_is_object e then "undefined"
              else Worker.Function_toString
                     "Workers/createCircleOutlineGeometry") in *.
  set (cache' := oupd cache key
                   (VFunction "Workers/createCircleOutlineGeometry")) in *.
  assert (F0 : frame [lc] s
                 (mkState (hupd (heap s) lc (Object cache')) (next s) (loads s))).
  { split; [cbn; lia|]. split; [reflexivity|].
    intros l _ Hl0. cbn [heap]. apply hupd_ne. cbn [In] in Hl0. intros ->. tauto. }
  assert (T : forall a' els', arr_at s a' els' ->
                arr_at (mkState (hupd (heap s) lc (Object cache')) (next s)
                          ("Workers/createCircleOutlineGeometry" :: loads s))
                  a' els').
  { intros a' els' A'. apply (arr_at_loads _ _ _ _ (loads s)).
    apply (arr_at_frame [lc] s); [exact F0| |exact A'].
    intros [<-|[]]. eapply arr_at_not_obj; [exact A'|exact Hl|reflexivity]. }
  assert (W1 : wf ec g
                 (mkState (hupd (heap s) lc (Object cache')) (next s)
                    ("Workers/createCircleOutlineGeometry" :: loads s))).
  { apply (wf_loads _ _ _ _ (loads s)).
    apply (wf_frame [lc] ec g s); [exact F0| |exact W].
    intros l Hin [<-|[]]. contradiction. }
  destruct (CircleOutlineGeometry_unpack_invalid_wf ec g _ a els i W1 (T _ _ A) Hr)
    as (s2 & E2 & F2 & W2).
  exists s2. split; [|split].
  - unfold CircleOutlineGeometry.createCircleOutlineGeometry.
    now rewrite (bind_Throw _ _ _ _ _ E2).
  - split; [exact Hf|]. split; [exact W2|].
    exists lc, cache'. split; [exact Hc|].
    pose proof (frame_next _ _ _ F2) as Hn. cbn [next] in Hn.
    split; [lia|]. split; [exact Nlc|]. split.
    + rewrite (frame_heap _ _ _ lc F2); [cbn [heap]; apply hupd_eq| |exact Nlc].
      cbn [next]. exact Blc.
    + unfold cache'. rewrite oupd_ne; [exact Hm|].
      unfold key. destruct (Worker.exports_is_object e); reflexivity.
  - intros a' els' A'.
    apply (arr_at_frame (scratch_locs g) _ s2 a' els' F2); [|exact (T _ _ A')].
    intros Hin. apply (arr_at_scratch ec g _ a' els' a' W1 (T _ _ A') Hin).
    now left.
Qed.

Lemma runs_arrays modules e ec g subTasks :
  forall results s,
    circle_worker modules e ec g s ->
    Forall2 (circle_task s) subTasks results ->
    exists s',
      runs modules e subTasks s results s' /\
      circle_worker modules e ec g s' /\
      forall a els, arr_at s a els -> arr_at s' a els.
Proof.
  induction subTasks as [|t ts IH]; intros results s Wk H;
    inversion H as [|? v ? vs Ht Hts]; subst.
  - exists s. split; [constructor|]. split; [exact Wk|auto].
  - destruct Ht as [(Hn & ->)|(a & els & i & r & -> & A & Hr & ->)].
    + destruct (IH vs s Wk Hts) as (s' & R & Wk' & T).
      exists s'. split; [|split; [exact Wk'|exact T]].
      econstructor; [|exact R]. unfold Worker.createOne. now rewrite Hn.
    + destruct (createOne_packed_circle modules e ec g s a els i r Wk A Hr)
        as (s1 & E1 & Wk1 & L1 & T1).
      destruct (IH vs s1 Wk1 (circle_tasks_transport s s1 ts vs T1 Hts))
        as (s' & R & Wk' & T).
      exists s'. split; [|split; [exact Wk'|]].
      * econstructor; [exact E1|exact R].
      * intros a' els' A'. apply T, T1, A'.
Qed.

(** X15: when a batch fails because one of its tasks has an array whose
    element at the place of the semi-major axis is not a number, the worker
    fails the batch with the DeveloperError and stays usable: a batch
    submitted afterwards, for instance of the unaffected tasks, is
    dispatched as if the failed batch had not been. *)
Theorem createGeometry_recovers
        modules packCreateGeometryResults e ec g s before done a els i after
        retry results transferableObjects :
  circle_worker modules e ec g s ->
  Forall2 (circle_task s) before done ->
  arr_at s a els -> is_number (nth (i + 6) els VUndefined) = false ->
  Forall2 (circle_task s) retry results ->
  exists s1 s2,
    Worker.createGeometry modules packCreateGeometryResults e
      (before
       ++ Worker.mkTask (VRef a) (Some "createCircleOutlineGeometry") (Some i)
       :: after)
      transferableObjects s
    = Throw (DeveloperError
               ("Expected radius to be typeof number, actual typeof was "
                ++ typeOf (nth (i + 6) els VUndefined))) s1 /\
    Worker.createGeometry modules packCreateGeometryResults e retry
      transferableObjects s1
    = packCreateGeometryResults results transferableObjects s2.
Proof.
  intros Wk Hb A Hn Hr.
  destruct (runs_arrays modules e ec g before done s Wk Hb)
    as (sk & R & Wkk & T).
  destruct (createOne_invalid_circle modules e ec g sk a els i Wkk (T _ _ A) Hn)
    as (s1 & E1 & Wk1 & T1).
  assert (Hr1 : Forall2 (circle_task s1) retry results).
  { apply (circle_tasks_transport s); [|exact Hr].
    intros a' els' A'. apply T1, T, A'. }
  destruct (runs_arrays modules e ec g retry results s1 Wk1 Hr1)
    as (s2 & R2 & _).
  exists s1, s2. split.
  - apply (createGeometry_fails _ _ _ _ _ _ (length before)).
    eexists _, done, sk. split; [|split; [|exact E1]].
    + rewrite nth_error_app2, Nat.sub_diag by lia. reflexivity.
    + rewrite firstn_app, Nat.sub_diag, firstn_all. cbn [firstn].
      now rewrite app_nil_r.
  - now apply createGeometry_runs.
Qed.

Lemma createGeometry_recovers_witness :
  exists s1 s2,
    Worker.createGeometry example_modules example_pack example_dispatcher
      ([packed_task 11]
       ++ Worker.mkTask (VRef 12) (Some "createCircleOutlineGeometry") (Some 0)
       :: [packed_task 11])
      VUndefined example_batch_state
    = Throw (DeveloperError
               ("Expected radius to be typeof number, actual typeof was "
                ++ typeOf (nth (0 + 6) [] VUndefined))) s1 /\
    Worker.createGeometry example_modules example_pack example_dispatcher
      [packed_task 11; packed_task 11] VUndefined s1
    = example_pack
        [EllipseOutlineGeometry.tessellate
           (unpacked_circle example_content 0 100000);
         EllipseOutlineGeometry.tessellate
           (unpacked_circle example_content 0 100000)]
        VUndefined s2.
Proof.
  assert (A : arr_at example_batch_state 11 example_content)
    by (apply arr_at_intro; concrete).
  assert (T : circle_task example_batch_state (packed_task 11)
                (EllipseOutlineGeometry.tessellate
                   (unpacked_circle example_content 0 100000))).
  { right. exists 11, example_content, 0, 100000%float. auto. }
  apply (createGeometry_recovers example_modules example_pack
           example_dispatcher example_env example_scratch example_batch_state
           [packed_task 11]
           [EllipseOutlineGeometry.tessellate
              (unpacked_circle example_content 0 100000)]
           12 [] 0 [packed_task 11]
           [packed_task 11; packed_task 11]
           [EllipseOutlineGeometry.tessellate
              (unpacked_circle example_content 0 100000);
            EllipseOutlineGeometry.tessellate
              (unpacked_circle example_content 0 100000)]
           VUndefined example_circle_worker).
  - constructor; [exact T|constructor].
  - apply arr_at_intro; concrete.
  - reflexivity.
  - constructor; [exact T|]. constructor; [exact T|constructor].
Defined.

(** *** What [unpack] depends on: every case of the array and the result *)











(** The scratch objects of the two workers differ: the scratch ellipse of
    the used one has the semi-major axis that was unpacked before. *)
Lemma example_used_worker_scratch :
  field example_used_worker (VRef 2) "_semiMajorAxis"
  = Some (VNumber 300000) /\
  field example_fresh_worker (VRef 2) "_semiMajorAxis" = Some (VNumber 1) /\
  field example_used_worker (VRef 9) "radius" = Some (VNumber 300000) /\
  field example_fresh_worker (VRef 9) "radius" = Some VUndefined.
Proof. repeat split; vm_compute; reflexivity. Qed.

(** The scratch objects of the two sphere workers differ as well. *)
Lemma example_used_sphere_worker_scratch :
  field example_used_sphere_worker (VRef 4) "stackPartitions"
  = Some (VNumber 4) /\
  field example_fresh_sphere_worker (VRef 4) "stackPartitions"
  = Some VUndefined /\
  field example_used_sphere_worker (VRef 0) "_subdivisions"
  = Some (VNumber 50) /\
  field example_fresh_sphere_worker (VRef 0) "_subdivisions"
  <> Some (VNumber 50).
Proof. repeat split; vm_compute; congruence. Qed.





